(** * GreenFlow: the derived-metrics engine

    A shallow embedding of the score calculators of the GreenFlow server
    and of the properties stated about them:

    - [Shipment.calculateCarbonFootprint], the Shipment model
      (src/unnamed/part_004);
    - [Product.calculateGreenScore], the Product model
      (src/server/models/Order.js, its second half);
    - [Supplier.calculateESGScore], the Supplier model
      (src/unnamed/part_003);
    - [WasteAlert.calculateRiskLevel], [WasteAlert.generateRecommendations]
      (src/server/models/WasteAlert.js);
    - [Analytics.calculateCarbonScore], [Analytics.calculateSupplierScore],
      [Analytics.calculateProductScore], [Analytics.calculateWasteScore]
      (src/server/routes/analytics.js);
    - the virtual fields of the models ([Virtual]) and the pre-save hook
      of the Product model ([Middleware]);
    - the routes that call the calculators: the shipment, supplier and
      waste-alert routes ([ShipmentRoutes], [ShipmentAnalytics],
      [SupplierRoutes], [AlertRoutes]), the route optimiser
      ([RouteOptimizer], src/server/routes/routes.js), the waste
      prediction ([ProductRoutes], src/unnamed/part_005) and the
      sustainability score and performance comparison of the analytics
      ([AnalyticsRoutes], [Benchmarks]).

    Data.  A String field that the schema restricts with [enum] is an
    inductive type with the values of the schema; a field that a
    document may lack is an [option]; arrays are lists.

    Numbers.  The calculators are written once, over an interface
    [JSNumber] of the operations on JavaScript numbers that they use.
    It has two instances:

    - [number], exact rationals extended with [Infinity], [-Infinity]
      and [NaN].  It follows the IEEE rules for the special values, but
      it does not round or overflow and has one zero.  The statements
      that need arithmetic and that a rounding error of the doubles does
      not touch are proved in this instance.
    - [float], the binary64 numbers of the kernel, which are the numbers
      of JavaScript.  The concrete examples are evaluated in it as well,
      and so are the statements that hold by the shape of the code
      alone.  A statement that turns on a threshold or on a rounding tie
      is stated in this instance, from the specification of the order,
      the product and the quotient of the doubles: at such a point the
      two instances can part. *)

From Stdlib Require Import ZArith QArith Qround Lqa Lia Bool List String.
From Stdlib Require Import PrimFloat Uint63 SpecFloat FloatOps FloatAxioms.
From Stdlib Require Import Permutation Sorted Morphisms.
Import ListNotations.

Set Implicit Arguments.
Local Open Scope Q_scope.

(* ================================================================= *)
(** ** JavaScript numbers *)

(** The primitive operations: a literal, the four arithmetic operators,
    the two comparisons [<] and [<=], and [Math.round]. *)
Class JSNumber (N : Type) : Type := {
  lit : Q -> N;
  add : N -> N -> N;
  sub : N -> N -> N;
  mul : N -> N -> N;
  div : N -> N -> N;
  lt : N -> N -> bool;
  le : N -> N -> bool;
  Math_round : N -> N
}.

(** An instance is chosen from the type alone, never by default. *)
#[global] Hint Mode JSNumber ! : typeclass_instances.

Declare Scope js_scope.
Delimit Scope js_scope with js.

Section Operators.
Context {N : Type} `{JSNumber N}.

(** [a > b] and [a >= b] are [b < a] and [b <= a]. *)
Definition gt (a b : N) : bool := lt b a.
Definition ge (a b : N) : bool := le b a.

(** [NaN] is the one value not [<=] itself. *)
Definition NaN : N := div (lit 0) (lit 0).
Definition isNaN (x : N) : bool := negb (le x x).

(** [x === y] on numbers. *)
Definition strictEq (x y : N) : bool := le x y && le y x.

(** ToBoolean on a number: false on [0] and [NaN]. *)
Definition truthy (x : N) : bool :=
  negb (strictEq x (lit 0) || isNaN x).

(** [x || y] on numbers. *)
Definition or_else (x y : N) : N := if truthy x then x else y.

(** The length of an array, as a number. *)
Definition length_of {A : Type} (l : list A) : N :=
  lit (inject_Z (Z.of_nat (List.length l))).

(** [Math.min(a, b)] and [Math.max(a, b)]: [NaN] if either is. *)
Definition Math_min (a b : N) : N :=
  if isNaN a || isNaN b then NaN else if lt b a then b else a.
Definition Math_max (a b : N) : N :=
  if isNaN a || isNaN b then NaN else if lt a b then b else a.
End Operators.

Infix "+" := add : js_scope.
Infix "-" := sub : js_scope.
Infix "*" := mul : js_scope.
Infix "/" := div : js_scope.
Infix "<?" := lt : js_scope.
Infix "<=?" := le : js_scope.
Infix ">?" := gt : js_scope.
Infix ">=?" := ge : js_scope.
(** [x ||| y] is [x || y]. It binds like [+], so an operand that is a
    sum or a product is bound by a [let] or put in parentheses. *)
Infix "|||" := or_else (at level 50, left associativity) : js_scope.

(* ----------------------------------------------------------------- *)
(** *** The exact instance *)

Inductive number : Type :=
| Fin (q : Q)
| PosInf
| NegInf
| NotANumber.

Module Exact.

Definition neg (x : number) : number :=
  match x with
  | Fin q => Fin (- q)
  | PosInf => NegInf
  | NegInf => PosInf
  | NotANumber => NotANumber
  end.

Definition add (x y : number) : number :=
  match x, y with
  | NotANumber, _ | _, NotANumber => NotANumber
  | Fin a, Fin b => Fin (a + b)
  | PosInf, NegInf | NegInf, PosInf => NotANumber
  | PosInf, _ | _, PosInf => PosInf
  | NegInf, _ | _, NegInf => NegInf
  end.

Definition sub (x y : number) : number := add x (neg y).

(** An infinity of sign [pos] scaled by the finite [q]. *)
Definition scale_inf (pos : bool) (q : Q) : number :=
  match q ?= 0 with
  | Eq => NotANumber
  | Gt => if pos then PosInf else NegInf
  | Lt => if pos then NegInf else PosInf
  end.

Definition mul (x y : number) : number :=
  match x, y with
  | NotANumber, _ | _, NotANumber => NotANumber
  | Fin a, Fin b => Fin (a * b)
  | PosInf, Fin q | Fin q, PosInf => scale_inf true q
  | NegInf, Fin q | Fin q, NegInf => scale_inf false q
  | PosInf, PosInf | NegInf, NegInf => PosInf
  | PosInf, NegInf | NegInf, PosInf => NegInf
  end.

(** Division; the zero of this instance is [+0]. *)
Definition div (x y : number) : number :=
  match x, y with
  | NotANumber, _ | _, NotANumber => NotANumber
  | Fin a, Fin b =>
      match b ?= 0 with
      | Eq => match a ?= 0 with
              | Eq => NotANumber
              | Gt => PosInf
              | Lt => NegInf
              end
      | _ => Fin (a / b)
      end
  | Fin _, (PosInf | NegInf) => Fin 0
  | PosInf, Fin b => if Qle_bool 0 b then PosInf else NegInf
  | NegInf, Fin b => if Qle_bool 0 b then NegInf else PosInf
  | (PosInf | NegInf), (PosInf | NegInf) => NotANumber
  end.

Definition Qlt_bool (a b : Q) : bool := negb (Qle_bool b a).

Definition lt (x y : number) : bool :=
  match x, y with
  | NotANumber, _ | _, NotANumber => false
  | Fin a, Fin b => Qlt_bool a b
  | NegInf, (Fin _ | PosInf) => true
  | Fin _, PosInf => true
  | _, _ => false
  end.

Definition le (x y : number) : bool :=
  match x, y with
  | NotANumber, _ | _, NotANumber => false
  | Fin a, Fin b => Qle_bool a b
  | NegInf, _ => true
  | _, PosInf => true
  | _, _ => false
  end.

(** [Math.round]: the nearest integer, a tie going up. *)
Definition round (x : number) : number :=
  match x with
  | Fin q => Fin (inject_Z (Qfloor (q + (1 # 2))))
  | _ => x
  end.

End Exact.

#[global] Instance number_JSNumber : JSNumber number := {
  lit := Fin;
  add := Exact.add;
  sub := Exact.sub;
  mul := Exact.mul;
  div := Exact.div;
  lt := Exact.lt;
  le := Exact.le;
  Math_round := Exact.round
}.

(** Two numbers denote the same value. *)
Definition same_value (x y : number) : Prop :=
  match x, y with
  | Fin a, Fin b => a == b
  | PosInf, PosInf | NegInf, NegInf | NotANumber, NotANumber => True
  | _, _ => False
  end.

Infix "=v=" := same_value (at level 70, no associativity).

(* ----------------------------------------------------------------- *)
(** *** The binary64 instance *)

Module Binary64.
Local Open Scope float_scope.

Definition of_Z (z : Z) : float :=
  match z with
  | Z0 => 0
  | Zpos _ => PrimFloat.of_uint63 (Uint63.of_Z z)
  | Zneg p => - PrimFloat.of_uint63 (Uint63.of_Z (Zpos p))
  end.

(** A literal [n/d] with [n] and [d] below 2^53: the quotient of two
    exact values, correctly rounded, is the double nearest to [n/d]. *)
Definition of_Q (q : Q) : float := of_Z (Qnum q) / of_Z (Zpos (Qden q)).

Definition two52 : float := 4503599627370496.

(** [floor] for [|x| < 2^52]: adding and removing 2^52 rounds to an
    integer, which is then at most one above the floor. *)
Definition floor_small (x : float) : float :=
  let t := if 0 <=? x then (x + two52) - two52 else (x - two52) + two52 in
  if x <? t then t - 1 else t.

(** [Math.round(x)] is [floor(x + 0.5)] computed exactly. Doubles of
    magnitude 2^52 and above are integers already. *)
Definition round (x : float) : float :=
  if (abs x <? two52) then
    let f := floor_small x in
    let r := if 0.5 <=? x - f then f + 1 else f in
    if (r =? 0) && (1 / x <? 0) then -0 else r
  else x.
End Binary64.

#[global] Instance float_JSNumber : JSNumber float := {
  lit := Binary64.of_Q;
  add := PrimFloat.add;
  sub := PrimFloat.sub;
  mul := PrimFloat.mul;
  div := PrimFloat.div;
  lt := PrimFloat.ltb;
  le := PrimFloat.leb;
  Math_round := Binary64.round
}.

Local Open Scope js_scope.

(** The value of [table[key]] for an object literal [table] whose keys
    are the values of an enumeration: [None] is [undefined]. *)
Fixpoint property {K V : Type} (eqb : K -> K -> bool) (key : K)
    (table : list (K * V)) : option V :=
  match table with
  | [] => None
  | (k, v) :: rest => if eqb key k then Some v else property eqb key rest
  end.

(* ================================================================= *)
(** ** The Shipment model *)

Module Shipment.

(** [transportMode] and [vehicleType], as the schema enumerates them
    (the vehicle [ship] is [ship_vehicle] here). *)
Inductive TransportMode : Set :=
| diesel | electric | hybrid | rail | ship | air.

Inductive VehicleType : Set :=
| truck | van | car | train | ship_vehicle | plane.

Scheme Equality for TransportMode.
Scheme Equality for VehicleType.

(** The fields that the calculator reads. A field that the document
    lacks ([undefined] or [null]) is [None]. The validators of the
    schema ([required], [min]) run when a document is saved, not when the
    method is called, so a field may be missing, zero or negative
    here. *)
Record t (N : Type) : Type := mk {
  quantity : option N;
  distanceKm : option N;
  transportMode : option TransportMode;
  vehicleType : option VehicleType;
  packagingWeight : option N
}.

(** An entry of [emissionFactors]: a table by vehicle, or one factor
    for the mode. *)
Inductive FactorEntry : Type :=
| ByVehicle (factors : list (VehicleType * Q))
| ByMode (factor : Q).

(** Carbon emission factors (kg CO2 per km per ton). *)
Definition emissionFactors : list (TransportMode * FactorEntry) :=
  [ (diesel,   ByVehicle [(truck, 15 # 100); (van, 12 # 100); (car, 8 # 100)]);
    (electric, ByVehicle [(truck, 5 # 100); (van, 4 # 100); (car, 2 # 100)]);
    (hybrid,   ByVehicle [(truck, 10 # 100); (van, 8 # 100); (car, 5 # 100)]);
    (rail, ByMode (3 # 100));
    (ship, ByMode (2 # 100));
    (air,  ByMode (50 # 100)) ].

Section Calculator.
Context {N : Type} `{JSNumber N}.

(** [!field] for an optional numeric field. *)
Definition falsy (field : option N) : bool :=
  match field with
  | None => true
  | Some x => negb (truthy x)
  end.

(** [Number(field)]: [NaN] for a missing field. *)
Definition Number (field : option N) : N :=
  match field with
  | None => NaN
  | Some x => x
  end.

(** [entry?.[vehicleType]]: [undefined] unless [entry] is a table that
    has the key. *)
Definition vehicle_factor (entry : option FactorEntry)
    (vehicleType : VehicleType) : option Q :=
  match entry with
  | Some (ByVehicle factors) => property VehicleType_beq vehicleType factors
  | Some (ByMode _) | None => None
  end.

(** [factor || otherwise] for a factor that is a number or [undefined]. *)
Definition factor_or (factor : option Q) (otherwise : N) : N :=
  match factor with
  | Some f => lit f ||| otherwise
  | None => otherwise
  end.

(** [emissionFactors[transportMode] || 0.1]. An entry that is a table
    is a truthy object, and a [NaN] in the product that follows. *)
Definition mode_factor (transportMode : TransportMode) : N :=
  match property TransportMode_beq transportMode emissionFactors with
  | Some (ByMode f) => lit f ||| lit (1 # 10)
  | Some (ByVehicle _) => NaN
  | None => lit (1 # 10)
  end.

Definition selectEmissionFactor (transportMode : TransportMode)
    (vehicleType : VehicleType) : N :=
  match transportMode with
  | rail | ship | air => mode_factor transportMode
  | _ =>
      factor_or
        (vehicle_factor
           (property TransportMode_beq transportMode emissionFactors)
           vehicleType)
        (factor_or
           (vehicle_factor
              (property TransportMode_beq diesel emissionFactors) truck)
           (lit (15 # 100)))
  end.

(** The method [calculateCarbonFootprint]. Its body runs inside a
    [try] whose handler returns 0; nothing in it throws. The guard
    [!distanceKm || !transportMode || !quantity] is the [None] case of
    transportMode and the test of the other two. *)
Definition calculateCarbonFootprint (this : t N) : N :=
  match transportMode this with
  | None => lit 0
  | Some mode =>
      if falsy (distanceKm this) || falsy (quantity this) then lit 0
      else
        let distanceKm := Number (distanceKm this) ||| lit 0 in
        let quantity := Number (quantity this) ||| lit 0 in
        let packagingWeight := Number (packagingWeight this) ||| lit 0 in
        let vehicleType :=
          match vehicleType this with
          | Some v => v
          | None => truck
          end in
        let emissionFactor := selectEmissionFactor mode vehicleType in
        let totalWeight := quantity + packagingWeight in
        let carbonEmissions :=
          distanceKm * emissionFactor * (totalWeight / lit 1000) in
        let result := Math_round (carbonEmissions * lit 100) / lit 100 in
        result ||| lit 0
  end.

(** The virtual [carbonKg]. *)
Definition carbonKg (this : t N) : N := calculateCarbonFootprint this.
End Calculator.

End Shipment.

(* ================================================================= *)
(** ** The Product model *)

Module Product.

Inductive PackagingType : Set :=
| plastic | recyclable | compostable | biodegradable | minimal.

Scheme Equality for PackagingType.

Record SustainabilityMetrics (N : Type) : Type := mkMetrics {
  carbonFootprint : N;
  waterFootprint : N;
  greenScore : N
}.

Record t (N : Type) : Type := mk {
  baseSpoilageRate : N;
  packagingType : option PackagingType;
  sustainabilityMetrics : SustainabilityMetrics N;
  certifications : list string
}.

Definition packagingScores : list (PackagingType * Q) :=
  [ (minimal, 25); (compostable, 20); (biodegradable, 15);
    (recyclable, 10); (plastic, -10) ].

Section Calculator.
Context {N : Type} `{JSNumber N}.

(** [table[key] || 0] for an optional key. *)
Definition score_of {K : Type} (eqb : K -> K -> bool)
    (table : list (K * Q)) (key : option K) : N :=
  match key with
  | None => lit 0
  | Some k =>
      match property eqb k table with
      | Some v => lit v ||| lit 0
      | None => lit 0
      end
  end.

(** The method [calculateGreenScore]; each [let] is one update of the
    variable [score]. *)
Definition calculateGreenScore (this : t N) : N :=
  let metrics := sustainabilityMetrics this in
  let score := lit 50 in
  let score :=
    score + score_of PackagingType_beq packagingScores (packagingType this) in
  let score :=
    if carbonFootprint metrics <? lit 1 then score + lit 20
    else if carbonFootprint metrics <? lit 5 then score + lit 15
    else if carbonFootprint metrics <? lit 10 then score + lit 10
    else if carbonFootprint metrics >? lit 20 then score - lit 15
    else score in
  let score :=
    if waterFootprint metrics <? lit 10 then score + lit 15
    else if waterFootprint metrics <? lit 50 then score + lit 10
    else if waterFootprint metrics >? lit 100 then score - lit 10
    else score in
  let score := score + length_of (certifications this) * lit 5 in
  let score :=
    if baseSpoilageRate this <? lit 2 then score + lit 10
    else if baseSpoilageRate this <? lit 5 then score + lit 5
    else if baseSpoilageRate this >? lit 15 then score - lit 10
    else score in
  Math_max (lit 0) (Math_min (lit 100) score).
End Calculator.

End Product.

(* ================================================================= *)
(** ** The Supplier model *)

Module Supplier.

Inductive CertificationLevel : Set :=
| None_ | Basic | FairTrade | Organic | BCorp | CarbonNeutral.

Scheme Equality for CertificationLevel.

(** An audit document as [calculateESGScore] reads it: the truthiness
    of [doc.verified].  An element without that property, such as the
    string that the array holds when the key [type: String] of the
    schema is taken for the type of the element, is a document that is
    not verified. *)
Record AuditDoc : Type := mkDoc { verified : bool }.

Record SustainabilityMetrics (N : Type) : Type := mkMetrics {
  carbonFootprint : N;
  wasteReduction : N;
  renewableEnergy : N
}.

Record t (N : Type) : Type := mk {
  certificationLevel : option CertificationLevel;
  ESGscore : N;
  auditDocs : list AuditDoc;
  sustainabilityMetrics : SustainabilityMetrics N
}.

Definition certScores : list (CertificationLevel * Q) :=
  [ (None_, 0); (Basic, 10); (FairTrade, 25); (Organic, 30);
    (BCorp, 40); (CarbonNeutral, 35) ].

Section Calculator.
Context {N : Type} `{JSNumber N}.

(** The method [calculateESGScore]. *)
Definition calculateESGScore (this : t N) : N :=
  let metrics := sustainabilityMetrics this in
  let score := lit 0 in
  let score :=
    score
    + Product.score_of CertificationLevel_beq certScores
        (certificationLevel this) in
  let score :=
    if carbonFootprint metrics <? lit 10 then score + lit 20
    else if carbonFootprint metrics <? lit 25 then score + lit 15
    else if carbonFootprint metrics <? lit 50 then score + lit 10
    else score in
  let score :=
    if wasteReduction metrics >? lit 50 then score + lit 20
    else if wasteReduction metrics >? lit 25 then score + lit 15
    else if wasteReduction metrics >? lit 10 then score + lit 10
    else score in
  let score :=
    if renewableEnergy metrics >? lit 80 then score + lit 20
    else if renewableEnergy metrics >? lit 50 then score + lit 15
    else if renewableEnergy metrics >? lit 20 then score + lit 10
    else score in
  let verifiedDocs : N := length_of (filter verified (auditDocs this)) in
  let score := score + Math_min (verifiedDocs * lit 5) (lit 20) in
  Math_min score (lit 100).
End Calculator.

End Supplier.

(* ================================================================= *)
(** ** The WasteAlert model *)

Module WasteAlert.

Inductive RiskLevel : Set := low | medium | high | critical.

Inductive Status : Set := active | acknowledged | resolved | dismissed.

Scheme Equality for RiskLevel.
Scheme Equality for Status.

Record Recommendation (N : Type) : Type := mkRecommendation {
  action : string;
  impact : string;
  description : string;
  estimatedSavings : N
}.

Record t (N : Type) : Type := mk {
  predictedWasteQty : N;
  currentStock : N;
  predictedWastePercentage : N;
  riskLevel : RiskLevel;
  confidence : N;
  status : Status
}.

Section Calculator.
Context {N : Type} `{JSNumber N}.

(** The method [calculateRiskLevel]. *)
Definition calculateRiskLevel (this : t N) : RiskLevel :=
  let wastePercentage := predictedWastePercentage this in
  let confidence := confidence this in
  let adjustedRisk := wastePercentage * (confidence / lit 100) in
  if adjustedRisk >=? lit 30 then critical
  else if adjustedRisk >=? lit 20 then high
  else if adjustedRisk >=? lit 10 then medium
  else low.

(** [recommendations.push(r)]. *)
Definition push {A : Type} (array : list A) (r : A) : list A :=
  array ++ [r].

(** The method [generateRecommendations]. *)
Definition generateRecommendations (this : t N) : list (Recommendation N) :=
  let recommendations := [] in
  let recommendations :=
    if predictedWastePercentage this >? lit 20 then
      push recommendations
        {| action := "Discount Pricing";
           impact := "high";
           description :=
             "Implement 20-30% discount to increase sales velocity";
           estimatedSavings := predictedWasteQty this * lit 5 |}
    else recommendations in
  let recommendations :=
    if currentStock this >? predictedWasteQty this * lit 2 then
      push recommendations
        {| action := "Transfer to Other Stores";
           impact := "medium";
           description :=
             "Transfer excess inventory to stores with higher demand";
           estimatedSavings := predictedWasteQty this * lit 3 |}
    else recommendations in
  let recommendations :=
    if predictedWastePercentage this >? lit 15 then
      push recommendations
        {| action := "Promotional Campaign";
           impact := "medium";
           description :=
             "Launch targeted marketing campaign to boost sales";
           estimatedSavings := predictedWasteQty this * lit 4 |}
    else recommendations in
  recommendations.
End Calculator.

End WasteAlert.

(* ================================================================= *)
(** ** The analytics route: the helper functions of the sustainability
    score *)

Module Analytics.

Section Helpers.
Context {N : Type} `{JSNumber N}.

(** [array.reduce((sum, x) => sum + f(x), 0)]. *)
Definition sum_by {A : Type} (f : A -> N) (array : list A) : N :=
  fold_left (fun sum x => sum + f x) array (lit 0).

Definition calculateCarbonScore (shipments : list (Shipment.t N)) : N :=
  if Nat.eqb (List.length shipments) 0 then lit 0
  else
    let totalCarbon := sum_by Shipment.carbonKg shipments in
    let avgCarbonPerShipment := totalCarbon / length_of shipments in
    if avgCarbonPerShipment <? lit 5 then lit 100
    else if avgCarbonPerShipment <? lit 10 then lit 80
    else if avgCarbonPerShipment <? lit 20 then lit 60
    else if avgCarbonPerShipment <? lit 50 then lit 40
    else lit 20.

Definition calculateSupplierScore (suppliers : list (Supplier.t N)) : N :=
  if Nat.eqb (List.length suppliers) 0 then lit 0
  else
    let avgESGScore :=
      sum_by (@Supplier.ESGscore N) suppliers / length_of suppliers in
    Math_min (lit 100) avgESGScore.

Definition calculateProductScore (products : list (Product.t N)) : N :=
  if Nat.eqb (List.length products) 0 then lit 0
  else
    let avgGreenScore :=
      sum_by
        (fun product =>
           Product.greenScore (Product.sustainabilityMetrics product))
        products
      / length_of products in
    Math_min (lit 100) avgGreenScore.

Definition calculateWasteScore (alerts : list (WasteAlert.t N)) : N :=
  if Nat.eqb (List.length alerts) 0 then lit 100
  else
    let activeAlerts :=
      filter
        (fun alert =>
           WasteAlert.Status_beq (WasteAlert.status alert) WasteAlert.active)
        alerts in
    let criticalAlerts :=
      filter
        (fun alert =>
           WasteAlert.RiskLevel_beq (WasteAlert.riskLevel alert)
             WasteAlert.critical)
        activeAlerts in
    let resolutionRate : N :=
      length_of
        (filter
           (fun alert =>
              WasteAlert.Status_beq (WasteAlert.status alert)
                WasteAlert.resolved)
           alerts)
      / length_of alerts in
    let criticalRate : N :=
      length_of criticalAlerts / length_of activeAlerts in
    let score := resolutionRate * lit 100 in
    let score := score - criticalRate * lit 30 in
    Math_max (lit 0) (Math_min (lit 100) score).
End Helpers.

End Analytics.

(* ================================================================= *)
(** ** Arrays and further operators *)

Section MoreOperators.
Context {N : Type} `{JSNumber N}.

(** [Math.abs(x)]: [0 - x] for a number below zero and for a zero of
    either sign, the number itself otherwise ([NaN] included). *)
Definition Math_abs (x : N) : N := if x <=? lit 0 then lit 0 - x else x.

(** An entry read from a table of numbers and used in arithmetic: a
    missing entry is [undefined], which is [NaN] there. *)
Definition as_number (entry : option Q) : N :=
  match entry with
  | Some v => lit v
  | None => NaN
  end.
End MoreOperators.

(** [array.sort(compare)], for a comparator given by
    [after a b := compare(a, b) > 0].  The sort is stable; on a
    comparator that orders the elements consistently its result is the
    one arrangement that insertion computes: each element, from the last
    to the first, goes in front of the first element that it does not
    come after. *)
Section Arrays.
Context {A : Type}.
Variable after : A -> A -> bool.

Fixpoint Array_insert (x : A) (sorted : list A) : list A :=
  match sorted with
  | [] => [x]
  | y :: rest => if after x y then y :: Array_insert x rest else x :: sorted
  end.

Definition Array_sort (array : list A) : list A :=
  fold_right Array_insert [] array.
End Arrays.

(* ================================================================= *)
(** ** The virtual fields of the models *)

Module Virtual.

Inductive Efficiency : Set := excellent | good | fair | poor.

Inductive Category : Set := Excellent | Good | Fair | Poor.

Inductive Urgency : Set := immediate | urgent | high | normal.

Section Getters.
Context {N : Type} `{JSNumber N}.

(** Shipment, [carbonEfficiency] (src/unnamed/part_004).  The division
    takes the number of [this.quantity]; a quantity that is missing
    divides the footprint 0 of its shipment, which is [NaN] whether the
    missing field counts as [NaN] or as 0. *)
Definition carbonEfficiency (this : Shipment.t N) : Efficiency :=
  let carbonPerUnit :=
    Shipment.carbonKg this / Shipment.Number (Shipment.quantity this) in
  if carbonPerUnit <? lit (1 # 10) then excellent
  else if carbonPerUnit <? lit (3 # 10) then good
  else if carbonPerUnit <? lit (5 # 10) then fair
  else poor.

(** Supplier, [esgCategory] (src/unnamed/part_003). *)
Definition esgCategory (this : Supplier.t N) : Category :=
  if Supplier.ESGscore this >=? lit 80 then Excellent
  else if Supplier.ESGscore this >=? lit 60 then Good
  else if Supplier.ESGscore this >=? lit 40 then Fair
  else Poor.

(** Product, [greenScoreCategory] (src/server/models/Order.js). *)
Definition greenScoreCategory (this : Product.t N) : Category :=
  let metrics := Product.sustainabilityMetrics this in
  if Product.greenScore metrics >=? lit 80 then Excellent
  else if Product.greenScore metrics >=? lit 60 then Good
  else if Product.greenScore metrics >=? lit 40 then Fair
  else Poor.

(** WasteAlert, [potentialSavings] (src/server/models/WasteAlert.js). *)
Definition potentialSavings (this : WasteAlert.t N) : N :=
  WasteAlert.predictedWasteQty this * lit 10.
End Getters.

(** WasteAlert, [alertAge] and [urgency].  A date is its time value, a
    whole number of milliseconds; [now] is the value of [new Date()].
    The difference of two dates is exact, and [Math.floor] of its
    quotient by the milliseconds of a day is the floored division of
    integers. *)
Definition day : Z := (1000 * 60 * 60 * 24)%Z.

Definition alertAge (now alertDate : Z) : Z := ((now - alertDate) / day)%Z.

Definition urgency (now predictedDate : Z) : Urgency :=
  let daysUntilPredicted := ((predictedDate - now) / day)%Z in
  if (daysUntilPredicted <=? 1)%Z then immediate
  else if (daysUntilPredicted <=? 3)%Z then urgent
  else if (daysUntilPredicted <=? 7)%Z then high
  else normal.

End Virtual.

(* ================================================================= *)
(** ** The shipment and supplier routes *)

Module ShipmentRoutes.

(** POST /api/shipments (src/server/routes/shipments.js): the
    [vehicleType] that the route stores, the one of the request or
    [transportMode === 'rail' ? 'train' : transportMode === 'ship' ?
    'ship' : transportMode === 'air' ? 'plane' : 'truck']. *)
Definition storedVehicleType (vehicleType : option Shipment.VehicleType)
    (transportMode : Shipment.TransportMode) : Shipment.VehicleType :=
  match vehicleType with
  | Some v => v
  | None =>
      match transportMode with
      | Shipment.rail => Shipment.train
      | Shipment.ship => Shipment.ship_vehicle
      | Shipment.air => Shipment.plane
      | _ => Shipment.truck
      end
  end.

(** The document that the route creates from a request that passed
    its validators; [packagingWeight = 0] is the default of the
    destructuring. *)
Definition create {N : Type} `{JSNumber N} (quantity distanceKm : N)
    (transportMode : Shipment.TransportMode)
    (vehicleType : option Shipment.VehicleType)
    (packagingWeight : option N) : Shipment.t N :=
  {| Shipment.quantity := Some quantity;
     Shipment.distanceKm := Some distanceKm;
     Shipment.transportMode := Some transportMode;
     Shipment.vehicleType := Some (storedVehicleType vehicleType transportMode);
     Shipment.packagingWeight :=
       Some (match packagingWeight with Some p => p | None => lit 0 end) |}.

End ShipmentRoutes.

Module SupplierRoutes.

Section Routes.
Context {N : Type} `{JSNumber N}.

(** [supplier.ESGscore = supplier.calculateESGScore()], as the create
    and update routes do before they save (src/unnamed/part_007). *)
Definition recalculate (supplier : Supplier.t N) : Supplier.t N :=
  {| Supplier.certificationLevel := Supplier.certificationLevel supplier;
     Supplier.ESGscore := Supplier.calculateESGScore supplier;
     Supplier.auditDocs := Supplier.auditDocs supplier;
     Supplier.sustainabilityMetrics := Supplier.sustainabilityMetrics supplier |}.

End Routes.

End SupplierRoutes.

(* ================================================================= *)
(** ** The route optimiser (src/server/routes/routes.js) *)

(** The helpers are read on the transport modes and vehicle types of
    the enumerations, the values that POST /api/routes/calculate-carbon
    admits.  GET /api/routes/optimize hands the strings of its query to
    [generateRouteOptions] as they come; what a string outside the
    enumerations does there (a name that the table inherits, such as
    [toString], yields a function for a factor and [NaN] for a
    footprint) is not part of this model, and the statements about the
    options are statements about requests within the enumerations. *)
Module RouteOptimizer.

Import Shipment.

(** The table of [calculateRouteCarbon], a literal of its own. *)
Definition emissionFactors : list (TransportMode * FactorEntry) :=
  [ (diesel,   ByVehicle [(truck, 15 # 100); (van, 12 # 100); (car, 8 # 100)]);
    (electric, ByVehicle [(truck, 5 # 100); (van, 4 # 100); (car, 2 # 100)]);
    (hybrid,   ByVehicle [(truck, 10 # 100); (van, 8 # 100); (car, 5 # 100)]);
    (rail, ByMode (3 # 100));
    (ship, ByMode (2 # 100));
    (air,  ByMode (50 # 100)) ].

Definition speeds : list (TransportMode * Q) :=
  [ (diesel, 60); (electric, 50); (hybrid, 55); (rail, 80); (ship, 25);
    (air, 800) ].

(** A route option; a waypoint is its [lat], [lng] and [name].  The
    direct route has no [savings]. *)
Record Route (N : Type) : Type := mkRoute {
  id : nat;
  name : string;
  description : string;
  waypoints : list (N * N * string);
  distance : N;
  estimatedTime : N;
  carbonFootprint : N;
  transportMode : TransportMode;
  vehicleType : VehicleType;
  efficiency : Virtual.Efficiency;
  savings : option N
}.

Section Helpers.
Context {N : Type} `{JSNumber N}.

(** [emissionFactors[transportMode]], for rail, ship and air. *)
Definition mode_factor (transportMode : TransportMode) : N :=
  match property TransportMode_beq transportMode emissionFactors with
  | Some (ByMode f) => lit f
  | Some (ByVehicle _) | None => NaN
  end.

Definition calculateRouteCarbon (distance weight : N)
    (transportMode : TransportMode) (vehicleType : VehicleType) : N :=
  let emissionFactor :=
    match transportMode with
    | rail | ship | air => mode_factor transportMode
    | _ =>
        factor_or
          (vehicle_factor
             (property TransportMode_beq transportMode emissionFactors)
             vehicleType)
          (as_number
             (vehicle_factor
                (property TransportMode_beq diesel emissionFactors) truck))
    end in
  Math_round (distance * emissionFactor * (weight / lit 1000) * lit 100)
  / lit 100.

Definition getAverageSpeed (transportMode : TransportMode) : N :=
  match property TransportMode_beq transportMode speeds with
  | Some speed => lit speed ||| lit 60
  | None => lit 60
  end.

Definition getEfficiencyRating (carbonPerTonKm : N) : Virtual.Efficiency :=
  if carbonPerTonKm <? lit (5 # 100) then Virtual.excellent
  else if carbonPerTonKm <? lit (1 # 10) then Virtual.good
  else if carbonPerTonKm <? lit (2 # 10) then Virtual.fair
  else Virtual.poor.

(** The comparator [(a, b) => a.carbonFootprint - b.carbonFootprint]
    is above zero. *)
Definition after_by_carbon (a b : Route N) : bool :=
  lit 0 <? carbonFootprint a - carbonFootprint b.

Definition generateRouteOptions (fromLat fromLng toLat toLng : N)
    (distance weight : N) (transportMode : TransportMode)
    (vehicleType : VehicleType) : list (Route N) :=
  let routes := [] in
  let routes :=
    WasteAlert.push routes
      {| id := 1;
         name := "Direct Route";
         description := "Most direct path using current transport mode";
         waypoints :=
           [ (fromLat, fromLng, "Origin"%string);
             (toLat, toLng, "Destination"%string) ];
         distance := Math_round (distance * lit 100) / lit 100;
         estimatedTime :=
           Math_round (distance / getAverageSpeed transportMode * lit 60);
         carbonFootprint :=
           calculateRouteCarbon distance weight transportMode vehicleType;
         transportMode := transportMode;
         vehicleType := vehicleType;
         efficiency :=
           getEfficiencyRating
             (calculateRouteCarbon distance weight transportMode vehicleType
              / (weight / lit 1000) / distance);
         savings := None |} in
  let routes :=
    if negb (TransportMode_beq transportMode electric)
       && negb (TransportMode_beq transportMode rail)
    then
      WasteAlert.push routes
        {| id := 2;
           name := "Green Alternative";
           description := "Route optimized for lower emissions";
           waypoints :=
             [ (fromLat, fromLng, "Origin"%string);
               (toLat, toLng, "Destination"%string) ];
           distance :=
             Math_round (distance * lit (11 # 10) * lit 100) / lit 100;
           estimatedTime :=
             Math_round
               (distance * lit (11 # 10) / getAverageSpeed electric * lit 60);
           carbonFootprint :=
             calculateRouteCarbon (distance * lit (11 # 10)) weight electric
               truck;
           transportMode := electric;
           vehicleType := truck;
           efficiency := Virtual.excellent;
           savings :=
             Some
               (Math_round
                  ((calculateRouteCarbon distance weight transportMode
                      vehicleType
                    - calculateRouteCarbon (distance * lit (11 # 10)) weight
                        electric truck)
                   * lit 100)
                / lit 100) |}
    else routes in
  let routes :=
    if distance >? lit 100 then
      WasteAlert.push routes
        {| id := 3;
           name := "Multi-modal Route";
           description := "Combines rail and road transport for efficiency";
           waypoints :=
             [ (fromLat, fromLng, "Origin (Road)"%string);
               ((fromLat + toLat) / lit 2, (fromLng + toLng) / lit 2,
                "Rail Transfer"%string);
               (toLat, toLng, "Destination (Road)"%string) ];
           distance :=
             Math_round (distance * lit (12 # 10) * lit 100) / lit 100;
           estimatedTime :=
             Math_round
               (distance * lit (12 # 10) / getAverageSpeed rail * lit 60);
           carbonFootprint :=
             calculateRouteCarbon (distance * lit (12 # 10)) weight rail train;
           transportMode := rail;
           vehicleType := train;
           efficiency := Virtual.excellent;
           savings :=
             Some
               (Math_round
                  ((calculateRouteCarbon distance weight transportMode
                      vehicleType
                    - calculateRouteCarbon (distance * lit (12 # 10)) weight
                        rail train)
                   * lit 100)
                / lit 100) |}
    else routes in
  Array_sort after_by_carbon routes.

(** POST /api/routes/calculate-carbon: the efficiency rating of the
    answer, [getEfficiencyRating(carbonKg / (weight / 1000) /
    distanceKm)] with the unrounded [carbonKg] of the handler. *)
Definition calculateCarbonRating (distanceKm weight : N)
    (transportMode : TransportMode) (vehicleType : VehicleType)
    : Virtual.Efficiency :=
  let emissionFactor :=
    match transportMode with
    | rail | ship | air => mode_factor transportMode
    | _ =>
        factor_or
          (vehicle_factor
             (property TransportMode_beq transportMode emissionFactors)
             vehicleType)
          (as_number
             (vehicle_factor
                (property TransportMode_beq diesel emissionFactors) truck))
    end in
  let carbonKg := distanceKm * emissionFactor * (weight / lit 1000) in
  let carbonPerTonKm := carbonKg / (weight / lit 1000) / distanceKm in
  getEfficiencyRating carbonPerTonKm.
End Helpers.

End RouteOptimizer.

(* ================================================================= *)
(** ** The waste-alert routes (src/server/routes/shipments.js, its
    second half) *)

Module AlertRoutes.

(** A stored alert: the fields of the model, and the two that the
    resolve route writes. *)
Record Alert (N : Type) : Type := mkAlert {
  document : WasteAlert.t N;
  actualWasteQty : option N;
  accuracy : option N
}.

Record Summary (N : Type) : Type := mkSummary {
  totalAlerts : nat;
  activeAlerts : nat;
  resolvedAlerts : nat;
  dismissedAlerts : nat;
  totalPotentialSavings : N;
  avgAccuracy : N
}.

Section Routes.
Context {N : Type} `{JSNumber N}.

(** [alert.status = status]. *)
Definition set_status (status : WasteAlert.Status) (alert : Alert N)
    : Alert N :=
  let d := document alert in
  {| document :=
       {| WasteAlert.predictedWasteQty := WasteAlert.predictedWasteQty d;
          WasteAlert.currentStock := WasteAlert.currentStock d;
          WasteAlert.predictedWastePercentage :=
            WasteAlert.predictedWastePercentage d;
          WasteAlert.riskLevel := WasteAlert.riskLevel d;
          WasteAlert.confidence := WasteAlert.confidence d;
          WasteAlert.status := status |};
     actualWasteQty := actualWasteQty alert;
     accuracy := accuracy alert |}.

(** PUT /api/alerts/:id/acknowledge and /dismiss: whatever the status
    of the alert was. *)
Definition acknowledge (alert : Alert N) : Alert N :=
  set_status WasteAlert.acknowledged alert.

Definition dismiss (alert : Alert N) : Alert N :=
  set_status WasteAlert.dismissed alert.

(** PUT /api/alerts/:id/resolve, with the [actualWasteQty] of the
    request, if it has one. *)
Definition resolve (actual : option N) (alert : Alert N) : Alert N :=
  let alert := set_status WasteAlert.resolved alert in
  let alert :=
    match actual with
    | Some a =>
        {| document := document alert;
           actualWasteQty := Some a;
           accuracy := accuracy alert |}
    | None => alert
    end in
  match actual with
  | Some a =>
      let predicted := WasteAlert.predictedWasteQty (document alert) in
      if predicted >? lit 0 then
        let accuracy :=
          Math_max (lit 0)
            (lit 100 - Math_abs ((a - predicted) / predicted * lit 100)) in
        {| document := document alert;
           actualWasteQty := actualWasteQty alert;
           accuracy := Some (Math_round (accuracy * lit 100) / lit 100) |}
      else alert
  | None => alert
  end.

(** GET /api/alerts/analytics/summary: the [summary] of the answer. *)
Definition has_status (status : WasteAlert.Status) (alert : Alert N) : bool :=
  WasteAlert.Status_beq (WasteAlert.status (document alert)) status.

Definition summary (alerts : list (Alert N)) : Summary N :=
  let totalAlerts := List.length alerts in
  let activeAlerts :=
    List.length (filter (has_status WasteAlert.active) alerts) in
  let resolvedAlerts :=
    List.length (filter (has_status WasteAlert.resolved) alerts) in
  let dismissedAlerts :=
    List.length (filter (has_status WasteAlert.dismissed) alerts) in
  let totalPotentialSavings :=
    fold_left
      (fun sum alert =>
         sum + (Virtual.potentialSavings (document alert) ||| lit 0))
      alerts (lit 0) in
  let resolvedWithAccuracy :=
    filter
      (fun alert =>
         match accuracy alert with Some _ => true | None => false end)
      alerts in
  let avgAccuracy :=
    if (0 <? List.length resolvedWithAccuracy)%nat then
      fold_left
        (fun sum alert => sum + Shipment.Number (accuracy alert))
        resolvedWithAccuracy (lit 0)
      / length_of resolvedWithAccuracy
    else lit 0 in
  {| totalAlerts := totalAlerts;
     activeAlerts := activeAlerts;
     resolvedAlerts := resolvedAlerts;
     dismissedAlerts := dismissedAlerts;
     totalPotentialSavings :=
       Math_round (totalPotentialSavings * lit 100) / lit 100;
     avgAccuracy := Math_round (avgAccuracy * lit 100) / lit 100 |}.
End Routes.

End AlertRoutes.

(* ================================================================= *)
(** ** The waste prediction of the product routes
    (src/unnamed/part_005) *)

Module ProductRoutes.


Section Routes.
Context {N : Type} `{JSNumber N}.

End Routes.

End ProductRoutes.

(* ================================================================= *)
(** ** The sustainability score of the analytics route
    (src/server/routes/analytics.js) *)

Module AnalyticsRoutes.

Inductive Impact : Set := high | medium | low.

Inductive Area : Set := carbon | supplier | product | waste.

Scheme Equality for Impact.

(** The object that [getScoreCategory] returns. *)
Module ScoreCategory.
Record t : Type := mk {
  category : Virtual.Category;
  color : string;
  description : string
}.
End ScoreCategory.

(** An entry of [getImprovementRecommendations]; [area] is its
    [type]. *)
Module Improvement.
Record t (N : Type) : Type := mk {
  area : Area;
  title : string;
  description : string;
  impact : Impact;
  potentialImprovement : N
}.
End Improvement.

Record ScoreBreakdown (N : Type) : Type := mkBreakdown {
  carbonScore : N;
  supplierScore : N;
  productScore : N;
  wasteScore : N;
  overallScore : N
}.

(** The [analytics] of the answer of GET /sustainability-score. *)
Record SustainabilityAnalytics (N : Type) : Type := mkAnalytics {
  score : ScoreBreakdown N;
  category : ScoreCategory.t;
  recommendations : list (Improvement.t N)
}.

Definition impactOrder : list (Impact * Q) :=
  [ (high, 3); (medium, 2); (low, 1) ].

Section Helpers.
Context {N : Type} `{JSNumber N}.

Definition getScoreCategory (score : N) : ScoreCategory.t :=
  if score >=? lit 80 then
    {| ScoreCategory.category := Virtual.Excellent;
       ScoreCategory.color := "green";
       ScoreCategory.description := "Leading sustainability performance" |}
  else if score >=? lit 60 then
    {| ScoreCategory.category := Virtual.Good;
       ScoreCategory.color := "blue";
       ScoreCategory.description :=
         "Above average sustainability performance" |}
  else if score >=? lit 40 then
    {| ScoreCategory.category := Virtual.Fair;
       ScoreCategory.color := "yellow";
       ScoreCategory.description := "Average sustainability performance" |}
  else
    {| ScoreCategory.category := Virtual.Poor;
       ScoreCategory.color := "red";
       ScoreCategory.description :=
         "Below average sustainability performance" |}.

(** The comparator [impactOrder[b.impact] - impactOrder[a.impact]] is
    above zero. *)
Definition after_by_impact (a b : Improvement.t N) : bool :=
  let order (r : Improvement.t N) : N :=
    as_number (property Impact_beq (Improvement.impact r) impactOrder) in
  lit 0 <? order b - order a.

Definition getImprovementRecommendations (scoreBreakdown : ScoreBreakdown N)
    : list (Improvement.t N) :=
  let recommendations := [] in
  let recommendations :=
    if carbonScore scoreBreakdown <? lit 60 then
      WasteAlert.push recommendations
        {| Improvement.area := carbon;
           Improvement.title := "Reduce Carbon Emissions";
           Improvement.description :=
             "Switch to electric vehicles and optimize routes";
           Improvement.impact := high;
           Improvement.potentialImprovement := lit 20 |}
    else recommendations in
  let recommendations :=
    if supplierScore scoreBreakdown <? lit 60 then
      WasteAlert.push recommendations
        {| Improvement.area := supplier;
           Improvement.title := "Improve Supplier ESG Scores";
           Improvement.description :=
             "Work with suppliers to improve their sustainability practices";
           Improvement.impact := medium;
           Improvement.potentialImprovement := lit 15 |}
    else recommendations in
  let recommendations :=
    if productScore scoreBreakdown <? lit 60 then
      WasteAlert.push recommendations
        {| Improvement.area := product;
           Improvement.title := "Enhance Product Sustainability";
           Improvement.description :=
             "Improve packaging and sourcing practices";
           Improvement.impact := medium;
           Improvement.potentialImprovement := lit 15 |}
    else recommendations in
  let recommendations :=
    if wasteScore scoreBreakdown <? lit 60 then
      WasteAlert.push recommendations
        {| Improvement.area := waste;
           Improvement.title := "Reduce Waste";
           Improvement.description :=
             "Implement better inventory management and waste reduction strategies";
           Improvement.impact := high;
           Improvement.potentialImprovement := lit 25 |}
    else recommendations in
  Array_sort after_by_impact recommendations.

(** The body of the handler, from the four populations that it has
    read. *)
Definition sustainabilityScore (shipments : list (Shipment.t N))
    (suppliers : list (Supplier.t N)) (products : list (Product.t N))
    (alerts : list (WasteAlert.t N)) : SustainabilityAnalytics N :=
  let carbonScore := Analytics.calculateCarbonScore shipments in
  let supplierScore := Analytics.calculateSupplierScore suppliers in
  let productScore := Analytics.calculateProductScore products in
  let wasteScore := Analytics.calculateWasteScore alerts in
  let sustainabilityScore :=
    Math_round
      ((carbonScore * lit (3 # 10) + supplierScore * lit (25 # 100)
        + productScore * lit (25 # 100) + wasteScore * lit (2 # 10))
       * lit 100)
    / lit 100 in
  let scoreBreakdown :=
    {| carbonScore := Math_round (carbonScore * lit 100) / lit 100;
       supplierScore := Math_round (supplierScore * lit 100) / lit 100;
       productScore := Math_round (productScore * lit 100) / lit 100;
       wasteScore := Math_round (wasteScore * lit 100) / lit 100;
       overallScore := sustainabilityScore |} in
  let scoreCategory := getScoreCategory sustainabilityScore in
  let recommendations := getImprovementRecommendations scoreBreakdown in
  {| score := scoreBreakdown;
     category := scoreCategory;
     recommendations := recommendations |}.
End Helpers.

End AnalyticsRoutes.

(* ================================================================= *)
(** ** The efficiency analytics of the shipment routes
    (src/server/routes/shipments.js) and the pre-save hook of the
    Product model (src/server/models/Order.js) *)

Module ShipmentAnalytics.

(** An entry of [efficiencyData]. *)
Record Efficiency (N : Type) : Type := mkEfficiency {
  carbonPerUnit : N;
  carbonPerKm : N;
  transportMode : option Shipment.TransportMode;
  vehicleType : option Shipment.VehicleType;
  distance : option N;
  quantity : option N
}.

(** An entry of [modeAverages]. *)
Record ModeAverage (N : Type) : Type := mkModeAverage {
  avgCarbonPerUnit : N;
  avgCarbonPerKm : N;
  count : nat
}.

Section Routes.
Context {N : Type} `{JSNumber N}.

Definition efficiencyData (shipments : list (Shipment.t N))
    : list (Efficiency N) :=
  map
    (fun shipment =>
       {| carbonPerUnit :=
            Shipment.carbonKg shipment
            / Shipment.Number (Shipment.quantity shipment);
          carbonPerKm :=
            Shipment.carbonKg shipment
            / Shipment.Number (Shipment.distanceKm shipment);
          transportMode := Shipment.transportMode shipment;
          vehicleType := Shipment.vehicleType shipment;
          distance := Shipment.distanceKm shipment;
          quantity := Shipment.quantity shipment |})
    shipments.

(** [efficiencyByMode[mode]]: the entries of the mode, in their
    order. *)
Definition has_mode (mode : Shipment.TransportMode) (item : Efficiency N)
    : bool :=
  match transportMode item with
  | Some m => Shipment.TransportMode_beq m mode
  | None => false
  end.

Definition efficiencyByMode (shipments : list (Shipment.t N))
    (mode : Shipment.TransportMode) : list (Efficiency N) :=
  filter (has_mode mode) (efficiencyData shipments).

(** [modeAverages[mode]]: [None] for a mode without a shipment, which
    has no key in the object. *)
Definition modeAverages (shipments : list (Shipment.t N))
    (mode : Shipment.TransportMode) : option (ModeAverage N) :=
  match efficiencyByMode shipments mode with
  | [] => None
  | items =>
      let avgCarbonPerUnit :=
        fold_left (fun sum item => sum + carbonPerUnit item) items (lit 0)
        / length_of items in
      let avgCarbonPerKm :=
        fold_left (fun sum item => sum + carbonPerKm item) items (lit 0)
        / length_of items in
      Some
        {| avgCarbonPerUnit :=
             Math_round (avgCarbonPerUnit * lit 1000) / lit 1000;
           avgCarbonPerKm :=
             Math_round (avgCarbonPerKm * lit 1000) / lit 1000;
           count := List.length items |}
  end.
End Routes.

End ShipmentAnalytics.

Module Middleware.

(** Product, [pre('save')]: the four arguments are the values of
    [isModified] for packagingType, sustainabilityMetrics,
    certifications and baseSpoilageRate. *)
Definition product_pre_save {N : Type} `{JSNumber N}
    (packagingType sustainabilityMetrics certifications baseSpoilageRate
     : bool)
    (this : Product.t N) : Product.t N :=
  if packagingType || sustainabilityMetrics || certifications
     || baseSpoilageRate
  then
    {| Product.baseSpoilageRate := Product.baseSpoilageRate this;
       Product.packagingType := Product.packagingType this;
       Product.sustainabilityMetrics :=
         {| Product.carbonFootprint :=
              Product.carbonFootprint (Product.sustainabilityMetrics this);
            Product.waterFootprint :=
              Product.waterFootprint (Product.sustainabilityMetrics this);
            Product.greenScore := Product.calculateGreenScore this |};
       Product.certifications := Product.certifications this |}
  else this.

End Middleware.

(* ================================================================= *)
(** ** The performance comparison of the analytics route
    (src/server/routes/analytics.js) *)

Module Benchmarks.

Inductive Status : Set := better | worse.

(** An entry of [performance.comparison]. *)
Record Comparison (N : Type) : Type := mkComparison {
  benchmark : N;
  percentage : N;
  status : Status
}.


Section Routes.
Context {N : Type} `{JSNumber N}.

(** One entry of the comparison, for the [carbonPerKm] of a
    benchmark. *)
Definition compare (avgCarbonPerKm benchmark : N) : Comparison N :=
  {| benchmark := benchmark;
     percentage := Math_round (avgCarbonPerKm / benchmark * lit 100);
     status := if avgCarbonPerKm <=? benchmark then better else worse |}.

End Routes.

End Benchmarks.

(* ================================================================= *)
(** ** The properties, as the specification words them *)

(** "Round to 2 decimal places": the nearest multiple of 1/100, a tie
    going up. *)
Definition round2 (x : Q) : Q := inject_Z (Qfloor (x * 100 + (1 # 2))) / 100.

(** "Clamped to [0, 100]". *)
Definition clamp (x : Q) : Q :=
  if Exact.Qlt_bool x 0 then 0 else if Exact.Qlt_bool 100 x then 100 else x.

(** "Returns a value in [0, 100]". *)
Definition in_0_100 (x : number) : Prop :=
  exists q : Q, x =v= Fin q /\ 0 <= q <= 100.

Module Spec.
Import Shipment Product WasteAlert.

(** The emission factor of the fixed table: the mode's own factor for
    rail, ship and air; by vehicle for diesel, electric and hybrid,
    where a missing vehicle is a truck and a vehicle outside the table
    takes the factor of a diesel truck. *)
Definition emissionFactor (mode : TransportMode)
    (vehicle : option VehicleType) : Q :=
  match mode, vehicle with
  | rail, _ => 3 # 100
  | ship, _ => 2 # 100
  | air, _ => 50 # 100
  | diesel, (None | Some truck) => 15 # 100
  | diesel, Some van => 12 # 100
  | diesel, Some car => 8 # 100
  | electric, (None | Some truck) => 5 # 100
  | electric, Some van => 4 # 100
  | electric, Some car => 2 # 100
  | hybrid, (None | Some truck) => 10 # 100
  | hybrid, Some van => 8 # 100
  | hybrid, Some car => 5 # 100
  | (diesel | electric | hybrid), Some (train | ship_vehicle | plane) =>
      15 # 100
  end.

(** carbonKg = round(distanceKm x emissionFactor x totalWeightTons, 2). *)
Definition carbonKg (mode : TransportMode) (vehicle : option VehicleType)
    (distanceKm quantity packagingWeight : Q) : Q :=
  round2
    (distanceKm * emissionFactor mode vehicle
     * ((quantity + packagingWeight) / 1000)).

(** The same formula evaluated with the operators of an arithmetic:
    [Math.round(x * 100) / 100] for "round to 2 decimal places". *)
Definition carbonKg_in {N : Type} `{JSNumber N} (factor : Q)
    (distanceKm quantity packagingWeight : N) : N :=
  Math_round
    (distanceKm * lit factor * ((quantity + packagingWeight) / lit 1000)
     * lit 100)
  / lit 100.

(** The packaging adjustment of the green score. *)
Definition packaging (p : option PackagingType) : Q :=
  match p with
  | Some minimal => 25
  | Some compostable => 20
  | Some biodegradable => 15
  | Some recyclable => 10
  | Some plastic => -10
  | None => 0
  end.

(** The green score with every band as an independent addend: each
    band whose condition holds contributes, whatever the others do. *)
Definition band (holds : bool) (adjustment : Q) : Q :=
  if holds then adjustment else 0.

Definition additiveGreenScore (p : option PackagingType)
    (carbon water spoilage : Q) (certifications : nat) : Q :=
  clamp
    (50 + packaging p
     + (band (Exact.Qlt_bool carbon 1) 20
        + band (Exact.Qlt_bool carbon 5) 15
        + band (Exact.Qlt_bool carbon 10) 10
        + band (Exact.Qlt_bool 20 carbon) (-15))
     + (band (Exact.Qlt_bool water 10) 15
        + band (Exact.Qlt_bool water 50) 10
        + band (Exact.Qlt_bool 100 water) (-10))
     + inject_Z (Z.of_nat certifications) * 5
     + (band (Exact.Qlt_bool spoilage 2) 10
        + band (Exact.Qlt_bool spoilage 5) 5
        + band (Exact.Qlt_bool 15 spoilage) (-10))).

(** The green score with the bands of one metric exclusive: the
    intervals cut out by the thresholds are disjoint, and a metric
    contributes the adjustment of the one interval it lies in. *)
Definition within (lo hi x : Q) : bool :=
  Qle_bool lo x && Exact.Qlt_bool x hi.

Definition carbonBand (carbon : Q) : Q :=
  band (Exact.Qlt_bool carbon 1) 20
  + band (within 1 5 carbon) 15
  + band (within 5 10 carbon) 10
  + band (Exact.Qlt_bool 20 carbon) (-15).

Definition waterBand (water : Q) : Q :=
  band (Exact.Qlt_bool water 10) 15
  + band (within 10 50 water) 10
  + band (Exact.Qlt_bool 100 water) (-10).

Definition spoilageBand (spoilage : Q) : Q :=
  band (Exact.Qlt_bool spoilage 2) 10
  + band (within 2 5 spoilage) 5
  + band (Exact.Qlt_bool 15 spoilage) (-10).

Definition exclusiveGreenScore (p : option PackagingType)
    (carbon water spoilage : Q) (certifications : nat) : Q :=
  clamp
    (50 + packaging p + carbonBand carbon + waterBand water
     + inject_Z (Z.of_nat certifications) * 5 + spoilageBand spoilage).

(** wasteScore = resolutionRate x 100 - criticalRate x 30, clamped; of
    use where [total] and [active] are not zero. *)
Definition wasteScore (total resolved active critical : nat) : Q :=
  clamp
    (inject_Z (Z.of_nat resolved) / inject_Z (Z.of_nat total) * 100
     - inject_Z (Z.of_nat critical) / inject_Z (Z.of_nat active) * 30).

(** The risk level as a step function of the adjusted risk. *)
Definition riskStep (adjustedRisk : Q) : RiskLevel :=
  if Qle_bool 30 adjustedRisk then critical
  else if Qle_bool 20 adjustedRisk then high
  else if Qle_bool 10 adjustedRisk then medium
  else low.

(** low < medium < high < critical. *)
Definition severity (level : RiskLevel) : nat :=
  match level with
  | low => 0
  | medium => 1
  | high => 2
  | critical => 3
  end.
End Spec.

(** A numeric field that is missing, or holds a value that is not
    below zero. *)
Definition not_negative (field : option number) : Prop :=
  match field with
  | Some x => (x <? lit 0) = false
  | None => True
  end.

(** A number above zero, and a number that is zero or above. *)
Definition positive (x : number) : Prop :=
  match x with
  | Fin q => 0 < q
  | PosInf => True
  | NegInf | NotANumber => False
  end.

Definition nonnegative (x : number) : Prop :=
  match x with
  | Fin q => 0 <= q
  | PosInf => True
  | NegInf | NotANumber => False
  end.

(** A finite number, and a finite number that is zero or above. *)
Definition finite (x : number) : Prop := exists q : Q, x = Fin q.

Definition finite_nonneg (x : number) : Prop :=
  exists q : Q, x = Fin q /\ 0 <= q.

(** The number of recommendations with a given action. *)
Definition count_action {N : Type} (name : string)
    (recommendations : list (WasteAlert.Recommendation N)) : nat :=
  List.length
    (filter (fun r => String.eqb (WasteAlert.action r) name) recommendations).

(** One recommendation per condition: the list holds one entry of that
    action when the condition holds and none when it does not, and an
    entry of that action carries those estimated savings. *)
Definition one_per_condition {N : Type}
    (recommendations : list (WasteAlert.Recommendation N))
    (name : string) (condition : bool) (savings : N) : Prop :=
  (count_action name recommendations = 1%nat <-> condition = true)
  /\ (count_action name recommendations = 0%nat <-> condition = false)
  /\ (forall r,
        In r recommendations -> WasteAlert.action r = name ->
        WasteAlert.estimatedSavings r = savings).

(** The populations of the waste score: how many alerts have a status,
    and how many of the active ones are critical. *)
Definition count_status {N : Type} (s : WasteAlert.Status)
    (alerts : list (WasteAlert.t N)) : nat :=
  List.length
    (filter (fun a => WasteAlert.Status_beq (WasteAlert.status a) s) alerts).

Definition count_critical_active {N : Type}
    (alerts : list (WasteAlert.t N)) : nat :=
  List.length
    (filter
       (fun a =>
          WasteAlert.Status_beq (WasteAlert.status a) WasteAlert.active
          && WasteAlert.RiskLevel_beq (WasteAlert.riskLevel a)
               WasteAlert.critical)
       alerts).

(** Documents built from finite field values. *)
Definition shipment {N : Type} `{JSNumber N}
    (mode : Shipment.TransportMode) (vehicle : option Shipment.VehicleType)
    (distanceKm quantity : Q) (packagingWeight : option Q) : Shipment.t N :=
  {| Shipment.quantity := Some (lit quantity);
     Shipment.distanceKm := Some (lit distanceKm);
     Shipment.transportMode := Some mode;
     Shipment.vehicleType := vehicle;
     Shipment.packagingWeight := option_map lit packagingWeight |}.

Definition product {N : Type} `{JSNumber N}
    (packaging : option Product.PackagingType) (carbon water spoilage : Q)
    (certifications : list string) : Product.t N :=
  {| Product.baseSpoilageRate := lit spoilage;
     Product.packagingType := packaging;
     Product.sustainabilityMetrics :=
       {| Product.carbonFootprint := lit carbon;
          Product.waterFootprint := lit water;
          Product.greenScore := lit 50 |};
     Product.certifications := certifications |}.

Definition supplier {N : Type} `{JSNumber N}
    (level : option Supplier.CertificationLevel)
    (carbon wasteReduction renewableEnergy : Q)
    (docs : list Supplier.AuditDoc) : Supplier.t N :=
  {| Supplier.certificationLevel := level;
     Supplier.ESGscore := lit 0;
     Supplier.auditDocs := docs;
     Supplier.sustainabilityMetrics :=
       {| Supplier.carbonFootprint := lit carbon;
          Supplier.wasteReduction := lit wasteReduction;
          Supplier.renewableEnergy := lit renewableEnergy |} |}.

(** An alert as the analytics read it: a status and a risk level. *)
Definition stored_alert {N : Type} `{JSNumber N}
    (status : WasteAlert.Status) (level : WasteAlert.RiskLevel)
    : WasteAlert.t N :=
  {| WasteAlert.predictedWasteQty := lit 20;
     WasteAlert.currentStock := lit 50;
     WasteAlert.predictedWastePercentage := lit 25;
     WasteAlert.riskLevel := level;
     WasteAlert.confidence := lit 80;
     WasteAlert.status := status |}.

(** An alert as the classifier reads it. *)
Definition alert {N : Type} `{JSNumber N}
    (predictedWastePercentage confidence currentStock predictedWasteQty : Q)
    : WasteAlert.t N :=
  {| WasteAlert.predictedWasteQty := lit predictedWasteQty;
     WasteAlert.currentStock := lit currentStock;
     WasteAlert.predictedWastePercentage := lit predictedWastePercentage;
     WasteAlert.riskLevel := WasteAlert.low;
     WasteAlert.confidence := lit confidence;
     WasteAlert.status := WasteAlert.active |}.

(** The ratings, categories and urgencies in their order:
    excellent < good < fair < poor, and so on. *)
Definition efficiency_rank (rating : Virtual.Efficiency) : nat :=
  match rating with
  | Virtual.excellent => 0
  | Virtual.good => 1
  | Virtual.fair => 2
  | Virtual.poor => 3
  end.

(** A shipment document without a [vehicleType]. *)
Definition shipment_without_vehicle {N : Type} `{JSNumber N}
    (quantity distanceKm : N) (mode : Shipment.TransportMode)
    (packagingWeight : N) : Shipment.t N :=
  {| Shipment.quantity := Some quantity;
     Shipment.distanceKm := Some distanceKm;
     Shipment.transportMode := Some mode;
     Shipment.vehicleType := None;
     Shipment.packagingWeight := Some packagingWeight |}.



(** The footprint of a route as the optimiser computes it, rounded to
    two decimal places. *)
Definition direct_carbon (mode : Shipment.TransportMode)
    (vehicle : Shipment.VehicleType) (d w : Q) : Q :=
  round2 (d * Spec.emissionFactor mode (Some vehicle) * (w / 1000)).

(** What the alert routes can do to an alert: acknowledge it, resolve
    it (with the actual waste, if the request has it), dismiss it. *)
Inductive Handling (N : Type) : Type :=
| Acknowledge
| Resolve (actualWasteQty : option N)
| Dismiss.

Arguments Acknowledge {N}.
Arguments Dismiss {N}.

Definition handle {N : Type} `{JSNumber N} (how : Handling N)
    (alert : AlertRoutes.Alert N) : AlertRoutes.Alert N :=
  match how with
  | Acknowledge => AlertRoutes.acknowledge alert
  | Resolve actual => AlertRoutes.resolve actual alert
  | Dismiss => AlertRoutes.dismiss alert
  end.

(** An alert as it is stored before any route has handled it. *)
Definition new_alert {N : Type} (document : WasteAlert.t N)
    : AlertRoutes.Alert N :=
  {| AlertRoutes.document := document;
     AlertRoutes.actualWasteQty := None;
     AlertRoutes.accuracy := None |}.

(** An accuracy that is missing, or a number of [0, 100]. *)
Definition accuracy_in_range (accuracy : option number) : Prop :=
  match accuracy with
  | Some x => exists q : Q, x = Fin q /\ 0 <= q <= 100
  | None => True
  end.

(** A supplier with other audit documents, and a product with other
    certifications. *)
Definition with_docs {N : Type} (this : Supplier.t N)
    (docs : list Supplier.AuditDoc) : Supplier.t N :=
  {| Supplier.certificationLevel := Supplier.certificationLevel this;
     Supplier.ESGscore := Supplier.ESGscore this;
     Supplier.auditDocs := docs;
     Supplier.sustainabilityMetrics := Supplier.sustainabilityMetrics this |}.

Definition with_certifications {N : Type} (this : Product.t N)
    (certifications : list string) : Product.t N :=
  {| Product.baseSpoilageRate := Product.baseSpoilageRate this;
     Product.packagingType := Product.packagingType this;
     Product.sustainabilityMetrics := Product.sustainabilityMetrics this;
     Product.certifications := certifications |}.

(** The number of verified documents. *)
Definition verified_docs (docs : list Supplier.AuditDoc) : nat :=
  List.length (filter Supplier.verified docs).

(** The sub-score that an area of improvement looks at, and whether
    the recommendation of the area is due: the sub-score is below
    60. *)
Definition area_score {N : Type} (breakdown : AnalyticsRoutes.ScoreBreakdown N)
    (area : AnalyticsRoutes.Area) : N :=
  match area with
  | AnalyticsRoutes.carbon => AnalyticsRoutes.carbonScore breakdown
  | AnalyticsRoutes.supplier => AnalyticsRoutes.supplierScore breakdown
  | AnalyticsRoutes.product => AnalyticsRoutes.productScore breakdown
  | AnalyticsRoutes.waste => AnalyticsRoutes.wasteScore breakdown
  end.

Definition needs_improvement {N : Type} `{JSNumber N}
    (breakdown : AnalyticsRoutes.ScoreBreakdown N)
    (area : AnalyticsRoutes.Area) : bool :=
  area_score breakdown area <? lit 60.

(** The areas of a list of recommendations, in their order. *)
Definition areas {N : Type}
    (recommendations : list (AnalyticsRoutes.Improvement.t N))
    : list AnalyticsRoutes.Area :=
  map (@AnalyticsRoutes.Improvement.area N) recommendations.

(** A stored score within [0, 100], as the schemas require. *)
Definition stored_scores_in_range (suppliers : list (Supplier.t number))
    (products : list (Product.t number)) : Prop :=
  Forall (fun s => in_0_100 (Supplier.ESGscore s)) suppliers
  /\ Forall
       (fun p => in_0_100 (Product.greenScore (Product.sustainabilityMetrics p)))
       products.



(** A supplier and a product that store a given score. *)
Definition supplier_scoring {N : Type} `{JSNumber N} (score : N)
    : Supplier.t N :=
  {| Supplier.certificationLevel := None;
     Supplier.ESGscore := score;
     Supplier.auditDocs := [];
     Supplier.sustainabilityMetrics :=
       {| Supplier.carbonFootprint := lit 0;
          Supplier.wasteReduction := lit 0;
          Supplier.renewableEnergy := lit 0 |} |}.

Definition product_scoring {N : Type} `{JSNumber N} (score : N)
    : Product.t N :=
  {| Product.baseSpoilageRate := lit 0;
     Product.packagingType := None;
     Product.sustainabilityMetrics :=
       {| Product.carbonFootprint := lit 0;
          Product.waterFootprint := lit 0;
          Product.greenScore := score |};
     Product.certifications := [] |}.

(** The number of alerts with a status, among stored alerts. *)
Definition count_stored {N : Type} `{JSNumber N} (status : WasteAlert.Status)
    (alerts : list (AlertRoutes.Alert N)) : nat :=
  List.length (filter (AlertRoutes.has_status status) alerts).

(** Excellent < Good < Fair < Poor. *)
Definition category_rank (category : Virtual.Category) : nat :=
  match category with
  | Virtual.Excellent => 0
  | Virtual.Good => 1
  | Virtual.Fair => 2
  | Virtual.Poor => 3
  end.


(** The place of a double in the order of the doubles: the sign, then
    the exponent, then the mantissa, as [SFcompare] reads them.  [NaN]
    has no place; the two zeros have the same. *)
Definition SFkey (x : spec_float) : option (Z * Z * Z) :=
  match x with
  | S754_nan => None
  | S754_infinity true => Some (-2, 0, 0)%Z
  | S754_infinity false => Some (2, 0, 0)%Z
  | S754_zero _ => Some (0, 0, 0)%Z
  | S754_finite true m e => Some (-1, - e, Zneg m)%Z
  | S754_finite false m e => Some (1, e, Zpos m)%Z
  end.

Definition key_compare (a b : Z * Z * Z) : comparison :=
  let '(s1, e1, m1) := a in
  let '(s2, e2, m2) := b in
  match (s1 ?= s2)%Z with
  | Eq => match (e1 ?= e2)%Z with
          | Eq => (m1 ?= m2)%Z
          | c => c
          end
  | c => c
  end.

(** A double that is a zero or [NaN]. *)
Definition zero_or_NaN (x : spec_float) : Prop :=
  match x with
  | S754_zero _ | S754_nan => True
  | _ => False
  end.

(* ================================================================= *)
(** ** Facts about the exact instance *)

Lemma same_value_refl (x : number) : x =v= x.
Proof. destruct x; simpl; auto. reflexivity. Qed.

Lemma same_value_sym (x y : number) : x =v= y -> y =v= x.
Proof. destruct x, y; simpl; auto. intro E. symmetry. exact E. Qed.

Lemma same_value_trans (x y z : number) : x =v= y -> y =v= z -> x =v= z.
Proof.
  destruct x, y, z; simpl; auto; try contradiction.
  intros E1 E2. rewrite E1. exact E2.
Qed.

Lemma Qlt_bool_iff (a b : Q) : Exact.Qlt_bool a b = true <-> a < b.
Proof.
  unfold Exact.Qlt_bool. rewrite negb_true_iff.
  split.
  - intro E. apply Qnot_le_lt. rewrite <- Qle_bool_iff. congruence.
  - intro L. apply not_true_is_false. rewrite Qle_bool_iff.
    apply Qlt_not_le. exact L.
Qed.

Lemma Qlt_bool_false_iff (a b : Q) : Exact.Qlt_bool a b = false <-> b <= a.
Proof.
  unfold Exact.Qlt_bool. rewrite negb_false_iff. apply Qle_bool_iff.
Qed.

Lemma Qle_bool_false_iff (a b : Q) : Qle_bool a b = false <-> b < a.
Proof.
  rewrite <- Qlt_bool_iff. unfold Exact.Qlt_bool.
  destruct (Qle_bool a b); simpl; intuition congruence.
Qed.

(** Turn every boolean comparison of rationals in sight into its
    proposition, splitting on those that are still undecided. *)
Ltac qprop :=
  repeat match goal with
    | E : Qle_bool _ _ = true |- _ => apply Qle_bool_iff in E
    | E : Qle_bool _ _ = false |- _ => apply Qle_bool_false_iff in E
    | E : Exact.Qlt_bool _ _ = true |- _ => apply Qlt_bool_iff in E
    | E : Exact.Qlt_bool _ _ = false |- _ => apply Qlt_bool_false_iff in E
    end.

Ltac qcases :=
  repeat match goal with
    | |- context [Qle_bool ?a ?b] => destruct (Qle_bool a b) eqn:?
    | |- context [Exact.Qlt_bool ?a ?b] => destruct (Exact.Qlt_bool a b) eqn:?
    end;
  qprop.

Lemma truthy_Fin (q : Q) : truthy (Fin q) = negb (Qeq_bool q 0).
Proof.
  unfold truthy, strictEq, isNaN. simpl.
  destruct (Qeq_bool q 0) eqn:E.
  - apply Qeq_bool_iff in E. qcases; simpl; try reflexivity; lra.
  - assert (NE : ~ q == 0) by (rewrite <- Qeq_bool_iff; congruence).
    qcases; simpl; try reflexivity; lra.
Qed.

Lemma truthy_Fin_nonzero (q : Q) : ~ q == 0 -> truthy (Fin q) = true.
Proof.
  intro NE. rewrite truthy_Fin. apply negb_true_iff.
  apply not_true_is_false. rewrite Qeq_bool_iff. exact NE.
Qed.

Lemma truthy_Fin_zero (q : Q) : q == 0 -> truthy (Fin q) = false.
Proof.
  intro E. rewrite truthy_Fin. apply negb_false_iff.
  apply Qeq_bool_iff. exact E.
Qed.

(** [x || 0] keeps the value of a finite [x]. *)
Lemma or_zero_Fin (q : Q) : (Fin q ||| Fin 0) =v= Fin q.
Proof.
  unfold or_else. rewrite truthy_Fin.
  destruct (Qeq_bool q 0) eqn:E; simpl.
  - apply Qeq_bool_iff in E. symmetry. exact E.
  - reflexivity.
Qed.

Ltac js_unfold :=
  cbn [lit add sub mul div lt le Math_round number_JSNumber
       Exact.add Exact.sub Exact.neg Exact.mul Exact.lt Exact.le Exact.round].

Lemma div_Fin (a b : Q) : ~ b == 0 -> Exact.div (Fin a) (Fin b) = Fin (a / b).
Proof.
  intro NE. unfold Exact.div.
  destruct (b ?= 0) eqn:C; try reflexivity.
  apply Qeq_alt in C. contradiction.
Qed.


Lemma round2_monotone (x y : Q) : x <= y -> round2 x <= round2 y.
Proof.
  intro L. unfold round2.
  apply Qmult_le_compat_r; [|discriminate].
  rewrite <- Zle_Qle. apply Qfloor_resp_le. lra.
Qed.

Lemma round2_nonneg (x : Q) : 0 <= x -> 0 <= round2 x.
Proof.
  intro L. apply Qle_trans with (round2 0).
  - vm_compute. discriminate.
  - apply round2_monotone. exact L.
Qed.

(* ----------------------------------------------------------------- *)
(** *** The emission factor *)

Lemma selectEmissionFactor_table mode vehicle :
  Shipment.selectEmissionFactor mode
    (match vehicle with Some v => v | None => Shipment.truck end)
  = Fin (Spec.emissionFactor mode vehicle).
Proof. destruct mode, vehicle as [[]|]; reflexivity. Qed.

(** The same entries in binary64: the double nearest to each factor. *)
Lemma selectEmissionFactor_table_binary64 mode vehicle :
  Shipment.selectEmissionFactor mode
    (match vehicle with Some v => v | None => Shipment.truck end)
  = Binary64.of_Q (Spec.emissionFactor mode vehicle).
Proof. destruct mode, vehicle as [[]|]; vm_compute; reflexivity. Qed.

Lemma emissionFactor_positive mode vehicle :
  0 < Spec.emissionFactor mode vehicle.
Proof. destruct mode, vehicle as [[]|]; reflexivity. Qed.

(** [Number(field) || 0] for a finite or missing field. *)
Lemma number_or_zero (p : option Q) :
  exists p' : Q,
    (Shipment.Number (option_map Fin p) ||| Fin 0) = Fin p'
    /\ p' == match p with Some x => x | None => 0 end.
Proof.
  destruct p as [x|]; simpl.
  - unfold or_else. rewrite truthy_Fin.
    destruct (Qeq_bool x 0) eqn:E; simpl; eexists; split; try reflexivity.
    apply Qeq_bool_iff in E. symmetry. exact E.
  - exists 0. split; reflexivity.
Qed.

(** The calculator on a document that passes its guard, in any
    arithmetic: the steps of the source, nothing else. *)
Lemma calculateCarbonFootprint_steps {N : Type} `{JSNumber N}
    (this : Shipment.t N) (mode : Shipment.TransportMode) (d q : N) :
  Shipment.transportMode this = Some mode ->
  Shipment.distanceKm this = Some d -> truthy d = true ->
  Shipment.quantity this = Some q -> truthy q = true ->
  Shipment.calculateCarbonFootprint this
  = (Math_round
       (d
        * Shipment.selectEmissionFactor mode
            (match Shipment.vehicleType this with
             | Some v => v
             | None => Shipment.truck
             end)
        * ((q + (Shipment.Number (Shipment.packagingWeight this) ||| lit 0))
           / lit 1000)
        * lit 100)
     / lit 100) ||| lit 0.
Proof.
  intros Em Ed Td Eq Tq. unfold Shipment.calculateCarbonFootprint.
  rewrite Em, Ed, Eq. cbn [Shipment.falsy Shipment.Number].
  unfold or_else at 2 3. rewrite Td, Tq. reflexivity.
Qed.

Lemma carbon_exact mode vehicle d q p :
  ~ d == 0 -> ~ q == 0 ->
  Shipment.calculateCarbonFootprint (shipment mode vehicle d q p)
  =v= Fin (Spec.carbonKg mode vehicle d q
             (match p with Some x => x | None => 0 end)).
Proof.
  intros Hd Hq.
  rewrite (@calculateCarbonFootprint_steps number _ _ mode (Fin d) (Fin q));
    try reflexivity; try (apply truthy_Fin_nonzero; assumption).
  cbn [shipment Shipment.vehicleType Shipment.packagingWeight lit
       number_JSNumber].
  rewrite selectEmissionFactor_table.
  destruct (number_or_zero p) as (p' & -> & Ep).
  js_unfold.
  rewrite !div_Fin by (intro A; discriminate A).
  js_unfold.
  eapply same_value_trans; [apply or_zero_Fin|].
  cbn [same_value]. unfold Spec.carbonKg, round2. rewrite Ep. reflexivity.
Qed.

(* ----------------------------------------------------------------- *)
(** *** Signs *)

Lemma nonnegative_le (x : number) : nonnegative x <-> (Fin 0 <=? x) = true.
Proof.
  destruct x; simpl; try (intuition congruence).
  symmetry. apply Qle_bool_iff.
Qed.

Lemma positive_nonnegative (x : number) : positive x -> nonnegative x.
Proof. destruct x; simpl; auto. apply Qlt_le_weak. Qed.

(** A truthy number that is not below zero is above zero. *)
Lemma truthy_positive (x : number) :
  truthy x = true -> (x <? Fin 0) = false -> positive x.
Proof.
  destruct x as [q| | |]; simpl; try discriminate; auto.
  rewrite truthy_Fin, negb_true_iff. intros NE NL.
  apply Qlt_bool_false_iff in NL.
  assert (~ q == 0) by (rewrite <- Qeq_bool_iff; congruence).
  lra.
Qed.

Lemma positive_mul (x y : number) :
  positive x -> positive y -> positive (x * y).
Proof.
  destruct x as [a| | |], y as [b| | |]; simpl; try contradiction; auto.
  - apply Qmult_lt_0_compat.
  - intros Pa _. unfold Exact.scale_inf.
    apply Qgt_alt in Pa. rewrite Pa. exact I.
  - intros _ Pb. unfold Exact.scale_inf.
    apply Qgt_alt in Pb. rewrite Pb. exact I.
Qed.

Lemma positive_add (x y : number) :
  positive x -> nonnegative y -> positive (x + y).
Proof.
  destruct x as [a| | |], y as [b| | |]; simpl; try contradiction; auto.
  intros. lra.
Qed.

Lemma positive_div (x : number) (c : Q) :
  0 < c -> positive x -> positive (x / Fin c).
Proof.
  intros Pc Px. destruct x as [a| | |]; cbn [positive] in Px;
    try contradiction; cbn [div number_JSNumber].
  - rewrite div_Fin by lra. cbn [positive].
    apply Qlt_shift_div_l; lra.
  - cbn [Exact.div]. destruct (Qle_bool 0 c) eqn:E; [exact I|].
    apply Qle_bool_false_iff in E. lra.
Qed.

Lemma nonnegative_div (x : number) (c : Q) :
  0 < c -> nonnegative x -> nonnegative (x / Fin c).
Proof.
  intros Pc Px. destruct x as [a| | |]; cbn [nonnegative] in Px;
    try contradiction; cbn [div number_JSNumber].
  - rewrite div_Fin by lra. cbn [nonnegative].
    apply Qle_shift_div_l; lra.
  - cbn [Exact.div]. destruct (Qle_bool 0 c) eqn:E; [exact I|].
    apply Qle_bool_false_iff in E. lra.
Qed.

Lemma nonnegative_round (x : number) :
  nonnegative x -> nonnegative (Math_round x).
Proof.
  destruct x as [a| | |]; cbn [nonnegative Math_round number_JSNumber
                               Exact.round]; auto.
  intro Pa. change 0 with (inject_Z (Qfloor (1 # 2))).
  rewrite <- Zle_Qle. apply Qfloor_resp_le. lra.
Qed.

Lemma nonnegative_or_zero (x : number) :
  nonnegative x -> nonnegative (x ||| Fin 0).
Proof.
  intro P. unfold or_else. destruct (truthy x); [exact P|].
  simpl. apply Qle_refl.
Qed.

(** [Number(field) || 0] is never below zero when the field is not. *)
Lemma nonnegative_field (field : option number) :
  not_negative field -> nonnegative (Shipment.Number field ||| Fin 0).
Proof.
  destruct field as [x|]; simpl.
  - intro NL. unfold or_else. destruct (truthy x) eqn:T.
    + apply positive_nonnegative, truthy_positive; assumption.
    + simpl. apply Qle_refl.
  - intros _. vm_compute. discriminate.
Qed.

Lemma carbon_zero_when_falsy {N : Type} `{JSNumber N} (this : Shipment.t N) :
  Shipment.falsy (Shipment.distanceKm this) = true
  \/ Shipment.transportMode this = None
  \/ Shipment.falsy (Shipment.quantity this) = true ->
  Shipment.calculateCarbonFootprint this = lit 0.
Proof.
  unfold Shipment.calculateCarbonFootprint.
  intros [E | [E | E]]; rewrite E; try reflexivity;
    destruct (Shipment.transportMode this); try reflexivity;
    destruct (Shipment.falsy (Shipment.distanceKm this)); reflexivity.
Qed.

Lemma carbon_nonnegative (this : Shipment.t number) :
  not_negative (Shipment.distanceKm this) ->
  not_negative (Shipment.quantity this) ->
  not_negative (Shipment.packagingWeight this) ->
  nonnegative (Shipment.calculateCarbonFootprint this).
Proof.
  intros Nd Nq Np.
  destruct (Shipment.transportMode this) as [mode|] eqn:Em;
    [|rewrite carbon_zero_when_falsy by auto; simpl; apply Qle_refl].
  destruct (Shipment.distanceKm this) as [d|] eqn:Ed;
    [|rewrite carbon_zero_when_falsy by (rewrite Ed; auto);
      simpl; apply Qle_refl].
  destruct (Shipment.quantity this) as [q|] eqn:Eq;
    [|rewrite carbon_zero_when_falsy by (rewrite Eq; auto);
      simpl; apply Qle_refl].
  destruct (truthy d) eqn:Td;
    [|rewrite carbon_zero_when_falsy by (rewrite Ed; simpl; rewrite Td; auto);
      simpl; apply Qle_refl].
  destruct (truthy q) eqn:Tq;
    [|rewrite carbon_zero_when_falsy by (rewrite Eq; simpl; rewrite Tq; auto);
      simpl; apply Qle_refl].
  rewrite (calculateCarbonFootprint_steps this Em Ed Td Eq Tq).
  rewrite selectEmissionFactor_table.
  apply nonnegative_or_zero, nonnegative_div; [reflexivity|].
  apply nonnegative_round, positive_nonnegative.
  apply positive_mul; [|reflexivity].
  apply positive_mul.
  - apply positive_mul.
    + apply truthy_positive; assumption.
    + apply emissionFactor_positive.
  - apply positive_div; [reflexivity|].
    apply positive_add.
    + apply truthy_positive; assumption.
    + apply nonnegative_field. exact Np.
Qed.

(* ----------------------------------------------------------------- *)
(** *** Comparing results *)

Lemma le_same_value (x x' y y' : number) :
  x =v= x' -> y =v= y' -> (x <=? y) = (x' <=? y').
Proof.
  destruct x, x', y, y'; simpl; try contradiction; auto.
  intros E1 E2. rewrite E1, E2. reflexivity.
Qed.

Lemma le_Fin (a b : Q) : (Fin a <=? Fin b) = true <-> a <= b.
Proof. simpl. apply Qle_bool_iff. Qed.

(** The value of the calculator on finite fields: zero at a zero
    distance or quantity, the formula elsewhere. *)
Lemma carbon_value mode vehicle (d q p : Q) :
  exists r : Q,
    Shipment.calculateCarbonFootprint (shipment mode vehicle d q (Some p))
    =v= Fin r
    /\ (d == 0 \/ q == 0 -> r == 0)
    /\ (~ d == 0 -> ~ q == 0 -> r == Spec.carbonKg mode vehicle d q p).
Proof.
  destruct (Qeq_dec d 0) as [Zd|Nd].
  - exists 0. split; [|split; [reflexivity | contradiction]].
    rewrite carbon_zero_when_falsy; [reflexivity|].
    left. simpl. rewrite truthy_Fin_zero by assumption. reflexivity.
  - destruct (Qeq_dec q 0) as [Zq|Nq].
    + exists 0. split; [|split; [reflexivity | contradiction]].
      rewrite carbon_zero_when_falsy; [reflexivity|].
      right. right. simpl. rewrite truthy_Fin_zero by assumption. reflexivity.
    + exists (Spec.carbonKg mode vehicle d q p).
      split; [|split; [intros [?|?]; contradiction | reflexivity]].
      apply (carbon_exact mode vehicle (Some p) Nd Nq).
Qed.

Lemma carbonKg_nonneg mode vehicle (d q p : Q) :
  0 <= d -> 0 <= q -> 0 <= p -> 0 <= Spec.carbonKg mode vehicle d q p.
Proof.
  intros Pd Pq Pp. unfold Spec.carbonKg. apply round2_nonneg.
  pose proof (emissionFactor_positive mode vehicle) as Pe.
  apply Qmult_le_0_compat; [apply Qmult_le_0_compat; lra|].
  apply Qle_shift_div_l; lra.
Qed.

Lemma carbonKg_monotone mode vehicle (d1 d2 q1 q2 p1 p2 : Q) :
  0 <= d1 <= d2 -> 0 <= q1 + p1 <= q2 + p2 ->
  Spec.carbonKg mode vehicle d1 q1 p1 <= Spec.carbonKg mode vehicle d2 q2 p2.
Proof.
  intros Ld Lw. unfold Spec.carbonKg. apply round2_monotone.
  pose proof (emissionFactor_positive mode vehicle) as Pe.
  set (e := Spec.emissionFactor mode vehicle) in *.
  assert (W1 : 0 <= (q1 + p1) / 1000) by (apply Qle_shift_div_l; lra).
  assert (W12 : (q1 + p1) / 1000 <= (q2 + p2) / 1000).
  { apply Qmult_le_compat_r; [lra | discriminate]. }
  apply Qle_trans with (d2 * e * ((q1 + p1) / 1000))%Q.
  - apply Qmult_le_compat_r; [|exact W1].
    apply Qmult_le_compat_r; lra.
  - rewrite !(Qmult_comm (d2 * e)%Q).
    apply Qmult_le_compat_r; [exact W12|].
    apply Qmult_le_0_compat; lra.
Qed.

(* ----------------------------------------------------------------- *)
(** *** The green score *)

Lemma clamp_bounds (x : Q) : 0 <= clamp x <= 100.
Proof. unfold clamp. qcases; lra. Qed.

Lemma clamp_comp (x y : Q) : x == y -> clamp x == clamp y.
Proof. intro E. unfold clamp. qcases; lra. Qed.

(** [Math.max(0, Math.min(100, score))] on a finite score. *)
Lemma clamp_exact (s : Q) :
  Math_max (lit 0) (Math_min (lit 100) (Fin s)) =v= Fin (clamp s).
Proof.
  unfold Math_max, Math_min, isNaN, clamp. js_unfold.
  replace (Qle_bool 100 100) with true by reflexivity.
  replace (Qle_bool 0 0) with true by reflexivity.
  assert (R : Qle_bool s s = true) by (apply Qle_bool_iff, Qle_refl).
  rewrite R. cbn [negb orb].
  destruct (Exact.Qlt_bool s 100) eqn:A; js_unfold.
  - rewrite R. cbn [negb].
    destruct (Exact.Qlt_bool 0 s) eqn:B;
      destruct (Exact.Qlt_bool s 0) eqn:C;
      destruct (Exact.Qlt_bool 100 s) eqn:D; qprop; cbn [same_value]; lra.
  - change (Qle_bool 100 100) with true.
    change (Exact.Qlt_bool 0 100) with true.
    cbn [negb].
    destruct (Exact.Qlt_bool s 0) eqn:C;
      destruct (Exact.Qlt_bool 100 s) eqn:D; qprop; cbn [same_value]; lra.
Qed.

Lemma packaging_score (p : option Product.PackagingType) :
  Product.score_of Product.PackagingType_beq Product.packagingScores p
  = Fin (Spec.packaging p).
Proof. destruct p as [[]|]; reflexivity. Qed.

Ltac band_cases :=
  unfold gt, Spec.carbonBand, Spec.waterBand, Spec.spoilageBand,
    Spec.within, Spec.band;
  js_unfold; qcases; cbn [andb];
  (eexists; split; [reflexivity | lra]).

Lemma carbon_band_step (score : number) (s c : Q) :
  score = Fin s ->
  exists s' : Q,
    (if Fin c <? Fin 1 then score + Fin 20
     else if Fin c <? Fin 5 then score + Fin 15
     else if Fin c <? Fin 10 then score + Fin 10
     else if Fin c >? Fin 20 then score - Fin 15
     else score) = Fin s'
    /\ s' == s + Spec.carbonBand c.
Proof. intros ->. band_cases. Qed.

Lemma water_band_step (score : number) (s w : Q) :
  score = Fin s ->
  exists s' : Q,
    (if Fin w <? Fin 10 then score + Fin 15
     else if Fin w <? Fin 50 then score + Fin 10
     else if Fin w >? Fin 100 then score - Fin 10
     else score) = Fin s'
    /\ s' == s + Spec.waterBand w.
Proof. intros ->. band_cases. Qed.

Lemma spoilage_band_step (score : number) (s r : Q) :
  score = Fin s ->
  exists s' : Q,
    (if Fin r <? Fin 2 then score + Fin 10
     else if Fin r <? Fin 5 then score + Fin 5
     else if Fin r >? Fin 15 then score - Fin 10
     else score) = Fin s'
    /\ s' == s + Spec.spoilageBand r.
Proof. intros ->. band_cases. Qed.

(* ----------------------------------------------------------------- *)
(** *** Scores stay finite *)

Lemma Qle_bool_refl (a : Q) : Qle_bool a a = true.
Proof. apply Qle_bool_iff, Qle_refl. Qed.

Lemma Math_min_Fin (a b : Q) :
  Math_min (Fin a) (Fin b) = Fin (if Exact.Qlt_bool b a then b else a).
Proof.
  unfold Math_min, isNaN. js_unfold. rewrite !Qle_bool_refl. cbn [negb orb].
  destruct (Exact.Qlt_bool b a); reflexivity.
Qed.

Lemma finite_Fin (q : Q) : finite (Fin q).
Proof. exists q. reflexivity. Qed.

Lemma finite_add (x y : number) : finite x -> finite y -> finite (x + y).
Proof. intros [a ->] [b ->]. eexists. reflexivity. Qed.

Lemma finite_sub (x y : number) : finite x -> finite y -> finite (x - y).
Proof. intros [a ->] [b ->]. eexists. reflexivity. Qed.

Lemma finite_mul (x y : number) : finite x -> finite y -> finite (x * y).
Proof. intros [a ->] [b ->]. eexists. reflexivity. Qed.

Lemma finite_if (b : bool) (x y : number) :
  finite x -> finite y -> finite (if b then x else y).
Proof. destruct b; auto. Qed.

Lemma finite_score_of {K : Type} (eqb : K -> K -> bool)
    (table : list (K * Q)) (key : option K) :
  finite (Product.score_of eqb table key).
Proof.
  unfold Product.score_of, or_else.
  destruct key as [k|]; [|apply finite_Fin].
  destruct (property eqb k table); [|apply finite_Fin].
  apply finite_if; apply finite_Fin.
Qed.

Lemma finite_length_of {A : Type} (l : list A) : finite (length_of l).
Proof. apply finite_Fin. Qed.

Ltac finite_steps :=
  repeat first
    [ apply finite_if | apply finite_add | apply finite_sub
    | apply finite_mul | apply finite_score_of | apply finite_length_of
    | apply finite_Fin ].

Lemma clamp_in_range (score : number) :
  finite score -> in_0_100 (Math_max (lit 0) (Math_min (lit 100) score)).
Proof.
  intros [s ->]. exists (clamp s).
  split; [apply clamp_exact | apply clamp_bounds].
Qed.

Lemma green_in_range (this : Product.t number) :
  in_0_100 (Product.calculateGreenScore this).
Proof.
  unfold Product.calculateGreenScore. cbv zeta.
  apply clamp_in_range. finite_steps.
Qed.

Lemma nonneg_Fin (q : Q) : 0 <= q -> finite_nonneg (Fin q).
Proof. intro P. exists q. split; [reflexivity | exact P]. Qed.

Lemma nonneg_add (x y : number) :
  finite_nonneg x -> finite_nonneg y -> finite_nonneg (x + y).
Proof.
  intros (a & -> & Pa) (b & -> & Pb). eexists. split; [reflexivity | lra].
Qed.

Lemma nonneg_if (b : bool) (x y : number) :
  finite_nonneg x -> finite_nonneg y -> finite_nonneg (if b then x else y).
Proof. destruct b; auto. Qed.

Lemma nonneg_Math_min (x y : number) :
  finite_nonneg x -> finite_nonneg y -> finite_nonneg (Math_min x y).
Proof.
  intros (a & -> & Pa) (b & -> & Pb). rewrite Math_min_Fin.
  eexists. split; [reflexivity|]. destruct (Exact.Qlt_bool b a); assumption.
Qed.

Lemma nonneg_length_times (A : Type) (l : list A) (c : Q) :
  0 <= c -> finite_nonneg (length_of l * Fin c).
Proof.
  intro Pc. eexists. split; [reflexivity|].
  apply Qmult_le_0_compat; [|exact Pc].
  change 0 with (inject_Z 0). rewrite <- Zle_Qle. apply Nat2Z.is_nonneg.
Qed.

Lemma nonneg_certification (level : option Supplier.CertificationLevel) :
  finite_nonneg
    (Product.score_of Supplier.CertificationLevel_beq Supplier.certScores
       level).
Proof.
  destruct level as [[]|]; eexists; (split; [reflexivity | discriminate]).
Qed.

Ltac nonneg_steps :=
  repeat first
    [ apply nonneg_Math_min | apply nonneg_certification
    | apply nonneg_length_times | apply nonneg_add | apply nonneg_if
    | apply nonneg_Fin ];
  try discriminate.

Lemma esg_in_range (this : Supplier.t number) :
  in_0_100 (Supplier.calculateESGScore this).
Proof.
  unfold Supplier.calculateESGScore. cbv zeta.
  match goal with
  | |- in_0_100 (Math_min ?score _) =>
      assert (F : finite_nonneg score) by nonneg_steps;
      destruct F as (s & -> & Ps)
  end.
  change (lit 100) with (Fin 100). rewrite Math_min_Fin.
  eexists. split; [apply same_value_refl|].
  destruct (Exact.Qlt_bool 100 s) eqn:E; qprop; lra.
Qed.

(* ----------------------------------------------------------------- *)
(** *** The risk level *)

Lemma risk_exact (wp conf stock qty : Q) :
  WasteAlert.calculateRiskLevel (alert wp conf stock qty : WasteAlert.t number)
  = Spec.riskStep (wp * (conf / 100)).
Proof.
  unfold WasteAlert.calculateRiskLevel, alert, ge.
  cbn [WasteAlert.predictedWastePercentage WasteAlert.confidence].
  cbv zeta. cbn [lit number_JSNumber div].
  rewrite div_Fin by (intro A; discriminate A).
  reflexivity.
Qed.

Lemma riskStep_low (a : Q) : a < 10 -> Spec.riskStep a = WasteAlert.low.
Proof. intro L. unfold Spec.riskStep. qcases; first [reflexivity | lra]. Qed.

(** A percentage that is not negative, weighted by a negative
    confidence, is an adjusted risk of at most zero. *)
Lemma product_nonpositive (w c : Q) : 0 <= w -> c < 0 -> w * (c / 100) <= 0.
Proof.
  intros Pw Nc.
  assert (P : 0 <= w * (- c / 100)).
  { apply Qmult_le_0_compat; [exact Pw|]. apply Qle_shift_div_l; lra. }
  assert (E : w * (- c / 100) == - (w * (c / 100))) by field.
  lra.
Qed.

Lemma riskStep_monotone (a b : Q) :
  a <= b -> (Spec.severity (Spec.riskStep a) <= Spec.severity (Spec.riskStep b))%nat.
Proof.
  intro L. unfold Spec.riskStep.
  qcases; cbn [Spec.severity]; first [lia | exfalso; lra].
Qed.

(* ----------------------------------------------------------------- *)
(** *** The waste score *)

Lemma inject_nat_nonzero (n : nat) :
  n <> 0%nat -> ~ inject_Z (Z.of_nat n) == 0.
Proof.
  intros NZ E. apply NZ.
  unfold Qeq in E. simpl in E. lia.
Qed.

Lemma length_ratio (A B : Type) (l : list A) (m : list B) :
  List.length m <> 0%nat ->
  (length_of l / length_of m : number)
  = Fin (inject_Z (Z.of_nat (List.length l))
         / inject_Z (Z.of_nat (List.length m))).
Proof.
  intro NZ. unfold length_of. cbn [lit number_JSNumber div].
  apply div_Fin, inject_nat_nonzero, NZ.
Qed.

Lemma filter_twice (A : Type) (f g : A -> bool) (l : list A) :
  filter g (filter f l) = filter (fun x => f x && g x) l.
Proof.
  induction l as [|x l IH]; [reflexivity|].
  simpl. destruct (f x); simpl; [destruct (g x)|]; rewrite IH; reflexivity.
Qed.

(** A population with alerts, none of them active: the critical rate
    is 0/0 and the score is [NaN]. *)
Lemma waste_score_without_active (alerts : list (WasteAlert.t number)) :
  alerts <> [] ->
  count_status WasteAlert.active alerts = 0%nat ->
  Analytics.calculateWasteScore alerts = NotANumber.
Proof.
  intros NE NA. unfold Analytics.calculateWasteScore.
  destruct alerts as [|a l]; [contradiction|].
  cbn [List.length Nat.eqb]. cbv zeta.
  unfold count_status in NA. apply length_zero_iff_nil in NA.
  rewrite NA. cbn [filter].
  rewrite length_ratio by discriminate.
  reflexivity.
Qed.

(** A population with an active alert: the score is the clamped
    formula. *)
Lemma waste_score_with_active (alerts : list (WasteAlert.t number)) :
  count_status WasteAlert.active alerts <> 0%nat ->
  Analytics.calculateWasteScore alerts
  =v= Fin (Spec.wasteScore (List.length alerts)
             (count_status WasteAlert.resolved alerts)
             (count_status WasteAlert.active alerts)
             (count_critical_active alerts)).
Proof.
  intro NA. unfold Analytics.calculateWasteScore.
  destruct alerts as [|a l]; [contradiction NA; reflexivity|].
  cbn [List.length Nat.eqb]. cbv zeta.
  rewrite (length_ratio _ (a :: l)) by discriminate.
  rewrite length_ratio by exact NA.
  rewrite filter_twice.
  js_unfold.
  eapply same_value_trans; [apply clamp_exact|].
  apply same_value_refl.
Qed.

(* ================================================================= *)
(** ** Facts about the binary64 instance *)

(** The comparison of the doubles is the comparison of their places. *)
Lemma SFcompare_key (x y : spec_float) :
  SFcompare x y
  = match SFkey x, SFkey y with
    | Some a, Some b => Some (key_compare a b)
    | _, _ => None
    end.
Proof.
  destruct x as [[|]|[|]| |[|] m1 e1], y as [[|]|[|]| |[|] m2 e2];
    try reflexivity.
  cbn -[Z.compare Z.opp].
  rewrite Z.compare_opp, (Z.compare_antisym e1 e2).
  destruct (e1 ?= e2)%Z; reflexivity.
Qed.

Lemma key_compare_refl (a : Z * Z * Z) : key_compare a a = Eq.
Proof.
  destruct a as [[s e] m]. unfold key_compare.
  rewrite !Z.compare_refl. reflexivity.
Qed.

Lemma key_compare_le_trans (a b c : Z * Z * Z) :
  key_compare a b <> Gt -> key_compare b c <> Gt -> key_compare a c <> Gt.
Proof.
  destruct a as [[s1 e1] m1], b as [[s2 e2] m2], c as [[s3 e3] m3].
  unfold key_compare.
  destruct (Z.compare_spec s1 s2), (Z.compare_spec s2 s3),
    (Z.compare_spec s1 s3); try lia; try congruence;
  destruct (Z.compare_spec e1 e2), (Z.compare_spec e2 e3),
    (Z.compare_spec e1 e3); try lia; try congruence;
  destruct (Z.compare_spec m1 m2), (Z.compare_spec m2 m3),
    (Z.compare_spec m1 m3); try lia; congruence.
Qed.

Lemma key_compare_antisym (a b : Z * Z * Z) :
  key_compare b a = CompOpp (key_compare a b).
Proof.
  destruct a as [[s1 e1] m1], b as [[s2 e2] m2]. unfold key_compare.
  rewrite (Z.compare_antisym s1 s2), (Z.compare_antisym e1 e2),
    (Z.compare_antisym m1 m2).
  destruct (s1 ?= s2)%Z, (e1 ?= e2)%Z, (m1 ?= m2)%Z; reflexivity.
Qed.

Lemma SFleb_key (x y : spec_float) :
  SFleb x y = true
  <-> exists a b,
        SFkey x = Some a /\ SFkey y = Some b /\ key_compare a b <> Gt.
Proof.
  unfold SFleb. rewrite SFcompare_key.
  destruct (SFkey x) as [a|], (SFkey y) as [b|]; split;
    try (intro A; discriminate A);
    try (intros (a' & b' & A & B & _); discriminate).
  - intro A. exists a, b. repeat split.
    destruct (key_compare a b); congruence.
  - intros (a' & b' & A & B & C). injection A as <-. injection B as <-.
    destruct (key_compare a b); congruence.
Qed.

Lemma SFltb_key (x y : spec_float) :
  SFltb x y = true
  <-> exists a b,
        SFkey x = Some a /\ SFkey y = Some b /\ key_compare a b = Lt.
Proof.
  unfold SFltb. rewrite SFcompare_key.
  destruct (SFkey x) as [a|], (SFkey y) as [b|]; split;
    try (intro A; discriminate A);
    try (intros (a' & b' & A & B & _); discriminate).
  - intro A. exists a, b. repeat split.
    destruct (key_compare a b); congruence.
  - intros (a' & b' & A & B & C). injection A as <-. injection B as <-.
    rewrite C. reflexivity.
Qed.

(** [<=] on doubles is transitive. *)
Lemma leb_transitive (x y z : float) :
  PrimFloat.leb x y = true -> PrimFloat.leb y z = true ->
  PrimFloat.leb x z = true.
Proof.
  rewrite !leb_spec, !SFleb_key.
  intros (a & b & A & B & L1) (b' & c & B' & C & L2).
  rewrite B in B'. injection B' as <-.
  exists a, c. repeat split; try assumption.
  eapply key_compare_le_trans; eassumption.
Qed.

(** Of two doubles that are not [NaN], the one is below the other or
    the other is at most the one. *)
Lemma ltb_iff_not_leb (x y : float) :
  PrimFloat.leb x x = true -> PrimFloat.leb y y = true ->
  (PrimFloat.ltb x y = true <-> PrimFloat.leb y x = false).
Proof.
  rewrite !leb_spec, ltb_spec. intros Nx Ny.
  apply SFleb_key in Nx as (a & _ & A & _ & _).
  apply SFleb_key in Ny as (b & _ & B & _ & _).
  rewrite SFltb_key. unfold SFleb. rewrite SFcompare_key, A, B.
  rewrite (key_compare_antisym a b).
  split.
  - intros (a' & b' & A' & B' & L). injection A' as <-. injection B' as <-.
    rewrite L. reflexivity.
  - intro L. exists a, b. repeat split.
    destruct (key_compare a b); simpl in L; congruence.
Qed.

(** The operands of a comparison that holds are not [NaN]. *)
Lemma leb_not_NaN_r (x y : float) :
  PrimFloat.leb x y = true -> PrimFloat.leb y y = true.
Proof.
  rewrite !leb_spec, !SFleb_key. intros (a & b & A & B & L).
  exists b, b. repeat split; try assumption.
  rewrite key_compare_refl. discriminate.
Qed.

Lemma ltb_not_NaN_l (x y : float) :
  PrimFloat.ltb x y = true -> PrimFloat.leb x x = true.
Proof.
  rewrite leb_spec, ltb_spec, SFleb_key, SFltb_key.
  intros (a & b & A & B & L).
  exists a, a. repeat split; try assumption.
  rewrite key_compare_refl. discriminate.
Qed.

(** A step of a step function: at or above [lo] and below [hi] is not
    at or above [hi], and at or above [lo]. *)
Lemma step_binary64 (lo hi : float) (a : float) :
  (lo <=? hi) = true ->
  ((a >=? lo) = true /\ (a <? hi) = true
   <-> (a >=? hi) = false /\ (a >=? lo) = true).
Proof.
  intro L. unfold ge. cbn [le lt float_JSNumber] in *.
  split.
  - intros (A & B). split; [|exact A].
    apply ltb_iff_not_leb; [ | | exact B].
    + exact (@leb_not_NaN_r _ _ A).
    + exact (@leb_not_NaN_r _ _ L).
  - intros (A & B). split; [exact B|].
    apply ltb_iff_not_leb; [ | | exact A].
    + exact (@leb_not_NaN_r _ _ B).
    + exact (@leb_not_NaN_r _ _ L).
Qed.

(** What is not at or above [lo] is below it, or [NaN]. *)
Lemma below_binary64 (lo : float) (a : float) :
  (lo <=? lo) = true ->
  ((a <? lo) = true \/ isNaN a = true <-> (a >=? lo) = false).
Proof.
  intro L. unfold ge, isNaN. cbn [le lt float_JSNumber] in *.
  split.
  - intros [A|A].
    + apply ltb_iff_not_leb; [ | exact L | exact A].
      exact (@ltb_not_NaN_l _ _ A).
    + apply negb_true_iff in A.
      destruct (PrimFloat.leb lo a) eqn:E; [|reflexivity].
      rewrite (@leb_not_NaN_r _ _ E) in A. discriminate A.
  - intro A. destruct (PrimFloat.leb a a) eqn:E.
    + left. apply ltb_iff_not_leb; assumption.
    + right. reflexivity.
Qed.

(** Zero and [NaN] through a product and a quotient. *)
Lemma mul_zero_or_NaN_l (x y : float) :
  zero_or_NaN (Prim2SF x) -> zero_or_NaN (Prim2SF (PrimFloat.mul x y)).
Proof.
  rewrite mul_spec.
  destruct (Prim2SF x) as [s|s| |s m e]; try contradiction; intros _;
    destruct (Prim2SF y) as [s'|s'| |s' m' e']; exact I.
Qed.

Lemma mul_zero_or_NaN_r (x y : float) :
  zero_or_NaN (Prim2SF y) -> zero_or_NaN (Prim2SF (PrimFloat.mul x y)).
Proof.
  rewrite mul_spec.
  destruct (Prim2SF y) as [s|s| |s m e]; try contradiction; intros _;
    destruct (Prim2SF x) as [s'|s'| |s' m' e']; exact I.
Qed.

Lemma div_zero_or_NaN (x y : float) :
  zero_or_NaN (Prim2SF x) -> zero_or_NaN (Prim2SF (PrimFloat.div x y)).
Proof.
  rewrite div_spec.
  destruct (Prim2SF x) as [s|s| |s m e]; try contradiction; intros _;
    destruct (Prim2SF y) as [s'|s'| |s' m' e']; exact I.
Qed.

(** 0 / 0 is [NaN], and so is [NaN] over a zero. *)
Lemma div_by_zero_NaN (x y : float) (s : bool) :
  zero_or_NaN (Prim2SF x) -> Prim2SF y = S754_zero s ->
  Prim2SF (PrimFloat.div x y) = S754_nan.
Proof.
  rewrite div_spec. intros Zx ->.
  destruct (Prim2SF x) as [s'|s'| |s' m' e']; try contradiction;
    reflexivity.
Qed.

Lemma div_of_NaN (x y : float) :
  Prim2SF x = S754_nan -> Prim2SF (PrimFloat.div x y) = S754_nan.
Proof. rewrite div_spec. intros ->. reflexivity. Qed.

(** A double that is [=== 0] is one of the two zeros. *)
Lemma strictEq_zero_binary64 (x : float) :
  strictEq x (lit 0) = true -> exists s : bool, Prim2SF x = S754_zero s.
Proof.
  unfold strictEq. cbn [le float_JSNumber]. rewrite !leb_spec.
  change (Prim2SF (lit 0)) with (S754_zero false).
  destruct (Prim2SF x) as [s|[|]| |[|] m e]; try (intro A; discriminate A).
  intros _. exists s. reflexivity.
Qed.

(** [NaN] is below no threshold. *)
Lemma rating_of_NaN (x : float) :
  Prim2SF x = S754_nan -> RouteOptimizer.getEfficiencyRating x = Virtual.poor.
Proof.
  intro E. unfold RouteOptimizer.getEfficiencyRating.
  cbn [lt float_JSNumber]. rewrite !ltb_spec, E. reflexivity.
Qed.

(* ================================================================= *)
(** ** The carbon footprint calculator *)

(** C1, as the code has it.  For every shipment with a non-zero
    distanceKm and quantity and a transportMode of the table,
    [calculateCarbonFootprint] returns
    Math.round(x * 100) / 100 for
    x = distanceKm x emissionFactor x ((quantity + packagingWeight) / 1000),
    each operation being the operation of the doubles and a result that
    is 0 or [NaN] becoming 0.  The factor is the one of the fixed table
    ([Spec.emissionFactor]: a missing vehicleType counts as a truck, a
    vehicleType outside the table takes the diesel-truck factor 0.15),
    and a packagingWeight that is missing or 0 counts as 0.  Read over
    the rationals, the formula is the product rounded to two decimal
    places, a tie going up ([round2]).  In particular the shipment
    diesel, truck, 100 km, 500 units, no packaging yields 7.5. *)
Theorem carbon_footprint_formula :
  (forall mode vehicle (d q : float) (p : option float),
      truthy d = true -> truthy q = true ->
      Shipment.calculateCarbonFootprint
        {| Shipment.quantity := Some q;
           Shipment.distanceKm := Some d;
           Shipment.transportMode := Some mode;
           Shipment.vehicleType := vehicle;
           Shipment.packagingWeight := p |}
      = (Spec.carbonKg_in (Spec.emissionFactor mode vehicle) d q
           (Shipment.Number p ||| lit 0))
        ||| lit 0)
  /\ (forall factor d q p : Q,
        Spec.carbonKg_in factor (Fin d) (Fin q) (Fin p)
        =v= Fin (round2 (d * factor * ((q + p) / 1000))))
  /\ Shipment.calculateCarbonFootprint
       (shipment Shipment.diesel (Some Shipment.truck) 100 500 (Some 0))
     = 7.5%float.
Proof.
  split; [|split].
  - intros mode vehicle d q p Td Tq.
    rewrite (@calculateCarbonFootprint_steps float _ _ mode d q);
      try reflexivity; try assumption.
    cbn [Shipment.vehicleType Shipment.packagingWeight].
    rewrite selectEmissionFactor_table_binary64. reflexivity.
  - intros factor d q p. unfold Spec.carbonKg_in. js_unfold.
    rewrite !div_Fin by (intro A; discriminate A).
    js_unfold. cbn [same_value]. unfold round2. reflexivity.
  - vm_compute. reflexivity.
Qed.

Lemma carbon_footprint_formula_witness :
  Shipment.calculateCarbonFootprint
    {| Shipment.quantity := Some 1200%float;
       Shipment.distanceKm := Some 250%float;
       Shipment.transportMode := Some Shipment.rail;
       Shipment.vehicleType := None;
       Shipment.packagingWeight := None |}
  = (Spec.carbonKg_in (Spec.emissionFactor Shipment.rail None)
       250%float 1200%float (Shipment.Number None ||| lit 0))
    ||| lit 0.
Proof.
  apply (proj1 carbon_footprint_formula
           Shipment.rail None 250%float 1200%float None);
    vm_compute; reflexivity.
Defined.

(** C1 as the specification words it fails at a tie.  By air (the
    factor 0.5, a double), 10 km with 11 units and 11 km with 10 units
    have the same product, 0.055, which rounds to 0.06; the code
    returns 0.05 for the first and 0.06 for the second.  Every figure
    of the two shipments is a double: the difference is made by the
    quotient by 1000, which is rounded. *)
Lemma carbon_footprint_not_the_rounded_product :
  Prim2SF (lit (50 # 100)) = S754_finite false 4503599627370496 (-53)
  /\ Spec.carbonKg Shipment.air (Some Shipment.plane) 10 11 0 == 6 # 100
  /\ Spec.carbonKg Shipment.air (Some Shipment.plane) 11 10 0 == 6 # 100
  /\ Shipment.calculateCarbonFootprint
       (shipment Shipment.air (Some Shipment.plane) 10 11 None
        : Shipment.t float)
     = lit (5 # 100)
  /\ Shipment.calculateCarbonFootprint
       (shipment Shipment.air (Some Shipment.plane) 11 10 None
        : Shipment.t float)
     = lit (6 # 100)
  /\ Shipment.calculateCarbonFootprint
       (shipment Shipment.air (Some Shipment.plane) 10 11 None
        : Shipment.t float)
     <> lit (Spec.carbonKg Shipment.air (Some Shipment.plane) 10 11 0).
Proof.
  repeat split; try (vm_compute; reflexivity).
  intro A. apply (f_equal Prim2SF) in A. vm_compute in A. discriminate A.
Qed.

(** The two arithmetics can part at a tie: 1 km by diesel truck with
    6700 units is 1.005 kg exactly, which rounds up to 1.01; in binary64
    the product times 100 is 100.49999999999999 and the result 1. *)
Remark carbon_footprint_at_a_tie :
  Shipment.calculateCarbonFootprint
    (shipment Shipment.diesel (Some Shipment.truck) 1 6700 None)
  =v= Fin (101 # 100)
  /\ Shipment.calculateCarbonFootprint
       (shipment Shipment.diesel (Some Shipment.truck) 1 6700 None)
     = 1%float.
Proof. split; vm_compute; reflexivity. Qed.

(** C6, as the code has it. The calculator is a total function; its
    result is exactly 0 whenever distanceKm, transportMode or quantity
    is missing, zero or otherwise falsy (in any arithmetic); and its
    result is never below zero provided none of distanceKm, quantity and
    packagingWeight is negative (in exact arithmetic, infinite values
    included). *)
Theorem carbon_footprint_zero_or_nonnegative :
  (forall (N : Type) (H : JSNumber N) (this : Shipment.t N),
      Shipment.falsy (Shipment.distanceKm this) = true
      \/ Shipment.transportMode this = None
      \/ Shipment.falsy (Shipment.quantity this) = true ->
      Shipment.calculateCarbonFootprint this = lit 0)
  /\ (forall this : Shipment.t number,
        not_negative (Shipment.distanceKm this) ->
        not_negative (Shipment.quantity this) ->
        not_negative (Shipment.packagingWeight this) ->
        (Fin 0 <=? Shipment.calculateCarbonFootprint this) = true).
Proof.
  split.
  - intros N H this. apply carbon_zero_when_falsy.
  - intros this Nd Nq Np.
    apply nonnegative_le, carbon_nonnegative; assumption.
Qed.

Lemma carbon_footprint_zero_or_nonnegative_witness :
  Shipment.calculateCarbonFootprint
    {| Shipment.quantity := Some 0%float;
       Shipment.distanceKm := Some 120%float;
       Shipment.transportMode := Some Shipment.rail;
       Shipment.vehicleType := None;
       Shipment.packagingWeight := None |} = lit 0
  /\ (Fin 0 <=? Shipment.calculateCarbonFootprint
                  {| Shipment.quantity := Some (Fin 40);
                     Shipment.distanceKm := Some PosInf;
                     Shipment.transportMode := Some Shipment.air;
                     Shipment.vehicleType := Some Shipment.plane;
                     Shipment.packagingWeight := Some (Fin (5 # 2)) |})
     = true.
Proof.
  split.
  - apply (proj1 carbon_footprint_zero_or_nonnegative float _).
    right. right. vm_compute. reflexivity.
  - apply (proj2 carbon_footprint_zero_or_nonnegative); reflexivity.
Defined.

(** C6 as stated fails: a shipment with a negative distanceKm passes the
    guard and gets a negative result, -7.5 for -100 km by diesel truck
    with 500 units. *)
Lemma carbon_footprint_negative_distance :
  Shipment.calculateCarbonFootprint
    (shipment Shipment.diesel (Some Shipment.truck) (-100) 500 (Some 0))
  =v= Fin (- (75 # 10))
  /\ (Fin 0 <=? Shipment.calculateCarbonFootprint
                  (shipment Shipment.diesel (Some Shipment.truck)
                     (-100) 500 (Some 0)))
     = false
  /\ Shipment.calculateCarbonFootprint
       (shipment Shipment.diesel (Some Shipment.truck) (-100) 500 (Some 0))
     = (-7.5)%float.
Proof. repeat split; vm_compute; reflexivity. Qed.

(** C9, as the code has it. For every transportMode and vehicleType the
    result is non-decreasing in distanceKm, and non-decreasing in the
    total weight quantity + packagingWeight provided the quantity of the
    heavier shipment is not zero; all inputs non-negative. *)
Theorem carbon_footprint_monotone mode vehicle :
  (forall d1 d2 q p : Q,
      0 <= d1 -> d1 <= d2 -> 0 <= q -> 0 <= p ->
      (Shipment.calculateCarbonFootprint
         (shipment mode vehicle d1 q (Some p) : Shipment.t number)
       <=? Shipment.calculateCarbonFootprint
             (shipment mode vehicle d2 q (Some p))) = true)
  /\ (forall d q1 p1 q2 p2 : Q,
        0 <= d -> 0 <= q1 -> 0 <= p1 -> 0 < q2 -> 0 <= p2 ->
        q1 + p1 <= q2 + p2 ->
        (Shipment.calculateCarbonFootprint
           (shipment mode vehicle d q1 (Some p1) : Shipment.t number)
         <=? Shipment.calculateCarbonFootprint
               (shipment mode vehicle d q2 (Some p2))) = true).
Proof.
  split.
  - intros d1 d2 q p P1 L12 Pq Pp.
    destruct (carbon_value mode vehicle d1 q p) as (r1 & V1 & Z1 & F1).
    destruct (carbon_value mode vehicle d2 q p) as (r2 & V2 & Z2 & F2).
    rewrite (@le_same_value _ _ _ _ V1 V2). apply le_Fin.
    destruct (Qeq_dec d1 0) as [E1|N1]; [|destruct (Qeq_dec q 0) as [Eq|Nq]].
    + rewrite Z1 by auto.
      destruct (Qeq_dec d2 0) as [E2|N2]; [|destruct (Qeq_dec q 0) as [Eq|Nq]].
      * rewrite Z2 by auto. apply Qle_refl.
      * rewrite Z2 by auto. apply Qle_refl.
      * rewrite F2 by assumption. apply carbonKg_nonneg; lra.
    + rewrite Z1, Z2 by auto. apply Qle_refl.
    + assert (N2 : ~ d2 == 0) by lra.
      rewrite F1, F2 by assumption. apply carbonKg_monotone; lra.
  - intros d q1 p1 q2 p2 Pd P1 Pp1 P2 Pp2 L.
    destruct (carbon_value mode vehicle d q1 p1) as (r1 & V1 & Z1 & F1).
    destruct (carbon_value mode vehicle d q2 p2) as (r2 & V2 & Z2 & F2).
    rewrite (@le_same_value _ _ _ _ V1 V2). apply le_Fin.
    assert (N2 : ~ q2 == 0) by lra.
    destruct (Qeq_dec d 0) as [Ed|Nd]; [|destruct (Qeq_dec q1 0) as [E1|N1]].
    + rewrite Z1, Z2 by auto. apply Qle_refl.
    + rewrite Z1 by auto. rewrite F2 by assumption.
      apply carbonKg_nonneg; lra.
    + rewrite F1, F2 by assumption. apply carbonKg_monotone; lra.
Qed.

Lemma carbon_footprint_monotone_witness :
  (Shipment.calculateCarbonFootprint
     (shipment Shipment.electric (Some Shipment.car) 80 300 (Some 20)
      : Shipment.t number)
   <=? Shipment.calculateCarbonFootprint
         (shipment Shipment.electric (Some Shipment.car) 95 300 (Some 20)))
  = true
  /\ (Shipment.calculateCarbonFootprint
        (shipment Shipment.ship None 640 0 (Some 900) : Shipment.t number)
      <=? Shipment.calculateCarbonFootprint
            (shipment Shipment.ship None 640 1000 (Some 15)))
     = true.
Proof.
  split.
  - apply (proj1 (carbon_footprint_monotone Shipment.electric
                    (Some Shipment.car)) 80 95 300 20);
      vm_compute; discriminate.
  - apply (proj2 (carbon_footprint_monotone Shipment.ship None)
             640 0 900 1000 15);
      vm_compute; first [discriminate | reflexivity].
Defined.

(** C9 as stated fails in the total weight: a zero quantity zeroes the
    result whatever the packagingWeight, so the shipment of total weight
    1000 (quantity 0) gets 0 where the one of total weight 500 gets
    7.5. *)
Lemma carbon_footprint_not_monotone_in_total_weight :
  500 + 0 <= 0 + 1000
  /\ (Shipment.calculateCarbonFootprint
        (shipment Shipment.diesel (Some Shipment.truck) 100 500 (Some 0))
      <=? Shipment.calculateCarbonFootprint
            (shipment Shipment.diesel (Some Shipment.truck) 100 0
               (Some 1000) : Shipment.t number))
     = false
  /\ (Shipment.calculateCarbonFootprint
        (shipment Shipment.diesel (Some Shipment.truck) 100 500 (Some 0))
      <=? Shipment.calculateCarbonFootprint
            (shipment Shipment.diesel (Some Shipment.truck) 100 0
               (Some 1000) : Shipment.t float))
     = false.
Proof. repeat split; vm_compute; first [discriminate | reflexivity]. Qed.

(* ================================================================= *)
(** ** The green score and the ESG score *)

(** C3, as the code has it. The green score starts at 50 and adds the
    packaging adjustment, 5 per certification and, for each of
    carbonFootprint, waterFootprint and baseSpoilageRate, the adjustment
    of the first band of that metric whose condition holds, and of that
    band only (a carbonFootprint below 1 adds 20, not 20 + 15 + 10); the
    sum is then clamped to [0, 100]. *)
Theorem green_score_exclusive_bands
    p (carbon water spoilage : Q) (certs : list string) :
  Product.calculateGreenScore (product p carbon water spoilage certs)
  =v= Fin (Spec.exclusiveGreenScore p carbon water spoilage
             (List.length certs)).
Proof.
  unfold Product.calculateGreenScore, product, length_of.
  cbn [Product.sustainabilityMetrics Product.packagingType
       Product.carbonFootprint Product.waterFootprint
       Product.baseSpoilageRate Product.certifications].
  cbv zeta. rewrite packaging_score.
  cbn [lit number_JSNumber].
  assert (E0 : Fin 50 + Fin (Spec.packaging p)
               = Fin (50 + Spec.packaging p)) by reflexivity.
  destruct (carbon_band_step carbon E0) as (s1 & -> & E1).
  destruct (water_band_step water (eq_refl (Fin s1))) as (s2 & -> & E2).
  assert (E2' : Fin s2 + Fin (inject_Z (Z.of_nat (List.length certs))) * Fin 5
                = Fin (s2 + inject_Z (Z.of_nat (List.length certs)) * 5))
    by reflexivity.
  destruct (spoilage_band_step spoilage E2') as (s3 & -> & E3).
  eapply same_value_trans; [apply clamp_exact|].
  cbn [same_value]. unfold Spec.exclusiveGreenScore.
  apply clamp_comp. rewrite E3, E2, E1. reflexivity.
Qed.

(** C3 as stated fails: were the bands independent addends, plastic
    packaging with carbonFootprint 0.5, waterFootprint 60, no
    certification and baseSpoilageRate 10 would score
    50 - 10 + (20 + 15 + 10) = 85; the calculator returns 60. *)
Lemma green_score_bands_not_additive :
  Spec.additiveGreenScore (Some Product.plastic) (1 # 2) 60 10 0 == 85
  /\ Product.calculateGreenScore
       (product (Some Product.plastic) (1 # 2) 60 10 [])
     =v= Fin 60
  /\ ~ (Product.calculateGreenScore
          (product (Some Product.plastic) (1 # 2) 60 10 [])
        =v= Fin (Spec.additiveGreenScore (Some Product.plastic)
                   (1 # 2) 60 10 0))
  /\ Product.calculateGreenScore
       (product (Some Product.plastic) (1 # 2) 60 10 [])
     = 60%float.
Proof.
  split; [|split; [|split]]; try (vm_compute; reflexivity).
  vm_compute. discriminate.
Qed.

(** C5. For every product and every supplier, whatever the values of
    their fields, the green score and the ESG score are in [0, 100]; in
    particular the product with minimal packaging, carbonFootprint 0.5,
    waterFootprint 5, one certification and baseSpoilageRate 1, whose
    adjustments sum to 125, scores 100, as does a product with 1000
    certifications.  The general statement is in exact arithmetic, the
    examples in both. *)
Theorem scores_within_0_100 :
  (forall this : Product.t number,
      in_0_100 (Product.calculateGreenScore this))
  /\ (forall this : Supplier.t number,
        in_0_100 (Supplier.calculateESGScore this))
  /\ Product.calculateGreenScore
       (product (Some Product.minimal) (1 # 2) 5 1 ["Organic"%string])
     =v= Fin 100
  /\ Product.calculateGreenScore
       (product (Some Product.minimal) (1 # 2) 5 1 ["Organic"%string])
     = 100%float
  /\ 50 + Spec.packaging (Some Product.minimal) + Spec.carbonBand (1 # 2)
     + Spec.waterBand 5 + 1 * 5 + Spec.spoilageBand 1 == 125
  /\ Product.calculateGreenScore
       (product (Some Product.plastic) 30 200 20
          (repeat "Organic"%string 1000))
     =v= Fin 100
  /\ Product.calculateGreenScore
       (product (Some Product.plastic) 30 200 20
          (repeat "Organic"%string 1000))
     = 100%float.
Proof.
  split; [|split; [|split; [|split; [|split; [|split]]]]].
  - apply green_in_range.
  - apply esg_in_range.
  - vm_compute. reflexivity.
  - vm_compute. reflexivity.
  - vm_compute. reflexivity.
  - vm_compute. reflexivity.
  - vm_compute. reflexivity.
Qed.

(** The supplier of level Organic with carbonFootprint 8, wasteReduction
    60, renewableEnergy 85 and three verified documents: 30 + 20 + 20 +
    20 + 15 = 105, capped at 100. *)
Example esg_score_example :
  Supplier.calculateESGScore
    (supplier (Some Supplier.Organic) 8 60 85
       (repeat (Supplier.mkDoc true) 3))
  =v= Fin 100
  /\ Supplier.calculateESGScore
       (supplier (Some Supplier.Organic) 8 60 85
          (repeat (Supplier.mkDoc true) 3))
     = 100%float.
Proof. split; vm_compute; reflexivity. Qed.

(* ================================================================= *)
(** ** The waste risk classifier *)

(** C4, as the code has it.  The risk level is a step function of
    the adjusted risk that the code computes,
    adjustedRisk = predictedWastePercentage x (confidence / 100) in the
    product and the quotient of the doubles, with inclusive lower
    boundaries: critical iff adjustedRisk >= 30, high iff
    20 <= adjustedRisk < 30, medium iff 10 <= adjustedRisk < 20, low
    otherwise, that is, iff adjustedRisk < 10 or adjustedRisk is [NaN].
    For every alert, whatever its figures.  An adjusted risk of 29.9 is
    high and one of 30.0 is critical. *)
Theorem risk_level_step_function :
  (forall this : WasteAlert.t float,
      let adjustedRisk :=
        WasteAlert.predictedWastePercentage this
        * (WasteAlert.confidence this / lit 100) in
      let level := WasteAlert.calculateRiskLevel this in
      (level = WasteAlert.critical <-> (adjustedRisk >=? lit 30) = true)
      /\ (level = WasteAlert.high
          <-> (adjustedRisk >=? lit 20) = true
              /\ (adjustedRisk <? lit 30) = true)
      /\ (level = WasteAlert.medium
          <-> (adjustedRisk >=? lit 10) = true
              /\ (adjustedRisk <? lit 20) = true)
      /\ (level = WasteAlert.low
          <-> (adjustedRisk <? lit 10) = true \/ isNaN adjustedRisk = true))
  /\ WasteAlert.calculateRiskLevel
       (alert (299 # 10) 100 50 20 : WasteAlert.t float) = WasteAlert.high
  /\ WasteAlert.calculateRiskLevel
       (alert 30 100 50 20 : WasteAlert.t float) = WasteAlert.critical.
Proof.
  split; [|split; vm_compute; reflexivity].
  intros this adjustedRisk level.
  assert (L12 : ((lit 10 : float) <=? lit 20) = true)
    by (vm_compute; reflexivity).
  assert (L23 : ((lit 20 : float) <=? lit 30) = true)
    by (vm_compute; reflexivity).
  assert (L11 : ((lit 10 : float) <=? lit 10) = true)
    by (vm_compute; reflexivity).
  rewrite (step_binary64 adjustedRisk L12), (step_binary64 adjustedRisk L23),
    (below_binary64 adjustedRisk L11).
  assert (T32 : (adjustedRisk >=? lit 30) = true ->
                (adjustedRisk >=? lit 20) = true)
    by (apply leb_transitive; exact L23).
  assert (T21 : (adjustedRisk >=? lit 20) = true ->
                (adjustedRisk >=? lit 10) = true)
    by (apply leb_transitive; exact L12).
  subst level. unfold WasteAlert.calculateRiskLevel. fold adjustedRisk.
  destruct (adjustedRisk >=? lit 30) eqn:E3;
    [rewrite (T32 eq_refl), (T21 (T32 eq_refl))
    |destruct (adjustedRisk >=? lit 20) eqn:E2;
       [rewrite (T21 eq_refl)|destruct (adjustedRisk >=? lit 10) eqn:E1]];
    repeat split; intros;
    repeat match goal with H : _ /\ _ |- _ => destruct H end;
    first [reflexivity | discriminate | congruence].
Qed.

(** C4 as the specification words it fails next to a boundary.  A
    predictedWastePercentage of 55 and the confidence
    54.54545454545455 (the double 7676590273926982 x 2^-47) are both
    within [0, 100] and their adjusted risk is above 30; the code
    computes 29.999999999999996 and answers high.  So it does for the
    decimal figures 97.65625 and 30.72, whose adjusted risk is 30. *)
Lemma risk_level_below_the_exact_product :
  Prim2SF (lit (3838295136963491 # 70368744177664))
  = S754_finite false 7676590273926982 (-47)
  /\ (0 <= 3838295136963491 # 70368744177664
      /\ 3838295136963491 # 70368744177664 <= 100)%Q
  /\ (30 <= 55 * ((3838295136963491 # 70368744177664) / 100))%Q
  /\ WasteAlert.calculateRiskLevel
       (alert 55 (3838295136963491 # 70368744177664) 50 20
        : WasteAlert.t float)
     = WasteAlert.high
  /\ ((3125 # 32) * ((3072 # 100) / 100) == 30)%Q
  /\ WasteAlert.calculateRiskLevel
       (alert (3125 # 32) (3072 # 100) 50 20 : WasteAlert.t float)
     = WasteAlert.high.
Proof. repeat split; vm_compute; first [reflexivity | discriminate]. Qed.

(** C10. The risk level never moves to a lower severity (low < medium <
    high < critical) when the confidence increases at a fixed
    predictedWastePercentage that is not negative, nor when the
    predictedWastePercentage increases at a fixed confidence: whatever
    the confidence for percentages that are not negative, and whatever
    the percentages for a confidence that is not negative.  In exact
    arithmetic. *)
Theorem risk_level_monotone :
  (forall wp c1 c2 stock qty : Q,
      0 <= wp -> c1 <= c2 ->
      (Spec.severity
         (WasteAlert.calculateRiskLevel
            (alert wp c1 stock qty : WasteAlert.t number))
       <= Spec.severity
            (WasteAlert.calculateRiskLevel
               (alert wp c2 stock qty : WasteAlert.t number)))%nat)
  /\ (forall w1 w2 conf stock qty : Q,
        0 <= w1 \/ 0 <= conf -> w1 <= w2 ->
        (Spec.severity
           (WasteAlert.calculateRiskLevel
              (alert w1 conf stock qty : WasteAlert.t number))
         <= Spec.severity
              (WasteAlert.calculateRiskLevel
                 (alert w2 conf stock qty : WasteAlert.t number)))%nat).
Proof.
  split.
  - intros wp c1 c2 stock qty Pw L. rewrite !risk_exact.
    apply riskStep_monotone.
    rewrite !(Qmult_comm wp). apply Qmult_le_compat_r; [|exact Pw].
    apply Qmult_le_compat_r; [exact L | discriminate].
  - intros w1 w2 conf stock qty D L. rewrite !risk_exact.
    destruct (Qlt_le_dec conf 0) as [Nc|Pc].
    + destruct D as [P1|Pc]; [|lra].
      rewrite !riskStep_low; [apply Nat.le_refl | |];
        apply Qle_lt_trans with 0; try reflexivity;
        apply product_nonpositive; lra.
    + apply riskStep_monotone.
      apply Qmult_le_compat_r; [exact L|].
      apply Qle_shift_div_l; [reflexivity | lra].
Qed.

Lemma risk_level_monotone_witness :
  (Spec.severity
     (WasteAlert.calculateRiskLevel
        (alert 40 45 50 20 : WasteAlert.t number))
   <= Spec.severity
        (WasteAlert.calculateRiskLevel
           (alert 40 80 50 20 : WasteAlert.t number)))%nat
  /\ (Spec.severity
        (WasteAlert.calculateRiskLevel
           (alert 12 90 50 20 : WasteAlert.t number))
      <= Spec.severity
           (WasteAlert.calculateRiskLevel
              (alert 35 90 50 20 : WasteAlert.t number)))%nat.
Proof.
  split.
  - apply (proj1 risk_level_monotone 40 45 80 50 20);
      vm_compute; discriminate.
  - apply (proj2 risk_level_monotone 12 35 90 50 20);
      [left|]; vm_compute; discriminate.
Defined.

(** C8. The recommendations of an alert are zero to three entries, one
    per condition that holds and none per condition that does not:
    "Discount Pricing" (savings predictedWasteQty x 5) iff
    predictedWastePercentage > 20, "Transfer to Other Stores" (savings
    x 3) iff currentStock > predictedWasteQty x 2, "Promotional
    Campaign" (savings x 4) iff predictedWastePercentage > 15; in any
    arithmetic, the comparisons and products being its own.  The alert
    with predictedWastePercentage 25, confidence 80, currentStock 50 and
    predictedWasteQty 20 is of level high and gets all three. *)
Theorem recommendations_per_condition :
  (forall (N : Type) (H : JSNumber N) (this : WasteAlert.t N),
      let recs := WasteAlert.generateRecommendations this in
      let wp := WasteAlert.predictedWastePercentage this in
      let stock := WasteAlert.currentStock this in
      let qty := WasteAlert.predictedWasteQty this in
      (List.length recs <= 3)%nat
      /\ List.length recs
         = (count_action "Discount Pricing" recs
            + count_action "Transfer to Other Stores" recs
            + count_action "Promotional Campaign" recs)%nat
      /\ one_per_condition recs "Discount Pricing"
           (wp >? lit 20) (qty * lit 5)
      /\ one_per_condition recs "Transfer to Other Stores"
           (stock >? qty * lit 2) (qty * lit 3)
      /\ one_per_condition recs "Promotional Campaign"
           (wp >? lit 15) (qty * lit 4))
  /\ WasteAlert.calculateRiskLevel
       (alert 25 80 50 20 : WasteAlert.t number) = WasteAlert.high
  /\ map (@WasteAlert.action number)
       (WasteAlert.generateRecommendations (alert 25 80 50 20))
     = ["Discount Pricing"; "Transfer to Other Stores";
        "Promotional Campaign"]%string
  /\ WasteAlert.calculateRiskLevel
       (alert 25 80 50 20 : WasteAlert.t float) = WasteAlert.high
  /\ map (@WasteAlert.action float)
       (WasteAlert.generateRecommendations (alert 25 80 50 20))
     = ["Discount Pricing"; "Transfer to Other Stores";
        "Promotional Campaign"]%string.
Proof.
  split; [|repeat split; vm_compute; reflexivity].
  intros N H this recs wp stock qty. subst recs.
  unfold WasteAlert.generateRecommendations, WasteAlert.push,
    one_per_condition.
  cbv zeta. fold wp stock qty.
  destruct (wp >? lit 20); destruct (stock >? qty * lit 2);
    destruct (wp >? lit 15);
    cbn [app count_action filter List.length WasteAlert.action String.eqb
         Ascii.eqb Bool.eqb andb In].
  all: repeat split; intros; try lia; try discriminate; try reflexivity.
  all: repeat match goal with
              | E : _ \/ _ |- _ => destruct E as [<- | E]
              | E : False |- _ => destruct E
              end;
    cbn [WasteAlert.action WasteAlert.estimatedSavings] in *;
    first [discriminate | reflexivity].
Qed.

(** The comparisons of the exact instance are those of the rationals. *)
Lemma gt_Fin (a b : Q) : (Fin a >? Fin b) = true <-> b < a.
Proof. unfold gt. cbn [lt number_JSNumber Exact.lt]. apply Qlt_bool_iff. Qed.

(* ================================================================= *)
(** ** The aggregate sustainability scorer *)

(** C7. On empty populations the sub-scores are asymmetric: no shipment
    gives a carbon score of 0, no supplier and no product give 0, and
    no alert gives a waste score of 100; in both arithmetics. *)
Theorem empty_population_scores :
  (Analytics.calculateCarbonScore [] = Fin 0
   /\ Analytics.calculateSupplierScore [] = Fin 0
   /\ Analytics.calculateProductScore [] = Fin 0
   /\ Analytics.calculateWasteScore [] = Fin 100)
  /\ (Analytics.calculateCarbonScore [] = 0%float
      /\ Analytics.calculateSupplierScore [] = 0%float
      /\ Analytics.calculateProductScore [] = 0%float
      /\ Analytics.calculateWasteScore [] = 100%float).
Proof. repeat split; vm_compute; reflexivity. Qed.

(** C2 fails on the code. With alerts of which none is active, here one
    resolved alert, the critical rate is 0 / 0: the waste score is
    [NaN], where the claim has a number of [0, 100]; in both
    arithmetics. *)
Theorem waste_score_undefined_without_active_alert :
  Analytics.calculateWasteScore
    [stored_alert WasteAlert.resolved WasteAlert.low] = NotANumber
  /\ isNaN
       (Analytics.calculateWasteScore
          [stored_alert WasteAlert.resolved WasteAlert.low
           : WasteAlert.t float])
     = true
  /\ ~ in_0_100
         (Analytics.calculateWasteScore
            [stored_alert WasteAlert.resolved WasteAlert.low]).
Proof.
  split; [|split]; try (vm_compute; reflexivity).
  intros (q & E & _). vm_compute in E. exact E.
Qed.

(* ================================================================= *)
(** ** Further properties: the shipment model and its callers *)

Lemma or_zero_is_a_number {N : Type} `{JSNumber N} (x : N) :
  isNaN (lit 0 : N) = false -> isNaN (x ||| lit 0) = false.
Proof.
  intro Z. unfold or_else. destruct (truthy x) eqn:T; [|exact Z].
  unfold truthy in T. apply negb_true_iff, orb_false_iff in T. apply T.
Qed.

Lemma carbon_is_a_number {N : Type} `{JSNumber N} (this : Shipment.t N) :
  isNaN (lit 0 : N) = false ->
  isNaN (Shipment.calculateCarbonFootprint this) = false.
Proof.
  intro Z. unfold Shipment.calculateCarbonFootprint.
  destruct (Shipment.transportMode this); [|exact Z].
  destruct (Shipment.falsy (Shipment.distanceKm this)
            || Shipment.falsy (Shipment.quantity this)); [exact Z|].
  cbv zeta. apply or_zero_is_a_number, Z.
Qed.

(** X1. The carbon footprint of a shipment is never [NaN], whatever the
    document holds (missing fields, [NaN], infinities, negative
    numbers): the final [result || 0] turns a [NaN] into 0.  In exact
    arithmetic and for every binary64 document. *)
Theorem carbon_footprint_never_NaN :
  (forall this : Shipment.t number, isNaN (Shipment.carbonKg this) = false)
  /\ (forall this : Shipment.t float, isNaN (Shipment.carbonKg this) = false).
Proof.
  split; intro this; apply carbon_is_a_number; vm_compute; reflexivity.
Qed.

Lemma same_value_Fin (x : number) (r : Q) :
  x =v= Fin r -> exists r' : Q, x = Fin r' /\ r' == r.
Proof.
  destruct x as [q| | |]; simpl; try contradiction.
  intro E. exists q. split; [reflexivity | exact E].
Qed.

Lemma zero_over_falsy (x : number) :
  truthy x = false -> Fin 0 / x = NotANumber.
Proof.
  destruct x as [q| | |]; try discriminate; try reflexivity.
  rewrite truthy_Fin, negb_false_iff, Qeq_bool_iff. intro E.
  cbn [div number_JSNumber Exact.div].
  apply Qeq_alt in E. rewrite E. reflexivity.
Qed.

Lemma zero_over_truthy (x : number) :
  truthy x = true -> exists q : Q, Fin 0 / x = Fin q /\ q == 0.
Proof.
  destruct x as [q| | |]; try discriminate.
  - rewrite truthy_Fin, negb_true_iff. intro NE.
    assert (NZ : ~ q == 0) by (rewrite <- Qeq_bool_iff; congruence).
    cbn [div number_JSNumber]. rewrite div_Fin by exact NZ.
    eexists. split; [reflexivity|]. field. exact NZ.
  - intros _. exists 0. split; reflexivity.
  - intros _. exists 0. split; reflexivity.
Qed.

(** X2. The efficiency rating of a shipment whose footprint is the
    degenerate 0: a shipment without a quantity (missing, zero or
    [NaN]) is rated poor, its carbon per unit being 0 / 0; a shipment
    with a quantity but without a distance or a transport mode is rated
    excellent.  In exact arithmetic. *)
Theorem carbon_efficiency_of_an_empty_footprint (this : Shipment.t number) :
  (Shipment.falsy (Shipment.quantity this) = true ->
   Virtual.carbonEfficiency this = Virtual.poor)
  /\ (Shipment.falsy (Shipment.quantity this) = false ->
      Shipment.falsy (Shipment.distanceKm this) = true
      \/ Shipment.transportMode this = None ->
      Virtual.carbonEfficiency this = Virtual.excellent).
Proof.
  unfold Virtual.carbonEfficiency, Shipment.carbonKg. split.
  - intro Fq. rewrite carbon_zero_when_falsy by auto.
    assert (E : (lit 0 : number) / Shipment.Number (Shipment.quantity this)
                = NotANumber).
    { destruct (Shipment.quantity this) as [q|]; [|reflexivity].
      apply zero_over_falsy. simpl in Fq.
      apply negb_true_iff in Fq. exact Fq. }
    cbv zeta. rewrite E. reflexivity.
  - intros Tq Z. rewrite carbon_zero_when_falsy by tauto.
    destruct (Shipment.quantity this) as [q|]; [|discriminate].
    simpl in Tq. apply negb_false_iff in Tq.
    destruct (zero_over_truthy q Tq) as (z & E & Ez).
    cbv zeta. cbn [Shipment.Number]. change (lit 0) with (Fin 0).
    rewrite E. js_unfold.
    destruct (Exact.Qlt_bool z (1 # 10)) eqn:L; [reflexivity|].
    qprop. lra.
Qed.

Lemma carbon_efficiency_of_an_empty_footprint_witness :
  Virtual.carbonEfficiency
    {| Shipment.quantity := None;
       Shipment.distanceKm := Some (Fin 100);
       Shipment.transportMode := Some Shipment.diesel;
       Shipment.vehicleType := None;
       Shipment.packagingWeight := None |} = Virtual.poor
  /\ Virtual.carbonEfficiency
       (shipment Shipment.diesel None 0 500 None : Shipment.t number)
     = Virtual.excellent
  /\ Virtual.carbonEfficiency
       (shipment Shipment.diesel None 100 0 None : Shipment.t float)
     = Virtual.poor
  /\ Virtual.carbonEfficiency
       (shipment Shipment.diesel None 0 500 None : Shipment.t float)
     = Virtual.excellent.
Proof.
  split; [|split; [|split; vm_compute; reflexivity]].
  - apply (proj1 (carbon_efficiency_of_an_empty_footprint _)). reflexivity.
  - apply (proj2 (carbon_efficiency_of_an_empty_footprint _));
      [reflexivity | left; reflexivity].
Defined.

(** The footprints of two shipments that differ in their distance. *)
Lemma carbon_Fin_monotone mode vehicle (d1 d2 q p : Q) :
  0 <= d1 <= d2 -> 0 < q -> 0 <= p ->
  exists r1 r2 : Q,
    Shipment.calculateCarbonFootprint (shipment mode vehicle d1 q (Some p))
    = Fin r1
    /\ Shipment.calculateCarbonFootprint (shipment mode vehicle d2 q (Some p))
       = Fin r2
    /\ 0 <= r1 <= r2.
Proof.
  intros Ld Pq Pp.
  destruct (carbon_value mode vehicle d1 q p) as (s1 & V1 & Z1 & F1).
  destruct (carbon_value mode vehicle d2 q p) as (s2 & V2 & Z2 & F2).
  destruct (@same_value_Fin _ _ V1) as (r1 & E1 & R1).
  destruct (@same_value_Fin _ _ V2) as (r2 & E2 & R2).
  exists r1, r2. split; [exact E1|]. split; [exact E2|].
  rewrite R1, R2.
  assert (Nq : ~ q == 0) by lra.
  destruct (Qeq_dec d1 0) as [D1|D1].
  - rewrite (Z1 (or_introl D1)). split; [lra|].
    destruct (Qeq_dec d2 0) as [D2|D2].
    + rewrite (Z2 (or_introl D2)). lra.
    + rewrite (F2 D2 Nq). apply carbonKg_nonneg; lra.
  - assert (D2 : ~ d2 == 0) by lra.
    rewrite (F1 D1 Nq), (F2 D2 Nq). split.
    + apply carbonKg_nonneg; lra.
    + apply carbonKg_monotone; lra.
Qed.

(** X3. The efficiency rating of a shipment never improves when its
    distance grows: for a positive quantity, a packaging weight and two
    distances that are not negative, the rating at the shorter distance
    is at most as bad as at the longer one.  In exact arithmetic. *)
Theorem carbon_efficiency_monotone_in_distance mode vehicle (d1 d2 q p : Q) :
  0 <= d1 <= d2 -> 0 < q -> 0 <= p ->
  (efficiency_rank
     (Virtual.carbonEfficiency
        (shipment mode vehicle d1 q (Some p) : Shipment.t number))
   <= efficiency_rank
        (Virtual.carbonEfficiency
           (shipment mode vehicle d2 q (Some p) : Shipment.t number)))%nat.
Proof.
  intros Ld Pq Pp.
  destruct (carbon_Fin_monotone mode vehicle Ld Pq Pp)
    as (r1 & r2 & E1 & E2 & L).
  unfold Virtual.carbonEfficiency, Shipment.carbonKg. rewrite E1, E2.
  cbn [shipment Shipment.quantity Shipment.Number lit number_JSNumber div].
  rewrite !div_Fin by lra. cbv zeta. js_unfold.
  assert (L12 : r1 / q <= r2 / q).
  { apply Qmult_le_compat_r; [lra|]. apply Qlt_le_weak, Qinv_lt_0_compat, Pq. }
  qcases; cbn [efficiency_rank]; first [lia | exfalso; lra].
Qed.

Lemma carbon_efficiency_monotone_in_distance_witness :
  Nat.le
    (efficiency_rank
       (Virtual.carbonEfficiency
          (shipment Shipment.diesel (Some Shipment.truck) 100 500 (Some 0)
           : Shipment.t number)))
    (efficiency_rank
       (Virtual.carbonEfficiency
          (shipment Shipment.diesel (Some Shipment.truck) 4000 500 (Some 0)
           : Shipment.t number))).
Proof.
  apply carbon_efficiency_monotone_in_distance;
    [split; discriminate | reflexivity | discriminate].
Defined.

(** X4. The vehicle type that the route POST /api/shipments stores
    for a request without one (a train for rail, a ship for ship, a
    plane for air, a truck otherwise) gives the footprint that the
    model computes for a document without a vehicle type.  In any
    arithmetic. *)
Theorem stored_vehicle_type_keeps_the_footprint :
  forall (N : Type) (JS : JSNumber N) (quantity distanceKm : N)
    (mode : Shipment.TransportMode) (packagingWeight : option N),
    Shipment.carbonKg
      (ShipmentRoutes.create quantity distanceKm mode None packagingWeight)
    = Shipment.carbonKg
        (shipment_without_vehicle quantity distanceKm mode
           (match packagingWeight with Some p => p | None => lit 0 end)).
Proof. intros N JS q d mode p. destruct mode; reflexivity. Qed.

(* ----------------------------------------------------------------- *)
(** *** The route optimiser *)

Lemma route_factor_table mode vehicle :
  match mode with
  | Shipment.rail | Shipment.ship | Shipment.air =>
      RouteOptimizer.mode_factor mode
  | _ =>
      Shipment.factor_or
        (Shipment.vehicle_factor
           (property Shipment.TransportMode_beq mode
              RouteOptimizer.emissionFactors)
           vehicle)
        (as_number
           (Shipment.vehicle_factor
              (property Shipment.TransportMode_beq Shipment.diesel
                 RouteOptimizer.emissionFactors)
              Shipment.truck))
  end
  = Fin (Spec.emissionFactor mode (Some vehicle)).
Proof. destruct mode, vehicle; reflexivity. Qed.

(** [calculateRouteCarbon] on finite arguments. *)
Lemma route_carbon_exact mode vehicle (d w : Q) :
  RouteOptimizer.calculateRouteCarbon (Fin d) (Fin w) mode vehicle
  = Fin (round2 (d * Spec.emissionFactor mode (Some vehicle) * (w / 1000))).
Proof.
  unfold RouteOptimizer.calculateRouteCarbon. cbv zeta.
  rewrite route_factor_table. js_unfold.
  rewrite !div_Fin by (intro A; discriminate A).
  js_unfold. reflexivity.
Qed.

Lemma round2_comp (x y : Q) : x == y -> round2 x == round2 y.
Proof. intro E. unfold round2. rewrite E. reflexivity. Qed.

#[global] Instance round2_Proper : Proper (Qeq ==> Qeq) round2.
Proof. intros x y E. apply round2_comp, E. Qed.

Lemma round2_zero : round2 0 == 0.
Proof. reflexivity. Qed.

(** X5. The route optimiser and the shipment model compute the same
    footprint: [calculateRouteCarbon] at a distance, the total weight
    quantity + packagingWeight, a transport mode and a vehicle type is
    the [carbonKg] of the shipment with these fields, provided the
    quantity is not zero (at a zero quantity the model returns 0, the
    route helper the footprint of the packaging).  In exact
    arithmetic. *)
Theorem route_carbon_agrees_with_the_model mode vehicle (d q p : Q) :
  ~ q == 0 ->
  RouteOptimizer.calculateRouteCarbon (Fin d) (Fin (q + p)) mode vehicle
  =v= Shipment.carbonKg (shipment mode (Some vehicle) d q (Some p)).
Proof.
  intro Nq. rewrite route_carbon_exact. apply same_value_sym.
  unfold Shipment.carbonKg.
  destruct (carbon_value mode (Some vehicle) d q p) as (r & V & Z & F).
  eapply same_value_trans; [exact V|]. cbn [same_value].
  destruct (Qeq_dec d 0) as [D|D].
  - rewrite (Z (or_introl D)). symmetry.
    rewrite <- round2_zero. apply round2_comp. rewrite D. ring.
  - rewrite (F D Nq). reflexivity.
Qed.

Lemma route_carbon_agrees_with_the_model_witness :
  RouteOptimizer.calculateRouteCarbon (Fin 100) (Fin (500 + 20))
    Shipment.diesel Shipment.truck
  =v= Shipment.carbonKg
        (shipment Shipment.diesel (Some Shipment.truck) 100 500 (Some 20)).
Proof.
  apply route_carbon_agrees_with_the_model. discriminate.
Defined.

(** [array.sort(compare)] rearranges the array. *)
Lemma Array_insert_Permutation (A : Type) (after : A -> A -> bool) (x : A)
    (l : list A) :
  Permutation (Array_insert after x l) (x :: l).
Proof.
  induction l as [|y l IH]; simpl; [apply Permutation_refl|].
  destruct (after x y); [|apply Permutation_refl].
  eapply Permutation_trans; [apply perm_skip, IH | apply perm_swap].
Qed.

Lemma Array_sort_Permutation (A : Type) (after : A -> A -> bool)
    (l : list A) :
  Permutation (Array_sort after l) l.
Proof.
  induction l as [|x l IH]; simpl; [apply Permutation_refl|].
  eapply Permutation_trans; [apply Array_insert_Permutation|].
  apply perm_skip, IH.
Qed.

(** On elements whose comparator is that of a rational key, the result
    is in the order of the keys. *)
Section SortByKey.
Variable A : Type.
Variable after : A -> A -> bool.
Variable key : A -> Q.
Variable P : A -> Prop.
Hypothesis after_key :
  forall x y, P x -> P y -> after x y = Exact.Qlt_bool (key y) (key x).

Lemma Array_insert_ordered (x : A) (l : list A) :
  P x -> Forall P l ->
  StronglySorted (fun a b => key a <= key b) l ->
  StronglySorted (fun a b => key a <= key b) (Array_insert after x l).
Proof.
  intros Px Pl S. induction S as [|y l S IH F]; simpl.
  - constructor; constructor.
  - inversion Pl as [|? ? Py Pl']; subst.
    rewrite (after_key Px Py).
    destruct (Exact.Qlt_bool (key y) (key x)) eqn:C; qprop.
    + constructor; [apply IH, Pl'|].
      eapply Permutation_Forall;
        [apply Permutation_sym, Array_insert_Permutation|].
      constructor; [lra | exact F].
    + constructor; [constructor; assumption|].
      constructor; [exact C|].
      eapply Forall_impl; [|exact F]. simpl. intros z L. lra.
Qed.

Lemma Array_sort_ordered (l : list A) :
  Forall P l ->
  StronglySorted (fun a b => key a <= key b) (Array_sort after l).
Proof.
  induction l as [|x l IH]; simpl; intro F; [constructor|].
  inversion F as [|? ? Px Pl]; subst.
  apply Array_insert_ordered; [exact Px | | apply IH, Pl].
  eapply Permutation_Forall;
    [apply Permutation_sym, Array_sort_Permutation | exact Pl].
Qed.
End SortByKey.

Lemma StronglySorted_on (A : Type) (P : A -> Prop) (R R' : A -> A -> Prop)
    (l : list A) :
  (forall a b, P a -> P b -> R a b -> R' a b) ->
  Forall P l -> StronglySorted R l -> StronglySorted R' l.
Proof.
  intros I F S. induction S as [|x l S IH Fx]; [constructor|].
  inversion F as [|? ? Px Pl]; subst.
  constructor; [apply IH, Pl|].
  rewrite Forall_forall in *. intros y Iy. apply I; auto.
Qed.

(** X6. The options of the route optimiser are, in some order, the
    direct route (id 1), the green alternative (id 2) unless the
    transport mode is electric or rail, and the multi-modal route
    (id 3) if the distance exceeds 100 km ([distance > 100] in the
    numbers of the arithmetic).  In any arithmetic. *)
Theorem route_options_offered :
  forall (N : Type) (JS : JSNumber N) (fromLat fromLng toLat toLng : N)
    (distance weight : N) (mode : Shipment.TransportMode)
    (vehicle : Shipment.VehicleType),
    Permutation
      (map (@RouteOptimizer.id N)
         (RouteOptimizer.generateRouteOptions fromLat fromLng toLat toLng
            distance weight mode vehicle))
      ([1%nat]
       ++ match mode with
          | Shipment.electric | Shipment.rail => []
          | _ => [2%nat]
          end
       ++ (if distance >? lit 100 then [3%nat] else [])).
Proof.
  intros. unfold RouteOptimizer.generateRouteOptions. cbv zeta.
  eapply Permutation_trans;
    [apply Permutation_map, Array_sort_Permutation|].
  destruct mode; cbn [Shipment.TransportMode_beq negb andb];
    destruct (distance >? lit 100); apply Permutation_refl.
Qed.

(** The footprint and the savings of each option, for a finite distance
    and weight. *)
Lemma route_options_members (fromLat fromLng toLat toLng : number) (d w : Q)
    mode vehicle (r : RouteOptimizer.Route number) :
  In r
    (RouteOptimizer.generateRouteOptions fromLat fromLng toLat toLng (Fin d)
       (Fin w) mode vehicle) ->
  (RouteOptimizer.id r = 1%nat
   /\ RouteOptimizer.carbonFootprint r = Fin (direct_carbon mode vehicle d w)
   /\ RouteOptimizer.savings r = None)
  \/ (RouteOptimizer.id r = 2%nat
      /\ RouteOptimizer.carbonFootprint r
         = Fin (direct_carbon Shipment.electric Shipment.truck
                  (d * (11 # 10)) w)
      /\ RouteOptimizer.savings r
         = Some
             (Fin
                (round2
                   (direct_carbon mode vehicle d w
                    - direct_carbon Shipment.electric Shipment.truck
                        (d * (11 # 10)) w)))
      /\ mode <> Shipment.electric /\ mode <> Shipment.rail)
  \/ (RouteOptimizer.id r = 3%nat
      /\ RouteOptimizer.carbonFootprint r
         = Fin (direct_carbon Shipment.rail Shipment.train (d * (12 # 10)) w)
      /\ RouteOptimizer.savings r
         = Some
             (Fin
                (round2
                   (direct_carbon mode vehicle d w
                    - direct_carbon Shipment.rail Shipment.train
                        (d * (12 # 10)) w)))).
Proof.
  unfold RouteOptimizer.generateRouteOptions. cbv zeta. intro I.
  apply (Permutation_in _ (Array_sort_Permutation _ _)) in I.
  change (Fin d * lit (11 # 10)) with (Fin (d * (11 # 10))) in I.
  change (Fin d * lit (12 # 10)) with (Fin (d * (12 # 10))) in I.
  rewrite !route_carbon_exact in I.
  fold (direct_carbon mode vehicle d w) in I.
  fold (direct_carbon Shipment.electric Shipment.truck (d * (11 # 10)) w)
    in I.
  fold (direct_carbon Shipment.rail Shipment.train (d * (12 # 10)) w) in I.
  unfold WasteAlert.push in I.
  destruct (Shipment.TransportMode_beq mode Shipment.electric) eqn:B1;
    destruct (Shipment.TransportMode_beq mode Shipment.rail) eqn:B2;
    destruct (Fin d >? lit 100);
    cbn [negb andb app In] in I;
    repeat match goal with
      | I : _ \/ _ |- _ => destruct I as [I|I]
      | I : False |- _ => contradiction
      end;
    subst r; cbn [RouteOptimizer.id RouteOptimizer.carbonFootprint
                  RouteOptimizer.savings];
    first [ left; repeat split; reflexivity
          | right; right; repeat split; reflexivity
          | right; left; repeat split; try reflexivity;
            intro E; rewrite E in *; discriminate ].
Qed.

(** X7. For a request whose transport mode and vehicle type are
    values of the enumerations and whose distance and weight are finite
    numbers, the options of the route optimiser come in ascending order
    of their carbon footprint: no option has a larger footprint than
    one that follows it, so the first option is one of least footprint.
    In exact arithmetic.  (The route validates neither the mode nor the
    vehicle; a footprint that is [NaN], as for the vehicle [toString],
    is outside this statement.) *)
Theorem route_options_in_ascending_footprint
    (fromLat fromLng toLat toLng : number) (d w : Q) mode vehicle :
  StronglySorted
    (fun a b =>
       (RouteOptimizer.carbonFootprint a <=? RouteOptimizer.carbonFootprint b)
       = true)
    (RouteOptimizer.generateRouteOptions fromLat fromLng toLat toLng (Fin d)
       (Fin w) mode vehicle).
Proof.
  set (key := fun r : RouteOptimizer.Route number =>
                match RouteOptimizer.carbonFootprint r with
                | Fin q => q
                | _ => 0
                end).
  set (P := fun r : RouteOptimizer.Route number =>
              RouteOptimizer.carbonFootprint r = Fin (key r)).
  assert (M : Forall P
                (RouteOptimizer.generateRouteOptions fromLat fromLng toLat
                   toLng (Fin d) (Fin w) mode vehicle)).
  { rewrite Forall_forall. intros r I.
    apply route_options_members in I. unfold P, key.
    destruct I as [(_ & E & _) | [(_ & E & _) | (_ & E & _)]];
      rewrite E; reflexivity. }
  assert (AK : forall x y, P x -> P y ->
                 RouteOptimizer.after_by_carbon x y
                 = Exact.Qlt_bool (key y) (key x)).
  { intros x y Px Py. unfold RouteOptimizer.after_by_carbon.
    rewrite Px, Py. js_unfold. unfold Exact.Qlt_bool. f_equal.
    destruct (Qle_bool (key x + - key y) 0) eqn:C1;
      destruct (Qle_bool (key x) (key y)) eqn:C2; qprop;
      first [reflexivity | exfalso; lra]. }
  apply StronglySorted_on with (P := P)
    (R := fun a b => key a <= key b).
  - intros a b Pa Pb L. rewrite Pa, Pb. apply le_Fin. exact L.
  - exact M.
  - unfold RouteOptimizer.generateRouteOptions in *. cbv zeta in *.
    apply Array_sort_ordered with (P := P); [exact AK|].
    eapply Permutation_Forall; [apply Array_sort_Permutation | exact M].
Qed.




(** A zero weight is a zero weight in tons. *)
Lemma zero_weight_in_tons (w : float) (s : bool) :
  Prim2SF w = S754_zero s ->
  Prim2SF (PrimFloat.div w (lit 1000)) = S754_zero s.
Proof.
  intro E. rewrite div_spec, E.
  change (Prim2SF (lit 1000)) with (S754_finite false 8796093022208000 (-43)).
  destruct s; reflexivity.
Qed.

(** X9. POST /api/routes/calculate-carbon rates a request of distance
    0 or of weight 0 poor, whatever the transport and whatever the
    other figure: both values pass the validators of the route, the
    carbon per ton-kilometre of the request is then 0 / 0, and [NaN]
    is below no threshold of [getEfficiencyRating].  In binary64, for
    every double as the other figure.  Away from zero the rating is
    not the rating of the emission factor alone: an electric truck
    (0.05) is rated excellent for 1 km and 45 kg, and good for 100 km
    and 1000 kg. *)
Theorem carbon_rating_of_an_empty_request :
  (forall mode vehicle (distanceKm weight : float),
      strictEq distanceKm (lit 0) = true \/ strictEq weight (lit 0) = true ->
      RouteOptimizer.calculateCarbonRating distanceKm weight mode vehicle
      = Virtual.poor)
  /\ RouteOptimizer.calculateCarbonRating (lit 1 : float) (lit 45)
       Shipment.electric Shipment.truck = Virtual.excellent
  /\ RouteOptimizer.calculateCarbonRating (lit 100 : float) (lit 1000)
       Shipment.electric Shipment.truck = Virtual.good.
Proof.
  split; [|split; vm_compute; reflexivity].
  intros mode vehicle d w Z.
  unfold RouteOptimizer.calculateCarbonRating. cbv zeta.
  match goal with
  | |- context [PrimFloat.mul d ?factor] => generalize factor
  | |- context [mul d ?factor] => generalize factor
  end.
  intro f. cbn [mul div float_JSNumber].
  apply rating_of_NaN.
  destruct Z as [Zd|Zw].
  - destruct (strictEq_zero_binary64 d Zd) as (s & Ed).
    apply div_by_zero_NaN with (s := s); [|exact Ed].
    apply div_zero_or_NaN, mul_zero_or_NaN_l, mul_zero_or_NaN_l.
    rewrite Ed. exact I.
  - destruct (strictEq_zero_binary64 w Zw) as (s & Ew).
    apply div_of_NaN.
    apply div_by_zero_NaN with (s := s);
      [|apply zero_weight_in_tons; exact Ew].
    apply mul_zero_or_NaN_r.
    rewrite (zero_weight_in_tons w Ew). exact I.
Qed.

Lemma carbon_rating_of_an_empty_request_witness :
  RouteOptimizer.calculateCarbonRating (lit 0 : float) (lit 1000)
    Shipment.electric Shipment.truck = Virtual.poor
  /\ RouteOptimizer.calculateCarbonRating (lit 250 : float) (lit 0)
       Shipment.diesel Shipment.van = Virtual.poor.
Proof.
  split.
  - apply (proj1 carbon_rating_of_an_empty_request).
    left. vm_compute. reflexivity.
  - apply (proj1 carbon_rating_of_an_empty_request).
    right. vm_compute. reflexivity.
Defined.

(* ================================================================= *)
(** ** Further properties: waste alerts *)

Lemma count_recommendations (wp conf stock qty : Q) :
  let recs :=
    WasteAlert.generateRecommendations
      (alert wp conf stock qty : WasteAlert.t number) in
  count_action "Discount Pricing" recs
  = (if Exact.Qlt_bool 20 wp then 1 else 0)%nat
  /\ count_action "Promotional Campaign" recs
     = (if Exact.Qlt_bool 15 wp then 1 else 0)%nat.
Proof.
  unfold WasteAlert.generateRecommendations, WasteAlert.push, alert, gt.
  cbn [WasteAlert.predictedWastePercentage WasteAlert.currentStock
       WasteAlert.predictedWasteQty].
  cbv zeta. js_unfold.
  destruct (Exact.Qlt_bool 20 wp); destruct (Exact.Qlt_bool (qty * 2) stock);
    destruct (Exact.Qlt_bool 15 wp); split; reflexivity.
Qed.

(** A weighted percentage is at most the percentage it weights. *)
Lemma adjusted_risk_below (wp conf a : Q) :
  0 <= conf <= 100 -> 0 < a -> a <= wp * (conf / 100) -> a <= wp.
Proof.
  intros C Pa L.
  assert (C1 : 0 <= conf / 100) by (apply Qle_shift_div_l; lra).
  assert (C2 : conf / 100 <= 1) by (apply Qle_shift_div_r; lra).
  destruct (Qlt_le_dec wp 0) as [Nw|Pw].
  - assert (0 <= (- wp) * (conf / 100)) by (apply Qmult_le_0_compat; lra).
    assert (E : (- wp) * (conf / 100) == - (wp * (conf / 100))) by ring.
    lra.
  - assert (0 <= wp * (1 - conf / 100)) by (apply Qmult_le_0_compat; lra).
    assert (E : wp * (1 - conf / 100) == wp - wp * (conf / 100)) by ring.
    lra.
Qed.

(** X10. The recommendations of an alert follow its risk level.  For a
    confidence within [0, 100]: an alert whose computed level is
    critical has the recommendations Discount Pricing and Promotional
    Campaign, and one whose level is high has Promotional Campaign; and
    for any confidence Discount Pricing never comes without Promotional
    Campaign.  In exact arithmetic. *)
Theorem recommendations_follow_the_risk_level (wp conf stock qty : Q) :
  let this : WasteAlert.t number := alert wp conf stock qty in
  let recs := WasteAlert.generateRecommendations this in
  (0 <= conf <= 100 ->
   WasteAlert.calculateRiskLevel this = WasteAlert.critical ->
   count_action "Discount Pricing" recs = 1%nat
   /\ count_action "Promotional Campaign" recs = 1%nat)
  /\ (0 <= conf <= 100 ->
      WasteAlert.calculateRiskLevel this = WasteAlert.high ->
      count_action "Promotional Campaign" recs = 1%nat)
  /\ (count_action "Discount Pricing" recs = 1%nat ->
      count_action "Promotional Campaign" recs = 1%nat).
Proof.
  intros this recs.
  destruct (count_recommendations wp conf stock qty) as (D & P).
  fold this in D, P. fold recs in D, P. rewrite D, P.
  subst this. rewrite risk_exact. unfold Spec.riskStep.
  repeat split.
  - destruct (Qle_bool 30 (wp * (conf / 100))) eqn:A; qprop.
    + assert (30 <= wp) by (eapply adjusted_risk_below; eauto; lra).
      destruct (Exact.Qlt_bool 20 wp) eqn:B; qprop; [reflexivity | lra].
    + revert H0. qcases; discriminate.
  - destruct (Qle_bool 30 (wp * (conf / 100))) eqn:A; qprop.
    + assert (30 <= wp) by (eapply adjusted_risk_below; eauto; lra).
      destruct (Exact.Qlt_bool 15 wp) eqn:B; qprop; [reflexivity | lra].
    + revert H0. qcases; discriminate.
  - intros C L.
    destruct (Qle_bool 30 (wp * (conf / 100))) eqn:A; [discriminate|].
    destruct (Qle_bool 20 (wp * (conf / 100))) eqn:B; qprop.
    + assert (20 <= wp) by (eapply adjusted_risk_below; eauto; lra).
      destruct (Exact.Qlt_bool 15 wp) eqn:E; qprop; [reflexivity | lra].
    + revert L. qcases; discriminate.
  - destruct (Exact.Qlt_bool 20 wp) eqn:A; [|discriminate].
    intros _. destruct (Exact.Qlt_bool 15 wp) eqn:B; qprop;
      [reflexivity | lra].
Qed.

Lemma recommendations_follow_the_risk_level_witness :
  count_action "Discount Pricing"
    (WasteAlert.generateRecommendations
       (alert 40 90 50 20 : WasteAlert.t number)) = 1%nat
  /\ count_action "Promotional Campaign"
       (WasteAlert.generateRecommendations
          (alert 40 90 50 20 : WasteAlert.t number)) = 1%nat.
Proof.
  apply (proj1 (recommendations_follow_the_risk_level 40 90 50 20)).
  - split; discriminate.
  - reflexivity.
Defined.

(** X11. The urgency of an alert by the time that remains until its
    predicted date: immediate while less than two days remain (and for
    every date in the past), urgent from two to less than four days,
    high from four to less than eight days, normal from eight days on.
    Times are whole milliseconds, the division is exact. *)
Theorem urgency_by_remaining_time (now predictedDate : Z) :
  let remaining := (predictedDate - now)%Z in
  (Virtual.urgency now predictedDate = Virtual.immediate
   <-> (remaining < 2 * Virtual.day)%Z)
  /\ (Virtual.urgency now predictedDate = Virtual.urgent
      <-> (2 * Virtual.day <= remaining < 4 * Virtual.day)%Z)
  /\ (Virtual.urgency now predictedDate = Virtual.high
      <-> (4 * Virtual.day <= remaining < 8 * Virtual.day)%Z)
  /\ (Virtual.urgency now predictedDate = Virtual.normal
      <-> (8 * Virtual.day <= remaining)%Z).
Proof.
  intro remaining. unfold Virtual.urgency. cbv zeta. fold remaining.
  unfold Virtual.day.
  change (1000 * 60 * 60 * 24)%Z with 86400000%Z.
  pose proof (Z.div_mod remaining 86400000 ltac:(discriminate)) as E.
  pose proof (Z.mod_pos_bound remaining 86400000 ltac:(reflexivity)) as B.
  set (days := (remaining / 86400000)%Z) in *.
  destruct (days <=? 1)%Z eqn:C1; [|destruct (days <=? 3)%Z eqn:C3;
    [|destruct (days <=? 7)%Z eqn:C7]];
    rewrite ?Z.leb_le, ?Z.leb_gt in *;
    repeat split; intros; try discriminate; try reflexivity; lia.
Qed.

(* ----------------------------------------------------------------- *)
(** *** The alert routes *)

Lemma Math_max_Fin (a b : Q) :
  Math_max (Fin a) (Fin b) = Fin (if Exact.Qlt_bool a b then b else a).
Proof.
  unfold Math_max, isNaN. js_unfold. rewrite !Qle_bool_refl. cbn [negb orb].
  destruct (Exact.Qlt_bool a b); reflexivity.
Qed.

Lemma Math_abs_Fin (x : Q) :
  Math_abs (Fin x) = Fin (if Qle_bool x 0 then 0 - x else x).
Proof.
  unfold Math_abs. js_unfold. destruct (Qle_bool x 0); reflexivity.
Qed.

Lemma round2_in_range (x : Q) : 0 <= x <= 100 -> 0 <= round2 x <= 100.
Proof.
  intros [L U]. split.
  - apply round2_nonneg, L.
  - apply Qle_trans with (round2 100); [|vm_compute; discriminate].
    apply round2_monotone, U.
Qed.

(** The accuracy that the resolve route computes. *)
Lemma resolve_accuracy_value (alert : AlertRoutes.Alert number)
    (actual predicted : Q) :
  WasteAlert.predictedWasteQty (AlertRoutes.document alert) = Fin predicted ->
  0 < predicted ->
  AlertRoutes.accuracy (AlertRoutes.resolve (Some (Fin actual)) alert)
  = Some
      (Fin
         (round2
            (let error := (actual - predicted) / predicted * 100 in
             let distance := if Qle_bool error 0 then 0 - error else error in
             if Exact.Qlt_bool 0 (100 - distance) then 100 - distance
             else 0)%Q)).
Proof.
  intros E P. unfold AlertRoutes.resolve. cbv zeta.
  cbn [AlertRoutes.set_status AlertRoutes.document
       WasteAlert.predictedWasteQty].
  rewrite E.
  assert (G : (Fin predicted >? lit 0) = true) by (apply gt_Fin, P).
  rewrite G. cbn [AlertRoutes.accuracy]. js_unfold.
  rewrite div_Fin by lra. js_unfold.
  rewrite Math_abs_Fin. js_unfold. rewrite Math_max_Fin. js_unfold.
  rewrite div_Fin by (intro A; discriminate A).
  reflexivity.
Qed.

(** X12. The accuracy that PUT /api/alerts/:id/resolve stores.  For an
    alert with a positive predicted waste and any actual waste, it is a
    number of [0, 100]: 100 when the actual waste is the predicted
    one, 0 when there was no waste (or less) or at least twice the
    predicted waste.  Without a positive predicted waste, or without an
    actual waste in the request, the route leaves the accuracy as it
    was.  In exact arithmetic. *)
Theorem resolve_accuracy (alert : AlertRoutes.Alert number) :
  (forall actual predicted : Q,
      WasteAlert.predictedWasteQty (AlertRoutes.document alert)
      = Fin predicted ->
      0 < predicted ->
      exists accuracy : Q,
        AlertRoutes.accuracy (AlertRoutes.resolve (Some (Fin actual)) alert)
        = Some (Fin accuracy)
        /\ 0 <= accuracy <= 100
        /\ (actual == predicted -> accuracy == 100)
        /\ (actual <= 0 \/ (2 * predicted <= actual)%Q -> accuracy == 0))
  /\ (forall actual : number,
         (WasteAlert.predictedWasteQty (AlertRoutes.document alert)
          >? lit 0) = false ->
         AlertRoutes.accuracy (AlertRoutes.resolve (Some actual) alert)
         = AlertRoutes.accuracy alert)
  /\ AlertRoutes.accuracy (AlertRoutes.resolve None alert)
     = AlertRoutes.accuracy alert.
Proof.
  split; [|split].
  - intros actual predicted E P.
    rewrite (resolve_accuracy_value alert actual E P).
    eexists. split; [reflexivity|]. cbv zeta.
    set (error := ((actual - predicted) / predicted * 100)%Q).
    assert (Er : (error * predicted == (actual - predicted) * 100)%Q)
      by (unfold error; field; lra).
    split; [|split].
    + apply round2_in_range. qcases; lra.
    + intro Ea.
      assert (Z : error == 0).
      { unfold error. rewrite Ea. field. lra. }
      apply Qeq_trans with (round2 100); [|reflexivity].
      apply round2_comp. qcases; lra.
    + intro Far.
      apply Qeq_trans with (round2 0); [|reflexivity].
      apply round2_comp.
      assert (B : error <= -100 \/ 100 <= error).
      { destruct Far as [L|L].
        - left. apply Qmult_le_r with predicted; [exact P|]. rewrite Er. lra.
        - right. apply Qmult_le_r with predicted; [exact P|]. rewrite Er.
          lra. }
      qcases; lra.
  - intros actual G. unfold AlertRoutes.resolve. cbv zeta.
    cbn [AlertRoutes.set_status AlertRoutes.document
         WasteAlert.predictedWasteQty].
    rewrite G. reflexivity.
  - reflexivity.
Qed.

Lemma resolve_accuracy_witness :
  exists accuracy : Q,
    AlertRoutes.accuracy
      (AlertRoutes.resolve (Some (Fin 15))
         (new_alert (stored_alert WasteAlert.active WasteAlert.high)))
    = Some (Fin accuracy)
    /\ 0 <= accuracy <= 100
    /\ (15 == 20 -> accuracy == 100)
    /\ (15 <= 0 \/ (2 * 20 <= 15)%Q -> accuracy == 0).
Proof.
  apply (proj1 (resolve_accuracy
                  (new_alert (stored_alert WasteAlert.active WasteAlert.high)))
           15 20).
  - reflexivity.
  - reflexivity.
Defined.

Lemma handled_is_not_active {N : Type} `{JSNumber N} (how : Handling N)
    (alert : AlertRoutes.Alert N) :
  WasteAlert.Status_beq
    (WasteAlert.status (AlertRoutes.document (handle how alert)))
    WasteAlert.active = false.
Proof.
  destruct how as [|[actual|]|]; try reflexivity.
  unfold handle, AlertRoutes.resolve. cbv zeta.
  cbn [AlertRoutes.set_status AlertRoutes.document
       WasteAlert.predictedWasteQty].
  destruct (WasteAlert.predictedWasteQty (AlertRoutes.document alert)
            >? lit 0); reflexivity.
Qed.

(** X13. Once every alert of a population has been acknowledged,
    resolved or dismissed through the alert routes, in any mix, the
    waste score of the population is [NaN]: no alert is active any
    more and the critical rate is 0 / 0.  In particular a population
    whose alerts have all been resolved does not score 100.  In exact
    arithmetic. *)
Theorem waste_score_after_every_alert_is_handled
    (alerts : list (AlertRoutes.Alert number))
    (how : AlertRoutes.Alert number -> Handling number) :
  alerts <> [] ->
  Analytics.calculateWasteScore
    (map (fun alert => AlertRoutes.document (handle (how alert) alert)) alerts)
  = NotANumber.
Proof.
  intro NE. apply waste_score_without_active.
  - destruct alerts; [contradiction | discriminate].
  - unfold count_status. apply length_zero_iff_nil.
    clear NE. induction alerts as [|a l IH]; [reflexivity|].
    cbn [map filter]. rewrite handled_is_not_active. exact IH.
Qed.

Lemma waste_score_after_every_alert_is_handled_witness :
  Analytics.calculateWasteScore
    (map
       (fun alert =>
          AlertRoutes.document (handle (Resolve (Some (Fin 15))) alert))
       [new_alert (stored_alert WasteAlert.active WasteAlert.high)])
  = NotANumber
  /\ isNaN
       (Analytics.calculateWasteScore
          (map
             (fun alert =>
                AlertRoutes.document
                  (handle (Resolve (Some (lit 15 : float))) alert))
             [new_alert (stored_alert WasteAlert.active WasteAlert.high)]))
     = true.
Proof.
  split; [|vm_compute; reflexivity].
  apply (@waste_score_after_every_alert_is_handled
           [new_alert (stored_alert WasteAlert.active WasteAlert.high)]
           (fun _ => Resolve (Some (Fin 15)))).
  discriminate.
Defined.

(** X14. With at least one active alert the waste score is defined: it
    is resolved / total x 100 - critical-and-active / active x 30,
    clamped, a number of [0, 100].  In exact arithmetic. *)
Theorem waste_score_with_an_active_alert (alerts : list (WasteAlert.t number)) :
  count_status WasteAlert.active alerts <> 0%nat ->
  Analytics.calculateWasteScore alerts
  =v= Fin (Spec.wasteScore (List.length alerts)
             (count_status WasteAlert.resolved alerts)
             (count_status WasteAlert.active alerts)
             (count_critical_active alerts))
  /\ in_0_100 (Analytics.calculateWasteScore alerts).
Proof.
  intro NA. pose proof (waste_score_with_active alerts NA) as V.
  split; [exact V|].
  eexists. split; [exact V|]. apply clamp_bounds.
Qed.

Lemma waste_score_with_an_active_alert_witness :
  Analytics.calculateWasteScore
    [stored_alert WasteAlert.active WasteAlert.critical;
     stored_alert WasteAlert.resolved WasteAlert.low]
  =v= Fin 20
  /\ in_0_100
       (Analytics.calculateWasteScore
          [stored_alert WasteAlert.active WasteAlert.critical;
           stored_alert WasteAlert.resolved WasteAlert.low]).
Proof.
  destruct (@waste_score_with_an_active_alert
              [stored_alert WasteAlert.active WasteAlert.critical;
               stored_alert WasteAlert.resolved WasteAlert.low])
    as (V & R).
  - discriminate.
  - split; [|exact R].
    eapply same_value_trans; [exact V|]. vm_compute. reflexivity.
Defined.

(* ================================================================= *)
(** ** Further properties: suppliers and products *)

(** The ESG score of a supplier as a function of its audit documents:
    a part that the documents do not touch, and 5 per verified
    document up to 20, capped at 100. *)
Lemma esg_shape (this : Supplier.t number)
    (docs1 docs2 : list Supplier.AuditDoc) :
  exists s : Q,
    0 <= s
    /\ Supplier.calculateESGScore (with_docs this docs1)
       = Math_min
           (Fin s
            + Math_min (Fin (inject_Z (Z.of_nat (verified_docs docs1)) * 5))
                (Fin 20))
           (Fin 100)
    /\ Supplier.calculateESGScore (with_docs this docs2)
       = Math_min
           (Fin s
            + Math_min (Fin (inject_Z (Z.of_nat (verified_docs docs2)) * 5))
                (Fin 20))
           (Fin 100).
Proof.
  unfold Supplier.calculateESGScore, with_docs.
  cbn [Supplier.auditDocs Supplier.sustainabilityMetrics
       Supplier.certificationLevel].
  cbv zeta.
  match goal with
  | |- context [Math_min (?score + Math_min _ _) _] =>
      assert (F : finite_nonneg score) by nonneg_steps;
      destruct F as (s & -> & Ps)
  end.
  exists s. split; [exact Ps|]. split; reflexivity.
Qed.

(** Decide every comparison of rationals, also those inside another
    comparison. *)
Ltac qcases_all :=
  repeat match goal with
    | |- context [Exact.Qlt_bool ?a ?b] =>
        destruct (Exact.Qlt_bool a b) eqn:?
    | |- context [Qle_bool ?a ?b] => destruct (Qle_bool a b) eqn:?
    | H : context [if Exact.Qlt_bool ?a ?b then _ else _] |- _ =>
        destruct (Exact.Qlt_bool a b) eqn:?
    | H : context [if Qle_bool ?a ?b then _ else _] |- _ =>
        destruct (Qle_bool a b) eqn:?
    end;
  qprop.

Lemma verified_docs_app (docs : list Supplier.AuditDoc)
    (doc : Supplier.AuditDoc) :
  verified_docs (docs ++ [doc])
  = (verified_docs docs + if Supplier.verified doc then 1 else 0)%nat.
Proof.
  unfold verified_docs. rewrite filter_app, length_app. cbn [filter].
  destruct (Supplier.verified doc); reflexivity.
Qed.

(** X16. One more audit document and the ESG score.  A document that
    is not verified leaves the score as it is; a verified one never
    lowers it and raises it by at most 5; and from the fourth verified
    document on, a further one changes nothing.  For every supplier,
    in exact arithmetic. *)
Theorem esg_score_and_one_more_document (this : Supplier.t number)
    (docs : list Supplier.AuditDoc) (doc : Supplier.AuditDoc) :
  exists before after : Q,
    Supplier.calculateESGScore (with_docs this docs) = Fin before
    /\ Supplier.calculateESGScore (with_docs this (docs ++ [doc])) = Fin after
    /\ before <= after <= before + 5
    /\ (Supplier.verified doc = false -> after == before)
    /\ ((4 <= verified_docs docs)%nat -> after == before).
Proof.
  destruct (esg_shape this docs (docs ++ [doc])) as (s & Ps & -> & ->).
  rewrite verified_docs_app.
  set (k := verified_docs docs).
  js_unfold. rewrite !Math_min_Fin. js_unfold. rewrite ?Math_min_Fin.
  eexists. eexists. split; [reflexivity|]. split; [reflexivity|].
  assert (Pk : 0 <= inject_Z (Z.of_nat k)).
  { change 0 with (inject_Z 0). rewrite <- Zle_Qle. lia. }
  destruct (Supplier.verified doc).
  - assert (E : inject_Z (Z.of_nat (k + 1)) == inject_Z (Z.of_nat k) + 1).
    { rewrite Nat2Z.inj_add, inject_Z_plus. reflexivity. }
    set (j := inject_Z (Z.of_nat (k + 1))) in *.
    set (i := inject_Z (Z.of_nat k)) in *.
    split; [|split].
    + qcases_all; lra.
    + discriminate.
    + intro K4.
      assert (4 <= i).
      { unfold i. change 4 with (inject_Z 4). rewrite <- Zle_Qle. lia. }
      qcases_all; lra.
  - rewrite Nat.add_0_r. repeat split; intros; qcases_all; lra.
Qed.

(** The green score as a function of the certifications. *)
Lemma green_shape (this : Product.t number) (certs1 certs2 : list string) :
  exists s : Q,
    Product.calculateGreenScore (with_certifications this certs1)
    =v= Fin (clamp (s + inject_Z (Z.of_nat (List.length certs1)) * 5))
    /\ Product.calculateGreenScore (with_certifications this certs2)
       =v= Fin (clamp (s + inject_Z (Z.of_nat (List.length certs2)) * 5)).
Proof.
  unfold Product.calculateGreenScore, with_certifications.
  cbn [Product.certifications Product.sustainabilityMetrics
       Product.packagingType Product.baseSpoilageRate].
  cbv zeta.
  match goal with
  | |- context [?score + length_of certs1 * lit 5] =>
      assert (F : finite score) by finite_steps;
      destruct F as (s & ->)
  end.
  unfold length_of.
  destruct (Product.baseSpoilageRate this <? lit 2);
    [|destruct (Product.baseSpoilageRate this <? lit 5);
      [|destruct (Product.baseSpoilageRate this >? lit 15)]];
    js_unfold;
    [exists (s + 10)%Q | exists (s + 5)%Q | exists (s - 10)%Q | exists s];
    (split; (eapply same_value_trans; [apply clamp_exact|]);
     cbn [same_value]; apply clamp_comp; ring).
Qed.

(** X17. One more certification and the green score: it never lowers
    the score and raises it by at most 5, for every product (whatever
    its metrics hold), in exact arithmetic. *)
Theorem green_score_and_one_more_certification (this : Product.t number)
    (certifications : list string) (certification : string) :
  exists before after : Q,
    Product.calculateGreenScore (with_certifications this certifications)
    =v= Fin before
    /\ Product.calculateGreenScore
         (with_certifications this (certifications ++ [certification]))
       =v= Fin after
    /\ before <= after <= before + 5.
Proof.
  destruct (green_shape this certifications
              (certifications ++ [certification])) as (s & B & A).
  eexists. eexists. split; [exact B|]. split; [exact A|].
  rewrite length_app. cbn [List.length].
  rewrite Nat2Z.inj_add, inject_Z_plus.
  change (inject_Z (Z.of_nat 1)) with 1.
  unfold clamp. qcases; lra.
Qed.

(* ================================================================= *)
(** ** Further properties: the sustainability score *)

Lemma improvement_areas (breakdown : AnalyticsRoutes.ScoreBreakdown number) :
  areas (AnalyticsRoutes.getImprovementRecommendations breakdown)
  = filter (needs_improvement breakdown)
      [ AnalyticsRoutes.carbon; AnalyticsRoutes.waste;
        AnalyticsRoutes.supplier; AnalyticsRoutes.product ].
Proof.
  unfold AnalyticsRoutes.getImprovementRecommendations, areas,
    needs_improvement, area_score.
  cbv zeta. cbn [filter].
  destruct (AnalyticsRoutes.carbonScore breakdown <? lit 60);
    destruct (AnalyticsRoutes.supplierScore breakdown <? lit 60);
    destruct (AnalyticsRoutes.productScore breakdown <? lit 60);
    destruct (AnalyticsRoutes.wasteScore breakdown <? lit 60);
    reflexivity.
Qed.

(** X18. The improvement recommendations of a score breakdown: one per
    sub-score below 60, those of high impact first, which is the order
    carbon, waste, supplier, product; a sub-score that is [NaN] calls
    for none.  In exact arithmetic and for every binary64
    breakdown. *)
Theorem improvement_recommendations_in_order :
  (forall breakdown : AnalyticsRoutes.ScoreBreakdown number,
      areas (AnalyticsRoutes.getImprovementRecommendations breakdown)
      = filter (needs_improvement breakdown)
          [ AnalyticsRoutes.carbon; AnalyticsRoutes.waste;
            AnalyticsRoutes.supplier; AnalyticsRoutes.product ])
  /\ (forall breakdown : AnalyticsRoutes.ScoreBreakdown float,
         areas (AnalyticsRoutes.getImprovementRecommendations breakdown)
         = filter (needs_improvement breakdown)
             [ AnalyticsRoutes.carbon; AnalyticsRoutes.waste;
               AnalyticsRoutes.supplier; AnalyticsRoutes.product ])
  /\ (forall (breakdown : AnalyticsRoutes.ScoreBreakdown number)
        (area : AnalyticsRoutes.Area),
         area_score breakdown area = NotANumber ->
         ~ In area
             (areas (AnalyticsRoutes.getImprovementRecommendations breakdown))).
Proof.
  split; [exact improvement_areas | split].
  - intro breakdown.
    unfold AnalyticsRoutes.getImprovementRecommendations, areas,
      needs_improvement, area_score.
    cbv zeta. cbn [filter].
    destruct (AnalyticsRoutes.carbonScore breakdown <? lit 60);
      destruct (AnalyticsRoutes.supplierScore breakdown <? lit 60);
      destruct (AnalyticsRoutes.productScore breakdown <? lit 60);
      destruct (AnalyticsRoutes.wasteScore breakdown <? lit 60);
      vm_compute; reflexivity.
  - intros breakdown area E I. rewrite improvement_areas in I.
    apply filter_In in I. destruct I as (_ & B).
    unfold needs_improvement in B. rewrite E in B. discriminate B.
Qed.

Lemma add_NaN (x : number) : x + NotANumber = NotANumber.
Proof. destruct x; reflexivity. Qed.

(** X19. One undefined sub-score undoes the whole sustainability score.
    When the period has alerts but none of them is active, the waste
    score is [NaN], and so is the overall score, whatever the
    shipments, suppliers and products are: the category of the answer
    is Poor, and no waste recommendation is made.  In exact
    arithmetic. *)
Theorem sustainability_score_without_active_alert
    (shipments : list (Shipment.t number))
    (suppliers : list (Supplier.t number))
    (products : list (Product.t number))
    (alerts : list (WasteAlert.t number)) :
  alerts <> [] ->
  count_status WasteAlert.active alerts = 0%nat ->
  let analytics :=
    AnalyticsRoutes.sustainabilityScore shipments suppliers products alerts in
  AnalyticsRoutes.overallScore (AnalyticsRoutes.score analytics) = NotANumber
  /\ AnalyticsRoutes.wasteScore (AnalyticsRoutes.score analytics) = NotANumber
  /\ AnalyticsRoutes.ScoreCategory.category (AnalyticsRoutes.category analytics)
     = Virtual.Poor
  /\ ~ In AnalyticsRoutes.waste
         (areas (AnalyticsRoutes.recommendations analytics)).
Proof.
  intros NE NA analytics.
  assert (O : AnalyticsRoutes.overallScore (AnalyticsRoutes.score analytics)
              = NotANumber).
  { subst analytics. unfold AnalyticsRoutes.sustainabilityScore. cbv zeta.
    cbn [AnalyticsRoutes.score AnalyticsRoutes.overallScore].
    rewrite (waste_score_without_active NE NA).
    change (NotANumber * lit (2 # 10)) with NotANumber.
    rewrite add_NaN. reflexivity. }
  assert (W : AnalyticsRoutes.wasteScore (AnalyticsRoutes.score analytics)
              = NotANumber).
  { subst analytics. unfold AnalyticsRoutes.sustainabilityScore. cbv zeta.
    cbn [AnalyticsRoutes.score AnalyticsRoutes.wasteScore].
    rewrite (waste_score_without_active NE NA). reflexivity. }
  split; [exact O|]. split; [exact W|]. split.
  - subst analytics. unfold AnalyticsRoutes.sustainabilityScore in *.
    cbv zeta in *.
    cbn [AnalyticsRoutes.score AnalyticsRoutes.overallScore
         AnalyticsRoutes.category] in *.
    rewrite O. reflexivity.
  - subst analytics. unfold AnalyticsRoutes.sustainabilityScore in *.
    cbv zeta in *.
    cbn [AnalyticsRoutes.score AnalyticsRoutes.wasteScore
         AnalyticsRoutes.recommendations] in *.
    rewrite improvement_areas. intro I.
    apply filter_In in I. destruct I as (_ & B).
    unfold needs_improvement, area_score in B.
    cbn [AnalyticsRoutes.wasteScore] in B. rewrite W in B. discriminate B.
Qed.

Lemma sustainability_score_without_active_alert_witness :
  let analytics :=
    AnalyticsRoutes.sustainabilityScore
      [shipment Shipment.electric (Some Shipment.van) 10 100 None]
      [supplier (Some Supplier.BCorp) 5 60 90 []]
      [product (Some Product.minimal) (1 # 2) 5 1 []]
      [stored_alert WasteAlert.resolved WasteAlert.low] in
  AnalyticsRoutes.overallScore (AnalyticsRoutes.score analytics) = NotANumber
  /\ AnalyticsRoutes.wasteScore (AnalyticsRoutes.score analytics) = NotANumber
  /\ AnalyticsRoutes.ScoreCategory.category (AnalyticsRoutes.category analytics)
     = Virtual.Poor
  /\ ~ In AnalyticsRoutes.waste
         (areas (AnalyticsRoutes.recommendations analytics)).
Proof.
  apply sustainability_score_without_active_alert.
  - discriminate.
  - reflexivity.
Defined.

(* ----------------------------------------------------------------- *)
(** *** The score within its range *)

Lemma in_0_100_Fin (x : number) :
  in_0_100 x <-> exists q : Q, x = Fin q /\ 0 <= q <= 100.
Proof.
  split.
  - intros (q & V & R). destruct (@same_value_Fin _ _ V) as (r & E & Er).
    exists r. split; [exact E|]. rewrite Er. exact R.
  - intros (q & -> & R). exists q. split; [apply same_value_refl | exact R].
Qed.

(** A sum of numbers of [lo, hi]. *)
Lemma sum_within (A : Type) (f : A -> number) (lo hi : Q) (l : list A) :
  Forall (fun x => exists q : Q, f x = Fin q /\ lo <= q <= hi) l ->
  forall acc : Q,
    exists s : Q,
      fold_left (fun sum x => sum + f x) l (Fin acc) = Fin s
      /\ acc + inject_Z (Z.of_nat (List.length l)) * lo <= s
      /\ s <= acc + inject_Z (Z.of_nat (List.length l)) * hi.
Proof.
  induction l as [|x l IH]; intros F acc.
  - exists acc. split; [reflexivity|].
    cbn [List.length Z.of_nat]. change (inject_Z 0) with 0. lra.
  - inversion F as [|? ? (q & Eq & Rq) Fl]; subst.
    destruct (IH Fl (acc + q)%Q) as (s & Es & Ls & Us).
    exists s. split.
    + cbn [fold_left]. rewrite Eq. exact Es.
    + cbn [List.length]. rewrite Nat2Z.inj_succ, <- Z.add_1_r, inject_Z_plus.
      change (inject_Z 1) with 1.
      set (n := inject_Z (Z.of_nat (List.length l))) in *. lra.
Qed.

(** An average of numbers of [0, 100], and the average capped at
    100. *)
Lemma average_in_range (A : Type) (f : A -> number) (l : list A) :
  l <> [] ->
  Forall (fun x => in_0_100 (f x)) l ->
  in_0_100 (Analytics.sum_by f l / length_of l).
Proof.
  intros NE F.
  assert (F' : Forall (fun x => exists q : Q, f x = Fin q /\ 0 <= q <= 100) l).
  { eapply Forall_impl; [|exact F]. intros x Hx. apply in_0_100_Fin, Hx. }
  destruct (sum_within f F' 0) as (s & Es & Ls & Us).
  unfold Analytics.sum_by. change (lit 0) with (Fin 0). rewrite Es.
  set (n := inject_Z (Z.of_nat (List.length l))) in *.
  assert (Pn : 0 < n).
  { unfold n. change 0 with (inject_Z 0). rewrite <- Zlt_Qlt.
    destruct l; [contradiction | simpl; lia]. }
  unfold length_of. fold n. cbn [lit number_JSNumber div].
  rewrite div_Fin by lra.
  assert (L : 0 <= s / n) by (apply Qle_shift_div_l; lra).
  assert (U : s / n <= 100) by (apply Qle_shift_div_r; lra).
  apply in_0_100_Fin. eexists. split; [reflexivity|]. split; assumption.
Qed.

Lemma capped_average (A : Type) (f : A -> number) (l : list A) :
  l <> [] ->
  Forall (fun x => in_0_100 (f x)) l ->
  in_0_100 (Math_min (lit 100) (Analytics.sum_by f l / length_of l)).
Proof.
  intros NE F. pose proof (average_in_range f NE F) as R.
  apply in_0_100_Fin in R. destruct R as (q & -> & R).
  change (lit 100) with (Fin 100). rewrite Math_min_Fin.
  apply in_0_100_Fin. eexists. split; [reflexivity|].
  destruct (Exact.Qlt_bool q 100); lra.
Qed.

Lemma carbon_score_in_range (shipments : list (Shipment.t number)) :
  in_0_100 (Analytics.calculateCarbonScore shipments).
Proof.
  unfold Analytics.calculateCarbonScore. cbv zeta.
  repeat match goal with
    | |- context [if ?c then _ else _] => destruct c
    end;
    apply in_0_100_Fin; eexists; (split; [reflexivity|]);
    split; discriminate.
Qed.

Lemma supplier_score_in_range (suppliers : list (Supplier.t number)) :
  Forall (fun s => in_0_100 (Supplier.ESGscore s)) suppliers ->
  in_0_100 (Analytics.calculateSupplierScore suppliers).
Proof.
  intro F. unfold Analytics.calculateSupplierScore.
  destruct suppliers as [|s l].
  - apply in_0_100_Fin. exists 0. split; [reflexivity | split; discriminate].
  - cbn [List.length Nat.eqb]. cbv zeta.
    apply capped_average; [discriminate | exact F].
Qed.

Lemma product_score_in_range (products : list (Product.t number)) :
  Forall
    (fun p => in_0_100 (Product.greenScore (Product.sustainabilityMetrics p)))
    products ->
  in_0_100 (Analytics.calculateProductScore products).
Proof.
  intro F. unfold Analytics.calculateProductScore.
  destruct products as [|p l].
  - apply in_0_100_Fin. exists 0. split; [reflexivity | split; discriminate].
  - cbn [List.length Nat.eqb]. cbv zeta.
    apply (@capped_average _
             (fun p => Product.greenScore (Product.sustainabilityMetrics p)));
      [discriminate | exact F].
Qed.

Lemma waste_score_in_range (alerts : list (WasteAlert.t number)) :
  alerts = [] \/ count_status WasteAlert.active alerts <> 0%nat ->
  in_0_100 (Analytics.calculateWasteScore alerts).
Proof.
  intros [-> | NA].
  - apply in_0_100_Fin. exists 100. split; [reflexivity | split; discriminate].
  - eexists. split; [apply waste_score_with_active, NA | apply clamp_bounds].
Qed.

Lemma rounded_in_range (x : number) :
  in_0_100 x -> in_0_100 (Math_round (x * lit 100) / lit 100).
Proof.
  intro R. apply in_0_100_Fin in R. destruct R as (q & -> & R).
  js_unfold. rewrite div_Fin by (intro A; discriminate A).
  apply in_0_100_Fin. eexists. split; [reflexivity|].
  apply (round2_in_range R).
Qed.

(** The overall score and the sub-scores of the breakdown, for stored
    scores within their range. *)
Lemma sustainability_breakdown_range
    (shipments : list (Shipment.t number))
    (suppliers : list (Supplier.t number))
    (products : list (Product.t number))
    (alerts : list (WasteAlert.t number)) :
  stored_scores_in_range suppliers products ->
  alerts = [] \/ count_status WasteAlert.active alerts <> 0%nat ->
  let breakdown :=
    AnalyticsRoutes.score
      (AnalyticsRoutes.sustainabilityScore shipments suppliers products
         alerts) in
  in_0_100 (AnalyticsRoutes.overallScore breakdown)
  /\ in_0_100 (AnalyticsRoutes.carbonScore breakdown)
  /\ in_0_100 (AnalyticsRoutes.supplierScore breakdown)
  /\ in_0_100 (AnalyticsRoutes.productScore breakdown)
  /\ in_0_100 (AnalyticsRoutes.wasteScore breakdown).
Proof.
  intros (Fs & Fp) Wa breakdown. subst breakdown.
  unfold AnalyticsRoutes.sustainabilityScore. cbv zeta.
  cbn [AnalyticsRoutes.score AnalyticsRoutes.overallScore
       AnalyticsRoutes.carbonScore AnalyticsRoutes.supplierScore
       AnalyticsRoutes.productScore AnalyticsRoutes.wasteScore].
  pose proof (carbon_score_in_range shipments) as C.
  pose proof (supplier_score_in_range Fs) as S.
  pose proof (product_score_in_range Fp) as P.
  pose proof (waste_score_in_range Wa) as W.
  split; [|repeat split; apply rounded_in_range; assumption].
  apply in_0_100_Fin in C, S, P, W.
  destruct C as (c & -> & Rc), S as (s & -> & Rs), P as (p & -> & Rp),
    W as (w & -> & Rw).
  js_unfold. rewrite div_Fin by (intro A; discriminate A).
  apply in_0_100_Fin. eexists. split; [reflexivity|].
  apply (@round2_in_range
           (c * (3 # 10) + s * (25 # 100) + p * (25 # 100) + w * (2 # 10))).
  lra.
Qed.

Lemma sustainability_range
    (shipments : list (Shipment.t number))
    (suppliers : list (Supplier.t number))
    (products : list (Product.t number))
    (alerts : list (WasteAlert.t number)) :
  stored_scores_in_range suppliers products ->
  alerts = [] \/ count_status WasteAlert.active alerts <> 0%nat ->
  in_0_100
    (AnalyticsRoutes.overallScore
       (AnalyticsRoutes.score
          (AnalyticsRoutes.sustainabilityScore shipments suppliers products
             alerts))).
Proof.
  intros S W. apply (sustainability_breakdown_range shipments S W).
Qed.

(** X20. The sustainability score stays within [0, 100], and so does
    every sub-score of its breakdown, when the stored ESG scores and
    green scores are within [0, 100] and the waste score is defined
    (the period has no alert, or an active one).  In exact
    arithmetic. *)
Theorem sustainability_score_in_range
    (shipments : list (Shipment.t number))
    (suppliers : list (Supplier.t number))
    (products : list (Product.t number))
    (alerts : list (WasteAlert.t number)) :
  stored_scores_in_range suppliers products ->
  alerts = [] \/ count_status WasteAlert.active alerts <> 0%nat ->
  let breakdown :=
    AnalyticsRoutes.score
      (AnalyticsRoutes.sustainabilityScore shipments suppliers products
         alerts) in
  in_0_100 (AnalyticsRoutes.overallScore breakdown)
  /\ in_0_100 (AnalyticsRoutes.carbonScore breakdown)
  /\ in_0_100 (AnalyticsRoutes.supplierScore breakdown)
  /\ in_0_100 (AnalyticsRoutes.productScore breakdown)
  /\ in_0_100 (AnalyticsRoutes.wasteScore breakdown).
Proof.
  intros S W. apply (sustainability_breakdown_range shipments S W).
Qed.

Lemma sustainability_score_in_range_witness :
  let breakdown :=
    AnalyticsRoutes.score
      (AnalyticsRoutes.sustainabilityScore
         [shipment Shipment.electric (Some Shipment.van) 10 100 None]
         [supplier (Some Supplier.BCorp) 5 60 90 []]
         [product (Some Product.minimal) (1 # 2) 5 1 []]
         [stored_alert WasteAlert.active WasteAlert.low;
          stored_alert WasteAlert.resolved WasteAlert.low]) in
  in_0_100 (AnalyticsRoutes.overallScore breakdown)
  /\ in_0_100 (AnalyticsRoutes.carbonScore breakdown)
  /\ in_0_100 (AnalyticsRoutes.supplierScore breakdown)
  /\ in_0_100 (AnalyticsRoutes.productScore breakdown)
  /\ in_0_100 (AnalyticsRoutes.wasteScore breakdown).
Proof.
  apply sustainability_score_in_range.
  - split; repeat constructor; eexists;
      (split; [apply same_value_refl | split; discriminate]).
  - right. discriminate.
Defined.

(* ================================================================= *)
(** ** Further properties: the waste prediction *)











(* ================================================================= *)
(** ** Further properties: summaries and categories *)

(** X24. The alert summary counts three of the four statuses: the
    total of GET /api/alerts/analytics/summary is the sum of its
    active, resolved and dismissed counts and of the acknowledged
    alerts, which the summary does not report.  In any arithmetic. *)
Theorem alert_summary_counts :
  forall (N : Type) (JS : JSNumber N) (alerts : list (AlertRoutes.Alert N)),
    let summary := AlertRoutes.summary alerts in
    AlertRoutes.totalAlerts summary
    = (AlertRoutes.activeAlerts summary + AlertRoutes.resolvedAlerts summary
       + AlertRoutes.dismissedAlerts summary
       + count_stored WasteAlert.acknowledged alerts)%nat.
Proof.
  intros N JS alerts summary. subst summary.
  unfold AlertRoutes.summary, count_stored. cbv zeta.
  cbn [AlertRoutes.totalAlerts AlertRoutes.activeAlerts
       AlertRoutes.resolvedAlerts AlertRoutes.dismissedAlerts].
  induction alerts as [|a l IH]; [reflexivity|].
  cbn [filter List.length].
  repeat match goal with
    | |- context [AlertRoutes.has_status ?s a] =>
        change (AlertRoutes.has_status s a)
          with (WasteAlert.Status_beq
                  (WasteAlert.status (AlertRoutes.document a)) s)
    end.
  destruct (WasteAlert.status (AlertRoutes.document a));
    cbn [WasteAlert.Status_beq List.length]; lia.
Qed.

(** Alerts none of which stores an accuracy. *)
Lemma no_stored_accuracy {N : Type} (alerts : list (AlertRoutes.Alert N)) :
  Forall (fun alert => AlertRoutes.accuracy alert = None) alerts ->
  filter
    (fun alert : AlertRoutes.Alert N =>
       match AlertRoutes.accuracy alert with
       | Some _ => true
       | None => false
       end) alerts = [].
Proof.
  induction 1 as [|a l E F IH]; [reflexivity|].
  cbn [filter]. rewrite E. exact IH.
Qed.

(** X25. The average accuracy of the alert summary is a number of
    [0, 100] when every accuracy that the alerts store is one, as
    the resolve route writes them (in exact arithmetic); and when no
    alert stores an accuracy it is 0 (in exact arithmetic and in
    binary64). *)
Theorem alert_summary_accuracy :
  (forall alerts : list (AlertRoutes.Alert number),
      Forall (fun alert => accuracy_in_range (AlertRoutes.accuracy alert))
        alerts ->
      in_0_100 (AlertRoutes.avgAccuracy (AlertRoutes.summary alerts)))
  /\ (forall alerts : list (AlertRoutes.Alert number),
        Forall (fun alert => AlertRoutes.accuracy alert = None) alerts ->
        AlertRoutes.avgAccuracy (AlertRoutes.summary alerts) =v= Fin 0)
  /\ (forall alerts : list (AlertRoutes.Alert float),
        Forall (fun alert => AlertRoutes.accuracy alert = None) alerts ->
        AlertRoutes.avgAccuracy (AlertRoutes.summary alerts) = 0%float).
Proof.
  split; [|split].
  - intros alerts F. unfold AlertRoutes.summary. cbv zeta.
    cbn [AlertRoutes.avgAccuracy].
    apply rounded_in_range.
    set (stored := filter
                     (fun alert : AlertRoutes.Alert number =>
                        match AlertRoutes.accuracy alert with
                        | Some _ => true
                        | None => false
                        end) alerts).
    destruct stored as [|a l] eqn:Es.
    + apply in_0_100_Fin. exists 0.
      split; [reflexivity | split; discriminate].
    + cbn [List.length Nat.ltb Nat.leb].
      assert (Fs : Forall
                     (fun alert =>
                        in_0_100
                          (Shipment.Number (AlertRoutes.accuracy alert)))
                     (a :: l)).
      { rewrite <- Es. unfold stored. rewrite Forall_forall in *.
        intros x I. apply filter_In in I. destruct I as (I & S).
        specialize (F x I).
        destruct (AlertRoutes.accuracy x); [|discriminate].
        apply in_0_100_Fin. exact F. }
      apply (@average_in_range _
               (fun alert => Shipment.Number (AlertRoutes.accuracy alert))
               (a :: l) ltac:(discriminate) Fs).
  - intros alerts F. unfold AlertRoutes.summary. cbv zeta.
    cbn [AlertRoutes.avgAccuracy].
    rewrite (no_stored_accuracy F). vm_compute. reflexivity.
  - intros alerts F. unfold AlertRoutes.summary. cbv zeta.
    cbn [AlertRoutes.avgAccuracy].
    rewrite (no_stored_accuracy F). vm_compute. reflexivity.
Qed.

Lemma alert_summary_accuracy_witness :
  in_0_100
    (AlertRoutes.avgAccuracy
       (AlertRoutes.summary
          [ AlertRoutes.resolve (Some (Fin 15))
              (new_alert (stored_alert WasteAlert.active WasteAlert.high));
            new_alert (stored_alert WasteAlert.active WasteAlert.low) ]))
  /\ AlertRoutes.avgAccuracy
       (AlertRoutes.summary
          [ AlertRoutes.acknowledge
              (new_alert (stored_alert WasteAlert.active WasteAlert.high));
            new_alert (stored_alert WasteAlert.active WasteAlert.low) ])
     =v= Fin 0
  /\ AlertRoutes.avgAccuracy
       (AlertRoutes.summary
          [ AlertRoutes.dismiss
              (new_alert (stored_alert WasteAlert.active WasteAlert.high));
            new_alert (stored_alert WasteAlert.active WasteAlert.low) ])
     = 0%float.
Proof.
  split; [|split].
  - apply (proj1 alert_summary_accuracy).
    repeat constructor.
    exists (7500 # 100). split; [reflexivity | split; discriminate].
  - apply (proj1 (proj2 alert_summary_accuracy)). repeat constructor.
  - apply (proj2 (proj2 alert_summary_accuracy)). repeat constructor.
Defined.

(** X26. The three categories of a score agree: the [esgCategory] of a
    supplier, the [greenScoreCategory] of a product and the category
    of [getScoreCategory] of the analytics are the same function of
    the stored score, in any arithmetic; and in exact arithmetic a
    higher score never gets a worse category (Excellent from 80, Good
    from 60, Fair from 40, Poor below), while a score that is [NaN] is
    Poor. *)
Theorem score_categories_agree :
  (forall (N : Type) (JS : JSNumber N) (score : N),
      Virtual.esgCategory (supplier_scoring score)
      = AnalyticsRoutes.ScoreCategory.category
          (AnalyticsRoutes.getScoreCategory score)
      /\ Virtual.greenScoreCategory (product_scoring score)
         = AnalyticsRoutes.ScoreCategory.category
             (AnalyticsRoutes.getScoreCategory score))
  /\ (forall a b : Q,
         a <= b ->
         (category_rank
            (AnalyticsRoutes.ScoreCategory.category
               (AnalyticsRoutes.getScoreCategory (Fin b)))
          <= category_rank
               (AnalyticsRoutes.ScoreCategory.category
                  (AnalyticsRoutes.getScoreCategory (Fin a))))%nat)
  /\ AnalyticsRoutes.ScoreCategory.category
       (AnalyticsRoutes.getScoreCategory NotANumber) = Virtual.Poor.
Proof.
  split; [|split; [|reflexivity]].
  - intros N JS score.
    unfold Virtual.esgCategory, Virtual.greenScoreCategory,
      AnalyticsRoutes.getScoreCategory, supplier_scoring, product_scoring.
    cbn [Supplier.ESGscore Product.sustainabilityMetrics Product.greenScore].
    destruct (score >=? lit 80); [split; reflexivity|].
    destruct (score >=? lit 60); [split; reflexivity|].
    destruct (score >=? lit 40); split; reflexivity.
  - intros a b L. unfold AnalyticsRoutes.getScoreCategory, ge. js_unfold.
    destruct (Qle_bool 80 b) eqn:B80; destruct (Qle_bool 60 b) eqn:B60;
      destruct (Qle_bool 40 b) eqn:B40;
      destruct (Qle_bool 80 a) eqn:A80; destruct (Qle_bool 60 a) eqn:A60;
      destruct (Qle_bool 40 a) eqn:A40;
      qprop; cbn [AnalyticsRoutes.ScoreCategory.category category_rank];
      first [lia | exfalso; lra].
Qed.

(* ----------------------------------------------------------------- *)
(** *** The efficiency analytics of the shipments *)

Lemma sum_from_NaN (A : Type) (f : A -> number) (l : list A) :
  fold_left (fun sum x => sum + f x) l NotANumber = NotANumber.
Proof. induction l as [|x l IH]; [reflexivity | exact IH]. Qed.

Lemma sum_with_NaN (A : Type) (f : A -> number) (l : list A) (x : A) :
  In x l -> f x = NotANumber ->
  forall acc : number, fold_left (fun sum x => sum + f x) l acc = NotANumber.
Proof.
  intros I E. induction l as [|y l IH]; [contradiction|].
  intro acc. cbn [fold_left]. destruct I as [-> | I].
  - rewrite E, add_NaN. apply sum_from_NaN.
  - apply IH, I.
Qed.

(** X27. One shipment without a distance undoes the average of its
    transport mode.  In GET /api/shipments/analytics/efficiency the
    carbon per kilometre of a shipment whose distance is zero (which
    the schema and the validators accept) is 0 / 0, and the
    [avgCarbonPerKm] of the mode of that shipment is [NaN], whatever
    the other shipments are.  In exact arithmetic. *)
Theorem zero_distance_undoes_the_mode_average
    (shipments : list (Shipment.t number)) (this : Shipment.t number)
    (mode : Shipment.TransportMode) :
  In this shipments ->
  Shipment.transportMode this = Some mode ->
  Shipment.falsy (Shipment.distanceKm this) = true ->
  exists average : ShipmentAnalytics.ModeAverage number,
    ShipmentAnalytics.modeAverages shipments mode = Some average
    /\ ShipmentAnalytics.avgCarbonPerKm average = NotANumber.
Proof.
  intros I M Z.
  set (item := {| ShipmentAnalytics.carbonPerUnit :=
                    Shipment.carbonKg this
                    / Shipment.Number (Shipment.quantity this);
                  ShipmentAnalytics.carbonPerKm :=
                    Shipment.carbonKg this
                    / Shipment.Number (Shipment.distanceKm this);
                  ShipmentAnalytics.transportMode :=
                    Shipment.transportMode this;
                  ShipmentAnalytics.vehicleType := Shipment.vehicleType this;
                  ShipmentAnalytics.distance := Shipment.distanceKm this;
                  ShipmentAnalytics.quantity := Shipment.quantity this |}).
  assert (Ii : In item (ShipmentAnalytics.efficiencyByMode shipments mode)).
  { unfold ShipmentAnalytics.efficiencyByMode. apply filter_In. split.
    - unfold ShipmentAnalytics.efficiencyData.
      apply (in_map
               (fun shipment : Shipment.t number =>
                  {| ShipmentAnalytics.carbonPerUnit :=
                       Shipment.carbonKg shipment
                       / Shipment.Number (Shipment.quantity shipment);
                     ShipmentAnalytics.carbonPerKm :=
                       Shipment.carbonKg shipment
                       / Shipment.Number (Shipment.distanceKm shipment);
                     ShipmentAnalytics.transportMode :=
                       Shipment.transportMode shipment;
                     ShipmentAnalytics.vehicleType :=
                       Shipment.vehicleType shipment;
                     ShipmentAnalytics.distance :=
                       Shipment.distanceKm shipment;
                     ShipmentAnalytics.quantity :=
                       Shipment.quantity shipment |}) _ _ I).
    - unfold ShipmentAnalytics.has_mode, item.
      cbn [ShipmentAnalytics.transportMode]. rewrite M.
      destruct mode; reflexivity. }
  assert (En : ShipmentAnalytics.carbonPerKm item = NotANumber).
  { unfold item. cbn [ShipmentAnalytics.carbonPerKm].
    unfold Shipment.carbonKg. rewrite carbon_zero_when_falsy by auto.
    destruct (Shipment.distanceKm this) as [d|]; [|reflexivity].
    apply zero_over_falsy. simpl in Z. apply negb_true_iff in Z. exact Z. }
  unfold ShipmentAnalytics.modeAverages.
  destruct (ShipmentAnalytics.efficiencyByMode shipments mode) as [|i l];
    [contradiction|].
  eexists. split; [reflexivity|]. cbv zeta.
  cbn [ShipmentAnalytics.avgCarbonPerKm].
  rewrite (sum_with_NaN (@ShipmentAnalytics.carbonPerKm number) _ _ Ii En).
  reflexivity.
Qed.

Lemma zero_distance_undoes_the_mode_average_witness :
  exists average : ShipmentAnalytics.ModeAverage number,
    ShipmentAnalytics.modeAverages
      [ shipment Shipment.diesel (Some Shipment.truck) 100 500 None;
        shipment Shipment.diesel (Some Shipment.van) 0 20 None ]
      Shipment.diesel = Some average
    /\ ShipmentAnalytics.avgCarbonPerKm average = NotANumber.
Proof.
  apply (@zero_distance_undoes_the_mode_average _
           (shipment Shipment.diesel (Some Shipment.van) 0 20 None)).
  - right. left. reflexivity.
  - reflexivity.
  - reflexivity.
Defined.

(* ----------------------------------------------------------------- *)
(** *** From the stored scores to the sustainability score *)

(** X28. Scores that the code itself has written keep the
    sustainability score within [0, 100]: for any shipments, for
    suppliers whose ESG score a supplier route has recalculated and
    products whose green score the pre-save hook has set, and for
    alerts of which one is active (or no alert at all), the overall
    score of GET /api/analytics/sustainability-score is a number of
    [0, 100].  In exact arithmetic. *)
Theorem saved_scores_keep_the_score_in_range
    (shipments : list (Shipment.t number))
    (suppliers : list (Supplier.t number))
    (products : list (Product.t number))
    (alerts : list (WasteAlert.t number)) :
  alerts = [] \/ count_status WasteAlert.active alerts <> 0%nat ->
  in_0_100
    (AnalyticsRoutes.overallScore
       (AnalyticsRoutes.score
          (AnalyticsRoutes.sustainabilityScore shipments
             (map SupplierRoutes.recalculate suppliers)
             (map (Middleware.product_pre_save true true true true) products)
             alerts))).
Proof.
  intro Wa. apply sustainability_range; [split|exact Wa].
  - apply Forall_forall. intros s I. apply in_map_iff in I.
    destruct I as (s0 & <- & _). apply esg_in_range.
  - apply Forall_forall. intros p I. apply in_map_iff in I.
    destruct I as (p0 & <- & _). apply green_in_range.
Qed.

Lemma saved_scores_keep_the_score_in_range_witness :
  in_0_100
    (AnalyticsRoutes.overallScore
       (AnalyticsRoutes.score
          (AnalyticsRoutes.sustainabilityScore
             [shipment Shipment.electric (Some Shipment.van) 10 100 None]
             (map SupplierRoutes.recalculate
                [supplier (Some Supplier.BCorp) 5 60 90 []])
             (map (Middleware.product_pre_save true true true true)
                [product (Some Product.minimal) (1 # 2) 5 1 []])
             [stored_alert WasteAlert.active WasteAlert.low]))).
Proof.
  apply saved_scores_keep_the_score_in_range. right. discriminate.
Defined.

(* ----------------------------------------------------------------- *)
(** *** The performance comparison *)




